(** * SPDX document builder, verification code and RDF writer

    A shallow embedding of the Python sources under [python_scripts/]:
    - [spdx/parsers/rdfbuilders.py]  (module [Builders]),
    - [spdx/parsers/tagvalue.py], production [p_spdx_id] (module [TagValue]),
    - [core.py] and [utils.py], the package verification code
      (module [VerifCode]),
    - [spdx/writers/rdf.py]          (module [RdfWriter]),
    - [spdx/snippet.py]              (module [SnippetValidate]),
    - [spdx/config.py]               (module [Config]),
    - [utils.py], the version of a package (module [Utils]),
    - [spdx/writers/rdf.py], the files of the package and license
      expressions (modules [PackageWriter] and [LicenseTree]),
    - [spdx/parsers/tagvalue.py], the productions that call the builder
      (module [Productions]).

    Python objects are records of their attributes, an attribute that
    holds [None] is [None : option _], a raised exception is the [Raise]
    outcome of a state-passing computation: the state reached when the
    exception is raised is kept, as Python keeps every mutation made before
    a [raise].  A text is the string of the bytes of its UTF-8 encoding. *)

From Stdlib Require Import String Ascii List Bool Arith NArith Lia.
From Stdlib Require Import Permutation Sorted.
Import ListNotations.
Open Scope string_scope.
Open Scope list_scope.

(** ** Python strings *)

Module Py.

(** [sub in s] *)
Fixpoint contains (sub s : string) : bool :=
  String.prefix sub s ||
  match s with
  | EmptyString => false
  | String _ s' => contains sub s'
  end.

(** [s.startswith(p)] *)
Definition startswith (s p : string) : bool := String.prefix p s.

(** [s.endswith(suffix)] *)
Definition endswith (s suffix : string) : bool :=
  let n := String.length s in
  let m := String.length suffix in
  (m <=? n)%nat && String.eqb (String.substring (n - m) m s) suffix.

(** [s.rstrip(c)] for a one-character argument *)
Fixpoint rstrip (c : ascii) (s : string) : string :=
  match s with
  | EmptyString => EmptyString
  | String a s' =>
      match rstrip c s' with
      | EmptyString => if Ascii.eqb a c then EmptyString else String a EmptyString
      | r => String a r
      end
  end.

(** [s.split(c)] for a one-character separator: never the empty list *)
Fixpoint split (c : ascii) (s : string) : list string :=
  match s with
  | EmptyString => [EmptyString]
  | String a s' =>
      if Ascii.eqb a c then EmptyString :: split c s'
      else match split c s' with
           | [] => [String a EmptyString]
           | p :: ps => String a p :: ps
           end
  end.

(** [l[-1]], [None] standing for [IndexError] *)
Fixpoint last_item {A : Type} (l : list A) : option A :=
  match l with
  | [] => None
  | [x] => Some x
  | _ :: l' => last_item l'
  end.

(** [l[-1].attr = v]: the last item is replaced by [f] of it; [None]
    stands for the [IndexError] of an empty list *)
Fixpoint update_last {A : Type} (f : A -> A) (l : list A) : option (list A) :=
  match l with
  | [] => None
  | [x] => Some [f x]
  | x :: l' => option_map (cons x) (update_last f l')
  end.

(** one of the digits [0] to [9] *)
Definition is_digit (a : ascii) : bool :=
  let n := N_of_ascii a in (48 <=? n)%N && (n <=? 57)%N.

(** *** Decimal digits

    A string holds the UTF-8 encoding of a Python text: on Python 2 the
    parser hands [p[2].decode(encoding='utf-8')] to the builder.  The
    tests for a substring, a prefix or a one-character separator above
    give the same answer on the encoding as on the text.  A class of
    characters such as [\d] is read off the code points. *)

(** the payload of a continuation byte, [10xxxxxx] *)
Definition continuation (a : ascii) : option N :=
  let n := N_of_ascii a in
  if (128 <=? n)%N && (n <? 192)%N then Some (n - 128)%N else None.

(** The character at the head of a text: its code point and what follows
    it.  [None] at the end of the text, and where the bytes are not the
    encoding of a character (a stray continuation byte, a sequence that is
    cut short or longer than the code point needs, a surrogate, a code
    point above [U+10FFFF]). *)
Definition code_point (s : string) : option (N * string) :=
  match s with
  | EmptyString => None
  | String a s1 =>
      let n := N_of_ascii a in
      if (n <? 128)%N then Some (n, s1)
      else if (n <? 192)%N then None
      else if (n <? 224)%N then
        match s1 with
        | String b s2 =>
            match continuation b with
            | Some x =>
                let c := ((n - 192) * 64 + x)%N in
                if (128 <=? c)%N then Some (c, s2) else None
            | None => None
            end
        | EmptyString => None
        end
      else if (n <? 240)%N then
        match s1 with
        | String b (String b' s3) =>
            match continuation b, continuation b' with
            | Some x, Some y =>
                let c := (((n - 224) * 64 + x) * 64 + y)%N in
                if (2048 <=? c)%N && negb ((55296 <=? c)%N && (c <? 57344)%N)
                then Some (c, s3) else None
            | _, _ => None
            end
        | _ => None
        end
      else if (n <? 248)%N then
        match s1 with
        | String b (String b' (String b'' s4)) =>
            match continuation b, continuation b', continuation b'' with
            | Some x, Some y, Some z =>
                let c := ((((n - 240) * 64 + x) * 64 + y) * 64 + z)%N in
                if (65536 <=? c)%N && (c <? 1114112)%N then Some (c, s4) else None
            | _, _, _ => None
            end
        | _ => None
        end
      else None
  end.

(** The decimal digits, the characters of category [Nd]: what [\d] matches
    in a pattern compiled with [re.UNICODE] and what [int] reads.  They
    come in runs of ten consecutive code points with the values 0 to 9;
    these are the zeros of the runs in the Unicode Character Database 14.0,
    the one of CPython 3.11: [0] to [9], the Arabic-Indic digits from
    [U+0660], ..., the segmented digits from [U+1FBF0].  An older database
    has some runs less, a newer one some more. *)
Definition decimal_zeros : list N :=
  [ 48; 1632; 1776; 1984; 2406; 2534; 2662; 2790; 2918; 3046; 3174;
    3302; 3430; 3558; 3664; 3792; 3872; 4160; 4240; 6112; 6160; 6470;
    6608; 6784; 6800; 6992; 7088; 7232; 7248; 42528; 43216; 43264;
    43472; 43504; 43600; 44016; 65296; 66720; 68912; 69734; 69872;
    69942; 70096; 70384; 70736; 70864; 71248; 71360; 71472; 71904;
    72016; 72784; 73040; 73120; 92768; 92864; 93008; 120782; 120792;
    120802; 120812; 120822; 123200; 123632; 125264; 130032 ]%N.

(** the value of a decimal digit, [None] for any other character *)
Definition decimal (c : N) : option N :=
  option_map (fun zero => (c - zero)%N)
    (find (fun zero => (zero <=? c)%N && (c <? zero + 10)%N) decimal_zeros).

(** [\d] at the head of a text: the value of the digit and what follows it *)
Definition digit (s : string) : option (N * string) :=
  match code_point s with
  | Some (c, rest) =>
      match decimal c with
      | Some v => Some (v, rest)
      | None => None
      end
  | None => None
  end.

(** The longest prefix of decimal digits, as their values, and the rest:
    what a greedy [\d*] consumes.  A digit takes at least one byte, so the
    length of the string is fuel enough ([span_digits_rest] in the
    properties). *)
Fixpoint span_digits_fuel (fuel : nat) (s : string) : list N * string :=
  match fuel with
  | O => ([], s)
  | S fuel' =>
      match digit s with
      | Some (v, rest) =>
          let (d, r) := span_digits_fuel fuel' rest in (v :: d, r)
      | None => ([], s)
      end
  end.

Definition span_digits (s : string) : list N * string :=
  span_digits_fuel (String.length s) s.

(** the values of the digits of a text made of decimal digits only *)
Definition digits (s : string) : option (list N) :=
  match span_digits s with
  | (d, EmptyString) => Some d
  | (_, String _ _) => None
  end.

(** [int(s)] on a text of decimal digits, from the values of its digits.
    The number of digits has no bound, as on Python 2.7 and on Python 3
    before 3.11; from 3.11 on, [int] raises [ValueError] on more than
    [sys.int_max_str_digits] digits, 4300 unless set otherwise. *)
Definition int (d : list N) : N :=
  fold_left (fun acc v => (acc * 10 + v)%N) d 0%N.

(** strip a literal prefix *)
Fixpoint strip_prefix (p s : string) : option string :=
  match p, s with
  | EmptyString, _ => Some s
  | String a p', String b s' => if Ascii.eqb a b then strip_prefix p' s' else None
  | String _ _, EmptyString => None
  end.

End Py.

(** ** Exceptions and outcomes *)

Inductive exn : Type :=
| CardinalityError (msg : string)
| OrderError (msg : string)
| SPDXValueError (msg : string)
| InvalidDocumentError (msg : string)
| OSError (path : string)
| AttributeError
| IndexError
| TypeError
| AssertionError.

Inductive outcome (A : Type) : Type :=
| Return (a : A)
| Raise (e : exn).
Arguments Return {A} a.
Arguments Raise {A} e.

(** what a builder method hands back: [True], or [None] when the body
    falls off its end *)
Inductive retval : Type := RTrue | RNone.

(** A computation on a state [S] that returns or raises; the state goes on
    from where the exception left it. *)
Definition SE (S A : Type) : Type := S -> S * outcome A.

Definition ret {S A : Type} (a : A) : SE S A := fun s => (s, Return a).

Definition raise {S A : Type} (e : exn) : SE S A := fun s => (s, Raise e).

Definition bind {S A B : Type} (m : SE S A) (k : A -> SE S B) : SE S B :=
  fun s =>
    match m s with
    | (s', Return a) => k a s'
    | (s', Raise e) => (s', Raise e)
    end.

(** read the state *)
Definition get {S : Type} : SE S S := fun s => (s, Return s).

Declare Scope se_scope.
Delimit Scope se_scope with se.
Notation "x <- m ;; k" := (bind m (fun x => k))
  (at level 61, m at next level, right associativity) : se_scope.
Notation "m ;; k" := (bind m (fun _ => k))
  (at level 61, right associativity) : se_scope.
Open Scope se_scope.

(** [for x in l: body(x)] *)
Fixpoint for_each {S A : Type} (l : list A) (body : A -> SE S unit) : SE S unit :=
  match l with
  | [] => ret tt
  | x :: l' => body x ;; for_each l' body
  end.

(** [map(f, l)], its items taken in order *)
Fixpoint map_each {S A B : Type} (f : A -> SE S B) (l : list A) : SE S (list B) :=
  match l with
  | [] => ret []
  | x :: l' => y <- f x ;; ys <- map_each f l' ;; ret (y :: ys)
  end.

(** ** Licenses

    Modelled from the spec: the license classes of [spdx/document.py],
    which is not among the sources.  Section 3: a license is a catalog
    entry, an extracted license with its text, name, comment and
    cross-references, or a conjunction or disjunction of licenses, "a
    binary expression tree".  The names of the classes and of their
    attributes are those the sources use: [License], [ExtractedLicense],
    [LicenseConjunction], [LicenseDisjunction], [identifier], [full_name],
    [text], [cross_ref], [comment], [license_1], [license_2], [url]. *)

Module Lic.

(** [document.ExtractedLicense]; [full_name] may hold a string or one of
    the two special values, see [pyvalue] *)
Inductive pyvalue : Type :=
| Str (s : string)
| NoAssert       (* utils.NoAssert()  *)
| SPDXNone.      (* utils.SPDXNone()  *)

Record extracted : Type := {
  ex_identifier : string;
  text : string;
  full_name : option pyvalue;
  cross_ref : list string;
  comment : option string }.

(** a license that is neither a conjunction nor a disjunction *)
Inductive single : Type :=
| License (full_name identifier : string)
| ExtractedLicense (e : extracted).

Inductive t : Type :=
| Single (l : single)
| LicenseConjunction (license_1 license_2 : t)
| LicenseDisjunction (license_1 license_2 : t).

(** [lic.identifier] *)
Definition identifier (l : single) : string :=
  match l with
  | License _ i => i
  | ExtractedLicense e => ex_identifier e
  end.

(** Modelled from the spec: the property [License.url] of
    [spdx/document.py], which is not among the sources.  Section 4.7:
    "catalog licenses map to a fixed external URI", the one of the
    license in the SPDX license list. *)
Definition url (l : single) : string :=
  ("http://spdx.org/licenses/" ++ identifier l)%string.

End Lic.

(** What an attribute that is checked with [isinstance] may hold. *)
Inductive pyobj : Type :=
| PyNone
| PyStr (s : string)
| PyNoAssert                 (* utils.NoAssert()  *)
| PySPDXNone                 (* utils.SPDXNone()  *)
| PyLicense (l : Lic.t)      (* an instance of document.License *)
| PyOther.                   (* any other object *)

(** ** The document object model

    [spdx/document.py], [spdx/package.py], [spdx/file.py],
    [spdx/review.py], [spdx/annotation.py], [spdx/checksum.py] and
    [spdx/version.py] declare these classes and are not among the
    sources; [spdx/snippet.py] is.  The fields below are the attributes
    that [rdfbuilders.py] assigns and that the functions of [rdf.py]
    modelled here read. *)

(** [version.Version(major=..., minor=...)] *)
Record Version : Type := { major : N; minor : N }.

(** [checksum.Algorithm(identifier, value)] *)
Record Algorithm : Type := { identifier : string; value : string }.

Module File.
Record t : Type := {
  name : string;
  spdx_id : option string;
  chk_sum : option Algorithm;
  license_comment : option string;
  copyright : option string;
  comment : option string;
  notice : option string;
  dependencies : list string }.
Definition set_spdx_id v (f : t) : t :=
  {| name := name f; spdx_id := v; chk_sum := chk_sum f;
     license_comment := license_comment f; copyright := copyright f;
     comment := comment f; notice := notice f;
     dependencies := dependencies f |}.
Definition set_chk_sum v (f : t) : t :=
  {| name := name f; spdx_id := spdx_id f; chk_sum := v;
     license_comment := license_comment f; copyright := copyright f;
     comment := comment f; notice := notice f;
     dependencies := dependencies f |}.
Definition set_license_comment v (f : t) : t :=
  {| name := name f; spdx_id := spdx_id f; chk_sum := chk_sum f;
     license_comment := v; copyright := copyright f;
     comment := comment f; notice := notice f;
     dependencies := dependencies f |}.
Definition set_copyright v (f : t) : t :=
  {| name := name f; spdx_id := spdx_id f; chk_sum := chk_sum f;
     license_comment := license_comment f; copyright := v;
     comment := comment f; notice := notice f;
     dependencies := dependencies f |}.
Definition set_comment v (f : t) : t :=
  {| name := name f; spdx_id := spdx_id f; chk_sum := chk_sum f;
     license_comment := license_comment f; copyright := copyright f;
     comment := v; notice := notice f;
     dependencies := dependencies f |}.
Definition set_notice v (f : t) : t :=
  {| name := name f; spdx_id := spdx_id f; chk_sum := chk_sum f;
     license_comment := license_comment f; copyright := copyright f;
     comment := comment f; notice := v;
     dependencies := dependencies f |}.
(** [file.File(name)] *)
Definition init (n : string) : t :=
  {| name := n; spdx_id := None; chk_sum := None; license_comment := None;
     copyright := None; comment := None; notice := None;
     dependencies := [] |}.
End File.

Module Package.
Record t : Type := {
  name : option string;
  check_sum : option Algorithm;
  source_info : option string;
  verif_code : option string;
  verif_exc_files : list string;
  license_comment : option string;
  cr_text : option string;
  summary : option string;
  description : option string;
  files : list File.t }.
Definition set_check_sum v (p : t) : t :=
  {| name := name p; check_sum := v; source_info := source_info p;
     verif_code := verif_code p; verif_exc_files := verif_exc_files p;
     license_comment := license_comment p; cr_text := cr_text p;
     summary := summary p; description := description p; files := files p |}.
Definition set_source_info v (p : t) : t :=
  {| name := name p; check_sum := check_sum p; source_info := v;
     verif_code := verif_code p; verif_exc_files := verif_exc_files p;
     license_comment := license_comment p; cr_text := cr_text p;
     summary := summary p; description := description p; files := files p |}.
Definition set_verif_code v (p : t) : t :=
  {| name := name p; check_sum := check_sum p; source_info := source_info p;
     verif_code := v; verif_exc_files := verif_exc_files p;
     license_comment := license_comment p; cr_text := cr_text p;
     summary := summary p; description := description p; files := files p |}.
Definition set_verif_exc_files v (p : t) : t :=
  {| name := name p; check_sum := check_sum p; source_info := source_info p;
     verif_code := verif_code p; verif_exc_files := v;
     license_comment := license_comment p; cr_text := cr_text p;
     summary := summary p; description := description p; files := files p |}.
Definition set_license_comment v (p : t) : t :=
  {| name := name p; check_sum := check_sum p; source_info := source_info p;
     verif_code := verif_code p; verif_exc_files := verif_exc_files p;
     license_comment := v; cr_text := cr_text p;
     summary := summary p; description := description p; files := files p |}.
Definition set_cr_text v (p : t) : t :=
  {| name := name p; check_sum := check_sum p; source_info := source_info p;
     verif_code := verif_code p; verif_exc_files := verif_exc_files p;
     license_comment := license_comment p; cr_text := v;
     summary := summary p; description := description p; files := files p |}.
Definition set_summary v (p : t) : t :=
  {| name := name p; check_sum := check_sum p; source_info := source_info p;
     verif_code := verif_code p; verif_exc_files := verif_exc_files p;
     license_comment := license_comment p; cr_text := cr_text p;
     summary := v; description := description p; files := files p |}.
Definition set_description v (p : t) : t :=
  {| name := name p; check_sum := check_sum p; source_info := source_info p;
     verif_code := verif_code p; verif_exc_files := verif_exc_files p;
     license_comment := license_comment p; cr_text := cr_text p;
     summary := summary p; description := v; files := files p |}.
Definition set_files v (p : t) : t :=
  {| name := name p; check_sum := check_sum p; source_info := source_info p;
     verif_code := verif_code p; verif_exc_files := verif_exc_files p;
     license_comment := license_comment p; cr_text := cr_text p;
     summary := summary p; description := description p; files := v |}.
(** [package.add_exc_file(filename)] appends to [verif_exc_files] *)
Definition add_exc_file (filename : string) (p : t) : t :=
  set_verif_exc_files (verif_exc_files p ++ [filename]) p.
Definition init (n : option string) : t :=
  {| name := n; check_sum := None; source_info := None; verif_code := None;
     verif_exc_files := []; license_comment := None; cr_text := None;
     summary := None; description := None; files := [] |}.
End Package.

Module Snippet.
(** the attributes of [spdx/snippet.py], class [Snippet] *)
Record t : Type := {
  spdx_id : option string;
  name : option string;
  comment : option string;
  copyright : pyobj;
  license_comment : option string;
  snip_from_file_spdxid : option string;
  conc_lics : pyobj;
  licenses_in_snippet : list pyobj }.
Definition set_comment v (s : t) : t :=
  {| spdx_id := spdx_id s; name := name s; comment := v;
     copyright := copyright s; license_comment := license_comment s;
     snip_from_file_spdxid := snip_from_file_spdxid s;
     conc_lics := conc_lics s;
     licenses_in_snippet := licenses_in_snippet s |}.
Definition set_copyright v (s : t) : t :=
  {| spdx_id := spdx_id s; name := name s; comment := comment s;
     copyright := v; license_comment := license_comment s;
     snip_from_file_spdxid := snip_from_file_spdxid s;
     conc_lics := conc_lics s;
     licenses_in_snippet := licenses_in_snippet s |}.
Definition set_license_comment v (s : t) : t :=
  {| spdx_id := spdx_id s; name := name s; comment := comment s;
     copyright := copyright s; license_comment := v;
     snip_from_file_spdxid := snip_from_file_spdxid s;
     conc_lics := conc_lics s;
     licenses_in_snippet := licenses_in_snippet s |}.
(** [__init__(self, spdx_id=None, copyright=None,
    snip_from_file_spdxid=None, conc_lics=None)] *)
Definition init (spdx_id : option string) (copyright : pyobj)
    (snip_from_file_spdxid : option string) (conc_lics : pyobj) : t :=
  {| spdx_id := spdx_id; name := None; comment := None;
     copyright := copyright; license_comment := None;
     snip_from_file_spdxid := snip_from_file_spdxid;
     conc_lics := conc_lics; licenses_in_snippet := [] |}.
(** [add_lics] *)
Definition add_lics (lics : pyobj) (s : t) : t :=
  {| spdx_id := spdx_id s; name := name s; comment := comment s;
     copyright := copyright s; license_comment := license_comment s;
     snip_from_file_spdxid := snip_from_file_spdxid s;
     conc_lics := conc_lics s;
     licenses_in_snippet := licenses_in_snippet s ++ [lics] |}.
End Snippet.

Module Review.
Record t : Type := { reviewer : string; comment : option string }.
Definition set_comment v (r : t) : t :=
  {| reviewer := reviewer r; comment := v |}.
End Review.

Module Annotation.
Record t : Type := {
  annotator : string;
  comment : option string;
  annotation_type : option string }.
Definition set_comment v (a : t) : t :=
  {| annotator := annotator a; comment := v;
     annotation_type := annotation_type a |}.
Definition set_annotation_type v (a : t) : t :=
  {| annotator := annotator a; comment := comment a;
     annotation_type := v |}.
End Annotation.

Module ExternalDocumentRef.
Record t : Type := {
  external_document_id : option string;
  spdx_document_uri : option string;
  check_sum : option Algorithm }.
Definition set_check_sum v (r : t) : t :=
  {| external_document_id := external_document_id r;
     spdx_document_uri := spdx_document_uri r; check_sum := v |}.
End ExternalDocumentRef.

Module Document.
Record t : Type := {
  version : option Version;
  (** [document.License.from_identifier(identifier)], kept as the
      identifier it is made from *)
  data_license : option string;
  name : option string;
  spdx_id : option string;
  comment : option string;
  namespace : option string;
  (** [doc.creation_info.comment] *)
  creation_info_comment : option string;
  package : option Package.t;
  snippet : list Snippet.t;
  reviews : list Review.t;
  annotations : list Annotation.t;
  ext_document_references : list ExternalDocumentRef.t;
  extracted_licenses : list Lic.extracted }.
Definition set_version v (d : t) : t :=
  {| version := v; data_license := data_license d; name := name d;
     spdx_id := spdx_id d; comment := comment d; namespace := namespace d;
     creation_info_comment := creation_info_comment d; package := package d;
     snippet := snippet d; reviews := reviews d; annotations := annotations d;
     ext_document_references := ext_document_references d;
     extracted_licenses := extracted_licenses d |}.
Definition set_data_license v (d : t) : t :=
  {| version := version d; data_license := v; name := name d;
     spdx_id := spdx_id d; comment := comment d; namespace := namespace d;
     creation_info_comment := creation_info_comment d; package := package d;
     snippet := snippet d; reviews := reviews d; annotations := annotations d;
     ext_document_references := ext_document_references d;
     extracted_licenses := extracted_licenses d |}.
Definition set_name v (d : t) : t :=
  {| version := version d; data_license := data_license d; name := v;
     spdx_id := spdx_id d; comment := comment d; namespace := namespace d;
     creation_info_comment := creation_info_comment d; package := package d;
     snippet := snippet d; reviews := reviews d; annotations := annotations d;
     ext_document_references := ext_document_references d;
     extracted_licenses := extracted_licenses d |}.
Definition set_spdx_id v (d : t) : t :=
  {| version := version d; data_license := data_license d; name := name d;
     spdx_id := v; comment := comment d; namespace := namespace d;
     creation_info_comment := creation_info_comment d; package := package d;
     snippet := snippet d; reviews := reviews d; annotations := annotations d;
     ext_document_references := ext_document_references d;
     extracted_licenses := extracted_licenses d |}.
Definition set_comment v (d : t) : t :=
  {| version := version d; data_license := data_license d; name := name d;
     spdx_id := spdx_id d; comment := v; namespace := namespace d;
     creation_info_comment := creation_info_comment d; package := package d;
     snippet := snippet d; reviews := reviews d; annotations := annotations d;
     ext_document_references := ext_document_references d;
     extracted_licenses := extracted_licenses d |}.
Definition set_namespace v (d : t) : t :=
  {| version := version d; data_license := data_license d; name := name d;
     spdx_id := spdx_id d; comment := comment d; namespace := v;
     creation_info_comment := creation_info_comment d; package := package d;
     snippet := snippet d; reviews := reviews d; annotations := annotations d;
     ext_document_references := ext_document_references d;
     extracted_licenses := extracted_licenses d |}.
Definition set_creation_info_comment v (d : t) : t :=
  {| version := version d; data_license := data_license d; name := name d;
     spdx_id := spdx_id d; comment := comment d; namespace := namespace d;
     creation_info_comment := v; package := package d;
     snippet := snippet d; reviews := reviews d; annotations := annotations d;
     ext_document_references := ext_document_references d;
     extracted_licenses := extracted_licenses d |}.
Definition set_package v (d : t) : t :=
  {| version := version d; data_license := data_license d; name := name d;
     spdx_id := spdx_id d; comment := comment d; namespace := namespace d;
     creation_info_comment := creation_info_comment d; package := v;
     snippet := snippet d; reviews := reviews d; annotations := annotations d;
     ext_document_references := ext_document_references d;
     extracted_licenses := extracted_licenses d |}.
Definition set_snippet v (d : t) : t :=
  {| version := version d; data_license := data_license d; name := name d;
     spdx_id := spdx_id d; comment := comment d; namespace := namespace d;
     creation_info_comment := creation_info_comment d; package := package d;
     snippet := v; reviews := reviews d; annotations := annotations d;
     ext_document_references := ext_document_references d;
     extracted_licenses := extracted_licenses d |}.
Definition set_reviews v (d : t) : t :=
  {| version := version d; data_license := data_license d; name := name d;
     spdx_id := spdx_id d; comment := comment d; namespace := namespace d;
     creation_info_comment := creation_info_comment d; package := package d;
     snippet := snippet d; reviews := v; annotations := annotations d;
     ext_document_references := ext_document_references d;
     extracted_licenses := extracted_licenses d |}.
Definition set_annotations v (d : t) : t :=
  {| version := version d; data_license := data_license d; name := name d;
     spdx_id := spdx_id d; comment := comment d; namespace := namespace d;
     creation_info_comment := creation_info_comment d; package := package d;
     snippet := snippet d; reviews := reviews d; annotations := v;
     ext_document_references := ext_document_references d;
     extracted_licenses := extracted_licenses d |}.
Definition set_ext_document_references v (d : t) : t :=
  {| version := version d; data_license := data_license d; name := name d;
     spdx_id := spdx_id d; comment := comment d; namespace := namespace d;
     creation_info_comment := creation_info_comment d; package := package d;
     snippet := snippet d; reviews := reviews d; annotations := annotations d;
     ext_document_references := v;
     extracted_licenses := extracted_licenses d |}.
Definition set_extracted_licenses v (d : t) : t :=
  {| version := version d; data_license := data_license d; name := name d;
     spdx_id := spdx_id d; comment := comment d; namespace := namespace d;
     creation_info_comment := creation_info_comment d; package := package d;
     snippet := snippet d; reviews := reviews d; annotations := annotations d;
     ext_document_references := ext_document_references d;
     extracted_licenses := v |}.
(** [document.Document()] *)
Definition init : t :=
  {| version := None; data_license := None; name := None; spdx_id := None;
     comment := None; namespace := None; creation_info_comment := None;
     package := None; snippet := []; reviews := []; annotations := [];
     ext_document_references := []; extracted_licenses := [] |}.
End Document.

(** ** [spdx/parsers/rdfbuilders.py] *)

Module Builders.

(** The boolean attributes of a builder instance.  [package_set],
    [snippet_spdx_id_set] and [file_spdx_id_set] belong to the parent
    classes of [spdx/parsers/tagvaluebuilders.py]; see
    [assert_package_exists], [assert_snippet_exists] and
    [set_file_spdx_id] below. *)
Inductive flag : Type :=
| doc_version_set | doc_comment_set | doc_namespace_set | doc_data_lics_set
| doc_name_set | doc_spdx_id_set
| creation_comment_set
| package_set | package_chk_sum_set | package_source_info_set
| package_verif_set | package_license_comment_set | package_cr_text_set
| package_summary_set | package_desc_set
| file_chksum_set | file_license_comment_set | file_copytext_set
| file_comment_set | file_notice_set | file_spdx_id_set
| snippet_spdx_id_set | snippet_lic_comment_set | snippet_comment_set
| snippet_copyright_set
| review_comment_set
| annotation_comment_set | annotation_type_set.

Definition flag_eq_dec (f g : flag) : {f = g} + {f <> g}.
Proof. decide equality. Defined.

(** A builder instance: the value of each of its flags. *)
Definition Builder : Type := flag -> bool.

Definition setattr (f : flag) (v : bool) (self : Builder) : Builder :=
  fun g => if flag_eq_dec f g then v else self g.

(** The state a builder method works on: [self] and the document [doc]
    it is handed. *)
Definition state : Type := (Builder * Document.t)%type.

Definition M (A : Type) : Type := SE state A.

(** [self.f] *)
Definition getflag (f : flag) : M bool := fun s => (s, Return (fst s f)).

(** the document handed to the method *)
Definition getdoc : M Document.t := fun s => (s, Return (snd s)).

(** [self.f = v] *)
Definition setflag (f : flag) (v : bool) : M unit :=
  fun s => ((setattr f v (fst s), snd s), Return tt).

(** [doc = g(doc)] for an assignment to an attribute of [doc] itself *)
Definition assign_doc (g : Document.t -> Document.t) : M unit :=
  fun s => ((fst s, g (snd s)), Return tt).

(** [doc.package.attr = v]: [AttributeError] when [doc.package] is [None] *)
Definition assign_package (g : Package.t -> Package.t) : M unit :=
  fun s =>
    match Document.package (snd s) with
    | None => (s, Raise AttributeError)
    | Some p => ((fst s, Document.set_package (Some (g p)) (snd s)), Return tt)
    end.

(** [doc.snippet[-1].attr = v]: [IndexError] on an empty list *)
Definition assign_last_snippet (g : Snippet.t -> Snippet.t) : M unit :=
  fun s =>
    match Py.update_last g (Document.snippet (snd s)) with
    | None => (s, Raise IndexError)
    | Some l => ((fst s, Document.set_snippet l (snd s)), Return tt)
    end.

(** [doc.reviews[-1].attr = v] *)
Definition assign_last_review (g : Review.t -> Review.t) : M unit :=
  fun s =>
    match Py.update_last g (Document.reviews (snd s)) with
    | None => (s, Raise IndexError)
    | Some l => ((fst s, Document.set_reviews l (snd s)), Return tt)
    end.

(** [doc.annotations[-1].attr = v] *)
Definition assign_last_annotation (g : Annotation.t -> Annotation.t) : M unit :=
  fun s =>
    match Py.update_last g (Document.annotations (snd s)) with
    | None => (s, Raise IndexError)
    | Some l => ((fst s, Document.set_annotations l (snd s)), Return tt)
    end.

(** [doc.ext_document_references[-1].attr = v] *)
Definition assign_last_ext_document_reference
    (g : ExternalDocumentRef.t -> ExternalDocumentRef.t) : M unit :=
  fun s =>
    match Py.update_last g (Document.ext_document_references (snd s)) with
    | None => (s, Raise IndexError)
    | Some l =>
        ((fst s, Document.set_ext_document_references l (snd s)), Return tt)
    end.

(** *** Helpers inherited from [tagvaluebuilders] *)

(** Modelled from the spec: [PackageBuilder.assert_package_exists] of
    [spdx/parsers/tagvaluebuilders.py], which is not among the sources.
    Section 4.4, step 1: an operation "asserts precondition entities exist
    (e.g., a package must already exist before a file attribute is
    accepted) - violation signals an OrderError".  The method is called as
    [self.assert_package_exists()], without the document: what it can test
    is the builder's own record, [package_set], that a package was created
    in this pass. *)
Definition assert_package_exists : M unit :=
  b <- getflag package_set ;;
  if negb b then raise (OrderError "Package") else ret tt.

(** Modelled from the spec: [SnippetBuilder.assert_snippet_exists] of
    [spdx/parsers/tagvaluebuilders.py], not among the sources; as
    [assert_package_exists], on the builder's record [snippet_spdx_id_set]
    that a snippet was created. *)
Definition assert_snippet_exists : M unit :=
  b <- getflag snippet_spdx_id_set ;;
  if negb b then raise (OrderError "Snippet") else ret tt.

(** Modelled from the spec: [FileBuilder.has_package] of
    [spdx/parsers/tagvaluebuilders.py], not among the sources: whether the
    document has a package. *)
Definition has_package : M bool :=
  fun s =>
    (s, Return (match Document.package (snd s) with Some _ => true | None => false end)).

(** Modelled from the spec: [FileBuilder.has_file] of
    [spdx/parsers/tagvaluebuilders.py], not among the sources: whether the
    document's package has at least one file.  It reads
    [doc.package.files], an [AttributeError] without a package. *)
Definition has_file : M bool :=
  fun s =>
    match Document.package (snd s) with
    | None => (s, Raise AttributeError)
    | Some p => (s, Return (negb (Nat.eqb (List.length (Package.files p)) 0)))
    end.

(** Modelled from the spec: [self.file(doc).attr = v], where
    [FileBuilder.file] of [spdx/parsers/tagvaluebuilders.py] (not among the
    sources) is the current file, the last file of the document's package
    (section 4.3, the "current focus" rule). *)
Definition assign_file (g : File.t -> File.t) : M unit :=
  fun s =>
    match Document.package (snd s) with
    | None => (s, Raise AttributeError)
    | Some p =>
        match Py.update_last g (Package.files p) with
        | None => (s, Raise IndexError)
        | Some l =>
            ((fst s, Document.set_package (Some (Package.set_files l p)) (snd s)),
             Return tt)
        end
    end.

(** [self.has_package(doc) and self.has_file(doc)]: [and] evaluates its
    right operand only when the left one is true *)
Definition has_package_and_has_file : M bool :=
  p <- has_package ;;
  if p then has_file else ret false.

(** *** [DocBuilder] *)

(** [VERS_STR_REGEX.match(value)] for
    [re.compile(r'SPDX-(\d+)\.(\d+)', re.UNICODE)]: the two groups, as
    [int] reads them.  [match] anchors at the start only, so anything may
    follow the second number.  With [re.UNICODE], [\d] is any decimal
    digit, not only [0] to [9]; [\d+] is greedy, and the full stop after
    it is no digit, so the first group is the longest run of digits. *)
Definition VERS_STR_REGEX_match (value : string) : option (N * N) :=
  match Py.strip_prefix "SPDX-" value with
  | None => None
  | Some r =>
      let (g1, r1) := Py.span_digits r in
      match g1, r1 with
      | _ :: _, String "." r2 =>
          let (g2, _) := Py.span_digits r2 in
          match g2 with
          | _ :: _ => Some (Py.int g1, Py.int g2)
          | [] => None
          end
      | _, _ => None
      end
  end.

Definition set_doc_version (value : string) : M retval :=
  b <- getflag doc_version_set ;;
  if negb b then
    setflag doc_version_set true ;;
    match VERS_STR_REGEX_match value with
    | None => raise (SPDXValueError "Document::Version")
    | Some (g1, g2) =>
        assign_doc (Document.set_version (Some {| major := g1; minor := g2 |})) ;;
        ret RTrue
    end
  else raise (CardinalityError "Document::Version").

Definition set_doc_data_lic (res : string) : M retval :=
  b <- getflag doc_data_lics_set ;;
  if negb b then
    setflag doc_data_lics_set true ;;
    let res_parts := Py.split "/" res in
    if negb (Nat.eqb (List.length res_parts) 0) then
      match Py.last_item res_parts with
      | None => raise IndexError
      | Some identifier =>
          assign_doc (Document.set_data_license (Some identifier)) ;;
          ret RNone
      end
    else raise (SPDXValueError "Document::License")
  else raise (CardinalityError "Document::License").

Definition set_doc_name (name : string) : M retval :=
  b <- getflag doc_name_set ;;
  if negb b then
    assign_doc (Document.set_name (Some name)) ;;
    setflag doc_name_set true ;;
    ret RTrue
  else raise (CardinalityError "Document::Name").

Definition set_doc_comment (comment : string) : M retval :=
  b <- getflag doc_comment_set ;;
  if negb b then
    setflag doc_comment_set true ;;
    assign_doc (Document.set_comment (Some comment)) ;;
    ret RNone
  else raise (CardinalityError "Document::Comment").

Section Validations.

(** [validations.validate_doc_spdx_id], [validations.validate_doc_namespace]
    and [validations.validate_file_spdx_id] of [spdx/parsers/validations.py]
    and [tagvaluebuilders.str_from_text] are not among the sources: the
    builders are read for any such predicates. *)
Variable validate_doc_spdx_id : string -> bool.
Variable validate_doc_namespace : string -> bool.
Variable validate_file_spdx_id : string -> bool.
Variable str_from_text : string -> option string.

Definition set_doc_spdx_id (doc_spdx_id_line : string) : M retval :=
  b <- getflag doc_spdx_id_set ;;
  if negb b then
    if validate_doc_spdx_id doc_spdx_id_line then
      assign_doc (Document.set_spdx_id (Some doc_spdx_id_line)) ;;
      setflag doc_spdx_id_set true ;;
      ret RTrue
    else raise (SPDXValueError "Document::SPDXID")
  else raise (CardinalityError "Document::SPDXID").

Definition set_doc_namespace (namespace : string) : M retval :=
  b <- getflag doc_namespace_set ;;
  if negb b then
    setflag doc_namespace_set true ;;
    if validate_doc_namespace namespace then
      assign_doc (Document.set_namespace (Some namespace)) ;;
      ret RTrue
    else raise (SPDXValueError "Document::Namespace")
  else raise (CardinalityError "Document::Comment").

(** [reset_document] *)
Definition reset_document (self : Builder) : Builder :=
  setattr doc_spdx_id_set false
    (setattr doc_name_set false
      (setattr doc_data_lics_set false
        (setattr doc_namespace_set false
          (setattr doc_comment_set false
            (setattr doc_version_set false self))))).

(** *** [ExternalDocumentRefBuilder] *)

Definition set_chksum (chk_sum : string) : M retval :=
  match chk_sum with
  | String _ _ =>
      assign_last_ext_document_reference
        (ExternalDocumentRef.set_check_sum
           (Some {| identifier := "SHA1"; value := chk_sum |})) ;;
      ret RNone
  | EmptyString => raise (SPDXValueError "ExternalDocumentRef::Checksum")
  end.

(** *** [CreationInfoBuilder] *)

Definition set_creation_comment (comment : string) : M retval :=
  b <- getflag creation_comment_set ;;
  if negb b then
    setflag creation_comment_set true ;;
    assign_doc (Document.set_creation_info_comment (Some comment)) ;;
    ret RTrue
  else raise (CardinalityError "CreationInfo::Comment").

(** *** [PackageBuilder] *)

Definition set_pkg_chk_sum (chk_sum : string) : M retval :=
  assert_package_exists ;;
  b <- getflag package_chk_sum_set ;;
  if negb b then
    setflag package_chk_sum_set true ;;
    assign_package
      (Package.set_check_sum (Some {| identifier := "SHA1"; value := chk_sum |})) ;;
    ret RNone
  else raise (CardinalityError "Package::CheckSum").

Definition set_pkg_source_info (text : string) : M retval :=
  assert_package_exists ;;
  b <- getflag package_source_info_set ;;
  if negb b then
    setflag package_source_info_set true ;;
    assign_package (Package.set_source_info (Some text)) ;;
    ret RTrue
  else raise (CardinalityError "Package::SourceInfo").

Definition set_pkg_verif_code (code : string) : M retval :=
  assert_package_exists ;;
  b <- getflag package_verif_set ;;
  if negb b then
    setflag package_verif_set true ;;
    assign_package (Package.set_verif_code (Some code)) ;;
    ret RNone
  else raise (CardinalityError "Package::VerificationCode").

Definition set_pkg_excl_file (filename : string) : M retval :=
  assert_package_exists ;;
  assign_package (Package.add_exc_file filename) ;;
  ret RNone.

Definition set_pkg_license_comment (text : string) : M retval :=
  assert_package_exists ;;
  b <- getflag package_license_comment_set ;;
  if negb b then
    setflag package_license_comment_set true ;;
    assign_package (Package.set_license_comment (Some text)) ;;
    ret RTrue
  else raise (CardinalityError "Package::LicenseComment").

Definition set_pkg_cr_text (text : string) : M retval :=
  assert_package_exists ;;
  b <- getflag package_cr_text_set ;;
  if negb b then
    setflag package_cr_text_set true ;;
    assign_package (Package.set_cr_text (Some text)) ;;
    ret RNone
  else raise (CardinalityError "Package::CopyrightText").

Definition set_pkg_summary (text : string) : M retval :=
  assert_package_exists ;;
  b <- getflag package_summary_set ;;
  if negb b then
    setflag package_summary_set true ;;
    assign_package (Package.set_summary (Some text)) ;;
    ret RNone
  else raise (CardinalityError "Package::Summary").

Definition set_pkg_desc (text : string) : M retval :=
  assert_package_exists ;;
  b <- getflag package_desc_set ;;
  if negb b then
    setflag package_desc_set true ;;
    assign_package (Package.set_description (Some text)) ;;
    ret RNone
  else raise (CardinalityError "Package::Description").

(** *** [FileBuilder] *)

Definition set_file_chksum (chk_sum : string) : M retval :=
  ok <- has_package_and_has_file ;;
  if ok then
    b <- getflag file_chksum_set ;;
    if negb b then
      setflag file_chksum_set true ;;
      assign_file
        (File.set_chk_sum (Some {| identifier := "SHA1"; value := chk_sum |})) ;;
      ret RTrue
    else raise (CardinalityError "File::CheckSum")
  else raise (OrderError "File::CheckSum").

Definition set_file_license_comment (text : string) : M retval :=
  ok <- has_package_and_has_file ;;
  if ok then
    b <- getflag file_license_comment_set ;;
    if negb b then
      setflag file_license_comment_set true ;;
      assign_file (File.set_license_comment (Some text)) ;;
      ret RTrue
    else raise (CardinalityError "File::LicenseComment")
  else raise (OrderError "File::LicenseComment").

Definition set_file_copyright (text : string) : M retval :=
  ok <- has_package_and_has_file ;;
  if ok then
    b <- getflag file_copytext_set ;;
    if negb b then
      setflag file_copytext_set true ;;
      assign_file (File.set_copyright (Some text)) ;;
      ret RTrue
    else raise (CardinalityError "File::CopyRight")
  else raise (OrderError "File::CopyRight").

Definition set_file_comment (text : string) : M retval :=
  ok <- has_package_and_has_file ;;
  if ok then
    b <- getflag file_comment_set ;;
    if negb b then
      setflag file_comment_set true ;;
      assign_file (File.set_comment (Some text)) ;;
      ret RTrue
    else raise (CardinalityError "File::Comment")
  else raise (OrderError "File::Comment").

Definition set_file_notice (text : string) : M retval :=
  ok <- has_package_and_has_file ;;
  if ok then
    b <- getflag file_notice_set ;;
    if negb b then
      setflag file_notice_set true ;;
      assign_file (File.set_notice (str_from_text text)) ;;
      ret RTrue
    else raise (CardinalityError "File::Notice")
  else raise (OrderError "File::Notice").

(** Modelled from the spec: [FileBuilder.set_file_spdx_id] of
    [spdx/parsers/tagvaluebuilders.py], not among the sources.  It is the
    builder operation for the identifier of the current file and follows
    the four steps of section 4.4 as its siblings [set_file_chksum] to
    [set_file_notice] above do: the package and its current file must
    exist ([OrderError]), the identifier must not be set yet on this file
    ([CardinalityError]), the value must have the shape of a file
    identifier ([SPDXValueError]), and then the current file is updated. *)
Definition set_file_spdx_id (spdx_id : string) : M retval :=
  ok <- has_package_and_has_file ;;
  if ok then
    b <- getflag file_spdx_id_set ;;
    if negb b then
      if validate_file_spdx_id spdx_id then
        assign_file (File.set_spdx_id (Some spdx_id)) ;;
        setflag file_spdx_id_set true ;;
        ret RTrue
      else raise (SPDXValueError "File::SPDXID")
    else raise (CardinalityError "File::SPDXID")
  else raise (OrderError "File::SPDXID").

(** *** [SnippetBuilder] *)

(** The last branch builds a [CardinalityError] and drops it: there is no
    [raise] in front of it, and the method falls off its end. *)
Definition set_snippet_lic_comment (lic_comment : string) : M retval :=
  assert_snippet_exists ;;
  b <- getflag snippet_lic_comment_set ;;
  if negb b then
    setflag snippet_lic_comment_set true ;;
    assign_last_snippet (Snippet.set_license_comment (Some lic_comment)) ;;
    ret RNone
  else
    let _ := CardinalityError "Snippet::licenseComments" in
    ret RNone.

Definition set_snippet_comment (comment : string) : M retval :=
  assert_snippet_exists ;;
  b <- getflag snippet_comment_set ;;
  if negb b then
    setflag snippet_comment_set true ;;
    assign_last_snippet (Snippet.set_comment (Some comment)) ;;
    ret RTrue
  else raise (CardinalityError "Snippet::comment").

Definition set_snippet_copyright (copyright : string) : M retval :=
  assert_snippet_exists ;;
  b <- getflag snippet_copyright_set ;;
  if negb b then
    setflag snippet_copyright_set true ;;
    assign_last_snippet (Snippet.set_copyright (PyStr copyright)) ;;
    ret RNone
  else raise (CardinalityError "Snippet::copyrightText").

(** *** [ReviewBuilder] *)

Definition add_review_comment (comment : string) : M retval :=
  doc <- getdoc ;;
  if negb (Nat.eqb (List.length (Document.reviews doc)) 0) then
    b <- getflag review_comment_set ;;
    if negb b then
      setflag review_comment_set true ;;
      assign_last_review (Review.set_comment (Some comment)) ;;
      ret RTrue
    else raise (CardinalityError "ReviewComment")
  else raise (OrderError "ReviewComment").

(** *** [AnnotationBuilder] *)

Definition add_annotation_comment (comment : string) : M retval :=
  doc <- getdoc ;;
  if negb (Nat.eqb (List.length (Document.annotations doc)) 0) then
    b <- getflag annotation_comment_set ;;
    if negb b then
      setflag annotation_comment_set true ;;
      assign_last_annotation (Annotation.set_comment (Some comment)) ;;
      ret RTrue
    else raise (CardinalityError "AnnotationComment")
  else raise (OrderError "AnnotationComment").

Definition add_annotation_type (annotation_type : string) : M retval :=
  doc <- getdoc ;;
  if negb (Nat.eqb (List.length (Document.annotations doc)) 0) then
    b <- getflag annotation_type_set ;;
    if negb b then
      if Py.endswith annotation_type "annotationType_other" then
        setflag annotation_type_set true ;;
        assign_last_annotation (Annotation.set_annotation_type (Some "OTHER")) ;;
        ret RTrue
      else if Py.endswith annotation_type "annotationType_review" then
        setflag annotation_type_set true ;;
        assign_last_annotation (Annotation.set_annotation_type (Some "REVIEW")) ;;
        ret RTrue
      else raise (SPDXValueError "Annotation::AnnotationType")
    else raise (CardinalityError "Annotation::AnnotationType")
  else raise (OrderError "Annotation::AnnotationType").

(** *** The setters by the entity they write *)

(** the package-level setters of [PackageBuilder] *)
Definition package_setters : list (string -> M retval) :=
  [ set_pkg_chk_sum; set_pkg_source_info; set_pkg_verif_code;
    set_pkg_excl_file; set_pkg_license_comment; set_pkg_cr_text;
    set_pkg_summary; set_pkg_desc ].

(** the file-level setters of [FileBuilder] *)
Definition file_setters : list (string -> M retval) :=
  [ set_file_chksum; set_file_license_comment; set_file_copyright;
    set_file_comment; set_file_notice ].

(** the setters of a field that holds one value, each with the flag it
    keeps; [set_snippet_lic_comment] is looked at on its own *)
Definition single_valued_setters : list (flag * (string -> M retval)) :=
  [ (doc_version_set, set_doc_version);
    (doc_data_lics_set, set_doc_data_lic);
    (doc_name_set, set_doc_name);
    (doc_spdx_id_set, set_doc_spdx_id);
    (doc_comment_set, set_doc_comment);
    (doc_namespace_set, set_doc_namespace);
    (creation_comment_set, set_creation_comment);
    (package_chk_sum_set, set_pkg_chk_sum);
    (package_source_info_set, set_pkg_source_info);
    (package_verif_set, set_pkg_verif_code);
    (package_license_comment_set, set_pkg_license_comment);
    (package_cr_text_set, set_pkg_cr_text);
    (package_summary_set, set_pkg_summary);
    (package_desc_set, set_pkg_desc);
    (file_chksum_set, set_file_chksum);
    (file_license_comment_set, set_file_license_comment);
    (file_copytext_set, set_file_copyright);
    (file_comment_set, set_file_comment);
    (file_notice_set, set_file_notice);
    (snippet_comment_set, set_snippet_comment);
    (snippet_copyright_set, set_snippet_copyright);
    (review_comment_set, add_review_comment);
    (annotation_comment_set, add_annotation_comment);
    (annotation_type_set, add_annotation_type) ].

End Validations.

(** Every entity a setter may write exists: a package with a current
    file, a snippet, a review and an annotation. *)
Definition focus_exists (s : state) : Prop :=
  fst s package_set = true
  /\ fst s snippet_spdx_id_set = true
  /\ (exists p f fs, Document.package (snd s) = Some p /\ Package.files p = f :: fs)
  /\ (exists r rs, Document.reviews (snd s) = r :: rs)
  /\ (exists a l, Document.annotations (snd s) = a :: l).

(** A document and a builder agree on the package when the builder's
    record of a created package is matched by a package in the document:
    what a single parse pass on a reset builder maintains (section 4.4). *)
Definition package_consistent (s : state) : Prop :=
  fst s package_set = true -> Document.package (snd s) <> None.

(** *** Sample states *)

(** A builder with a current snippet, and a document that has it. *)
Definition builder_with_snippet : Builder :=
  setattr snippet_spdx_id_set true (fun _ => false).

Definition document_with_snippet : Document.t :=
  Document.set_snippet [Snippet.init (Some "SPDXRef-Snippet") PyNone None PyNone]
    Document.init.

(** a builder after [reset_document], all of whose flags are clear *)
Definition fresh_builder : Builder := reset_document (fun _ => false).

(** A builder that made a package for an earlier document and was not
    reset since: [Builder.reset] "must be called between usage with
    different documents", and [Parser.parse] calls it after [yacc.parse],
    which an exception of the pass skips. *)
Definition builder_not_reset : Builder := setattr package_set true fresh_builder.

(** a document whose package has one file *)
Definition document_with_file : Document.t :=
  Document.set_package
    (Some (Package.set_files [File.init "./a.py"] (Package.init (Some "demo"))))
    Document.init.

End Builders.

(** ** [spdx/parsers/tagvalue.py]: the production [spdx_id : SPDX_ID LINE] *)

Module TagValue.
Import Builders.

Section Parser.

Variable validate_doc_spdx_id : string -> bool.
Variable validate_file_spdx_id : string -> bool.

(** [p_spdx_id], on Python 3 ([value = p[2]]).  Nothing is caught here: an
    exception of the builder leaves the production, and with it
    [yacc.parse] and [Parser.parse]. *)
Definition p_spdx_id (value : string) : M unit :=
  b <- getflag doc_spdx_id_set ;;
  if negb b then
    set_doc_spdx_id validate_doc_spdx_id value ;; ret tt
  else
    set_file_spdx_id validate_file_spdx_id value ;; ret tt.

(** The attributes of a document in the order the grammar reduces them
    ([start : start attrib | attrib]): an [SPDXID] line, or any other
    attribute, which stands for what its production does to the builder
    and the document. *)
Inductive attrib : Type :=
| SPDX_ID (value : string)
| Other (production : M unit).

Definition reduce (a : attrib) : M unit :=
  match a with
  | SPDX_ID value => p_spdx_id value
  | Other production => production
  end.

(** one parse pass, [self.yacc.parse(text, lexer=self.lex)], over the
    attributes of the text *)
Definition parse_attribs (l : list attrib) : M unit := for_each l reduce.

(** The routing as the specification words it: the first [SPDXID] is the
    document's, every later one is the current file's. *)
Fixpoint later_attribs (l : list attrib) : M unit :=
  match l with
  | [] => ret tt
  | SPDX_ID value :: l' =>
      set_file_spdx_id validate_file_spdx_id value ;; later_attribs l'
  | Other production :: l' => production ;; later_attribs l'
  end.

Fixpoint first_is_document (l : list attrib) : M unit :=
  match l with
  | [] => ret tt
  | SPDX_ID value :: l' =>
      set_doc_spdx_id validate_doc_spdx_id value ;; later_attribs l'
  | Other production :: l' => production ;; first_is_document l'
  end.

(** the value of the first [SPDXID] line *)
Fixpoint first_spdx_id (l : list attrib) : option string :=
  match l with
  | [] => None
  | SPDX_ID value :: _ => Some value
  | Other _ :: l' => first_spdx_id l'
  end.

End Parser.

(** what a step leaves alone: the flag and the identifier of the document *)
Definition same_doc_spdx_id (s s' : state) : Prop :=
  fst s' doc_spdx_id_set = fst s doc_spdx_id_set /\
  Document.spdx_id (snd s') = Document.spdx_id (snd s).

(** A production other than [spdx_id] writes neither the flag
    [doc_spdx_id_set] nor [doc.spdx_id]: in [tagvalue.py] they are named
    in [p_spdx_id] only. *)
Definition keeps_doc_spdx_id (production : M unit) : Prop :=
  forall s : state, same_doc_spdx_id s (fst (production s)).

Definition others_keep_doc_spdx_id (l : list attrib) : Prop :=
  forall production, In (Other production) l -> keeps_doc_spdx_id production.

(** *** A sample pass *)

(** [p_doc_name] for the line [DocumentName: demo]: the production
    catches the [CardinalityError] of [set_doc_name] and goes on *)
Definition p_doc_name_demo : M unit :=
  fun s => (fst (set_doc_name "demo" s), Return tt).

Definition sample_attribs : list attrib :=
  [ SPDX_ID "SPDXRef-DOCUMENT"; Other p_doc_name_demo; SPDX_ID "SPDXRef-File" ].

(** *** Two passes with one builder

    [Parser.parse] makes a new document, runs the pass and calls
    [self.builder.reset()] after it.  An exception that leaves the pass
    leaves [parse] before the reset: the next call of [parse] starts with
    the builder as the pass left it. *)

(** validators for the two passes: a document identifier is the text
    [SPDXRef-DOCUMENT] after the [#] of a namespace, a file identifier
    starts with [SPDXRef-] *)
Definition sample_validate_doc_spdx_id (value : string) : bool :=
  Py.endswith value "#SPDXRef-DOCUMENT".
Definition sample_validate_file_spdx_id : string -> bool :=
  String.prefix "SPDXRef-".

(** a pass on a new builder that an exception stops: its second [SPDXID]
    line comes before any file *)
Definition stopped_pass : state * outcome unit :=
  parse_attribs sample_validate_doc_spdx_id sample_validate_file_spdx_id
    [ SPDX_ID "http://www.spdx.org/tools#SPDXRef-DOCUMENT";
      SPDX_ID "SPDXRef-File" ]
    (fresh_builder, Document.init).

(** the text of the next call of [parse]: one [SPDXID] line *)
Definition next_attribs : list attrib :=
  [ SPDX_ID "http://www.spdx.org/tools#SPDXRef-DOCUMENT" ].

(** the pass of that call: a new document, and the builder of the stopped
    pass *)
Definition next_pass : state * outcome unit :=
  parse_attribs sample_validate_doc_spdx_id sample_validate_file_spdx_id
    next_attribs (fst (fst stopped_pass), Document.init).

End TagValue.

(** ** [core.py] and [utils.py]: the package verification code *)

Module VerifCode.

(** [utils.FILES_TO_EXCLUDE] and [utils.FILE_SUFFIX] *)
Definition FILES_TO_EXCLUDE : list string := ["VERSION"; "LICENSE"].
Definition FILE_SUFFIX : string := "spdx".

(** [utils.should_skip_file] *)
Definition should_skip_file (file_path output_file : string) : bool :=
  let should_skip :=
    fold_left
      (fun should_skip item =>
         if Py.contains item file_path then true else should_skip)
      FILES_TO_EXCLUDE false in
  if Py.contains output_file file_path then true else should_skip.

(** an entry of [id_scan_results]: a dict with the keys ["FileName"] and
    ["SPDXID"] *)
Record scan_result : Type := { FileName : string; SPDXID : string }.

(** the attributes of [SPDXFile] that the verification code reads *)
Record SPDXFile : Type := {
  id_scan_results : list scan_result;
  output_file_name : string }.

(** [SPDXFile.__init__]: [self.output_file_name = output_file_name +
    utils.FILE_SUFFIX] *)
Definition SPDXFile_init (output_file_name : string)
    (id_scan_results : list scan_result) : SPDXFile :=
  {| id_scan_results := id_scan_results;
     output_file_name := (output_file_name ++ FILE_SUFFIX)%string |}.

(** [list.sort()] on strings: ascending, strings compared character by
    character.  [insert_sorted] puts one item in front of the first
    greater one. *)
Fixpoint insert_sorted (x : string) (l : list string) : list string :=
  match l with
  | [] => [x]
  | y :: l' => if String.leb x y then x :: l else y :: insert_sorted x l'
  end.

Fixpoint sort (l : list string) : list string :=
  match l with
  | [] => []
  | x :: l' => insert_sorted x (sort l')
  end.

(** the order of [sort] *)
Definition string_le (a b : string) : Prop := String.leb a b = true.

Section Environment.

(** [hashlib.sha1(data).hexdigest()] *)
Variable sha1_hexdigest : string -> string.

(** The file system: the bytes of the file at a path, [None] when [open]
    fails. *)
Variable file_content : string -> option string.

(** [utils.get_file_hash]: the blocks of the file are fed to
    [sha1sum.update] in the order they are read, and the digest is that
    of the content of the file. *)
Definition get_file_hash (file_path : string) : outcome string :=
  match file_content file_path with
  | None => Raise (OSError file_path)
  | Some content => Return (sha1_hexdigest content)
  end.

(** the first loop of [get_package_verification_code]: [templist] after
    the items of [id_scan_results] *)
Fixpoint hash_items (output_file_name : string) (items : list scan_result)
    (templist : list string) : outcome (list string) :=
  match items with
  | [] => Return templist
  | item :: items' =>
      if negb (should_skip_file (FileName item) output_file_name) then
        match get_file_hash (FileName item) with
        | Raise e => Raise e
        | Return h => hash_items output_file_name items' (templist ++ [h])
        end
      else hash_items output_file_name items' templist
  end.

(** [SPDXFile.get_package_verification_code] *)
Definition get_package_verification_code (self : SPDXFile) : outcome string :=
  match hash_items (output_file_name self) (id_scan_results self) [] with
  | Raise e => Raise e
  | Return templist =>
      let templist := sort templist in
      let filelist :=
        fold_left (fun filelist item => (filelist ++ item)%string) templist "" in
      Return (sha1_hexdigest filelist)
  end.

(** The verification code as section 4.5 words it: the checksums sorted
    in ascending order, concatenated without separator, and hashed with
    the digest of the file checksums. *)
Definition verification_code (checksums : list string) : string :=
  sha1_hexdigest (String.concat "" (sort checksums)).

(** the files of the scan results that are not excluded *)
Definition included_files (self : SPDXFile) : list string :=
  filter (fun file_path => negb (should_skip_file file_path (output_file_name self)))
         (map FileName (id_scan_results self)).

(** the checksum of a file that can be read *)
Definition checksum_of (file_path : string) : string :=
  match file_content file_path with
  | Some content => sha1_hexdigest content
  | None => ""
  end.

Definition readable (file_path : string) : Prop :=
  file_content file_path <> None.

End Environment.

(** *** A sample scan *)

Definition sample_sha1 (data : string) : string := ("sha1(" ++ data ++ ")")%string.

(** a file system in which every file but [LICENSE] can be read *)
Definition sample_files (path : string) : option string :=
  if String.eqb path "demo/LICENSE" then None else Some ("content of " ++ path)%string.

Definition sample_scan : SPDXFile :=
  SPDXFile_init "demo"
    [ {| FileName := "demo/b.py"; SPDXID := "MIT" |};
      {| FileName := "demo/LICENSE"; SPDXID := "MIT" |};
      {| FileName := "demo/a.py"; SPDXID := "Apache-2.0" |} ].

End VerifCode.

(** ** [spdx/writers/rdf.py] *)

Module RdfWriter.

(** What is handed to the graph.  [BNode], [URIRef] and [Literal] are the
    terms of rdflib; [PlainStr] is a Python string that is not wrapped in
    one of them.  rdflib compares terms by class and value, and a
    [Literal] is equal to another [Literal] only: [Literal('a') == 'a'] is
    [False]. *)
Inductive term : Type :=
| BNode (id : nat)
| URIRef (uri : string)
| Literal (s : string)
| PlainStr (s : string).

Definition term_eq_dec (x y : term) : {x = y} + {x <> y}.
Proof. decide equality; solve [apply Nat.eq_dec | apply string_dec]. Defined.

Definition is_node (x : term) : bool :=
  match x with
  | PlainStr _ => false
  | _ => true
  end.

Definition triple : Type := (term * term * term)%type.

Definition triple_eq_dec (x y : triple) : {x = y} + {x <> y}.
Proof. decide equality; solve [apply term_eq_dec | decide equality; apply term_eq_dec]. Defined.

Definition subject (t : triple) : term := fst (fst t).
Definition predicate (t : triple) : term := snd (fst t).
Definition object (t : triple) : term := snd t.

(** [rdflib.Graph]: a set of triples, here in the order they came in *)
Definition Graph : Type := list triple.

Definition matches (pattern : option term) (x : term) : bool :=
  match pattern with
  | None => true
  | Some y => if term_eq_dec y x then true else false
  end.

(** [graph.triples((s, p, o))], [None] matching anything *)
Definition triples (g : Graph) (s p o : option term) : list triple :=
  filter (fun t => matches s (subject t) && matches p (predicate t)
                   && matches o (object t)) g.

(** [Namespace("http://spdx.org/rdf/terms#").name],
    [Namespace('http://usefulinc.com/ns/doap#').name], [RDF.type],
    [RDFS.seeAlso] and [RDFS.comment] *)
Definition spdx_namespace (name : string) : term :=
  URIRef ("http://spdx.org/rdf/terms#" ++ name)%string.
Definition doap_namespace (name : string) : term :=
  URIRef ("http://usefulinc.com/ns/doap#" ++ name)%string.
Definition RDF_type : term :=
  URIRef "http://www.w3.org/1999/02/22-rdf-syntax-ns#type".
Definition RDFS_seeAlso : term :=
  URIRef "http://www.w3.org/2000/01/rdf-schema#seeAlso".
Definition RDFS_comment : term :=
  URIRef "http://www.w3.org/2000/01/rdf-schema#comment".

(** The state of a writer: its graph, the number of blank nodes made so
    far (each [BNode()] is a new one), and the lines printed. *)
Record writer : Type := {
  graph : Graph;
  bnodes : nat;
  printed : list string }.

Definition W (A : Type) : Type := SE writer A.

(** [BaseWriter.__init__]: [self.graph = Graph()] *)
Definition writer_init : writer :=
  {| graph := []; bnodes := 0; printed := [] |}.

(** a triple joins the set *)
Definition graph_add (t : triple) (g : Graph) : Graph :=
  if in_dec triple_eq_dec t g then g else g ++ [t].

(** a graph of rdflib terms only *)
Definition is_node_triple (t : triple) : bool :=
  is_node (subject t) && is_node (predicate t) && is_node (object t).

Definition well_formed (g : Graph) : Prop :=
  Forall (fun t => is_node_triple t = true) g.

(** [self.graph.add(t)]; rdflib asserts that the three items are terms *)
Definition add (t : triple) : W unit :=
  fun w =>
    if is_node_triple t then
      ({| graph := graph_add t (graph w);
          bnodes := bnodes w; printed := printed w |}, Return tt)
    else (w, Raise AssertionError).

(** [BNode()] *)
Definition new_BNode : W term :=
  fun w =>
    ({| graph := graph w; bnodes := S (bnodes w); printed := printed w |},
     Return (BNode (bnodes w))).

(** [print(line)] *)
Definition print (line : string) : W unit :=
  fun w =>
    ({| graph := graph w; bnodes := bnodes w; printed := printed w ++ [line] |},
     Return tt).

(** [s.add(x)] for a Python set *)
Definition set_add (x : term) (s : list term) : list term :=
  if in_dec term_eq_dec x s then s else s ++ [x].

(** [BaseWriter.to_special_value] *)
Definition to_special_value (value : Lic.pyvalue) : term :=
  match value with
  | Lic.NoAssert => spdx_namespace "noassertion"
  | Lic.SPDXNone => spdx_namespace "none"
  | Lic.Str s => Literal s
  end.

(** [BaseWriter.create_checksum_node] *)
Definition create_checksum_node (chksum : Algorithm) : W term :=
  chksum_node <- new_BNode ;;
  add (chksum_node, RDF_type, spdx_namespace "Checksum") ;;
  add (chksum_node, spdx_namespace "algorithm", Literal (identifier chksum)) ;;
  add (chksum_node, spdx_namespace "checksumValue", Literal (value chksum)) ;;
  ret chksum_node.

Section Writer.

(** [config.LICENSE_MAP], loaded from [licenses.json]: its keys *)
Variable LICENSE_MAP : list string.

(** [self.document] *)
Variable document : Document.t.

Definition in_LICENSE_MAP (key : string) : bool :=
  existsb (String.eqb key) LICENSE_MAP.

(** [LicenseWriter.create_extracted_license].  The graph is searched for
    [lic.identifier], the string itself, and the triple that is added
    carries [Literal(lic.identifier)]. *)
Definition create_extracted_license (lic : Lic.extracted) : W term :=
  w <- get ;;
  let licenses :=
    triples (graph w) None (Some (spdx_namespace "licenseId"))
            (Some (PlainStr (Lic.ex_identifier lic))) in
  match licenses with
  | first :: _ => ret (subject first)
  | [] =>
      license_node <- new_BNode ;;
      add (license_node, RDF_type, spdx_namespace "ExtractedLicensingInfo") ;;
      add (license_node, spdx_namespace "licenseId",
           Literal (Lic.ex_identifier lic)) ;;
      add (license_node, spdx_namespace "extractedText", Literal (Lic.text lic)) ;;
      match Lic.full_name lic with
      | Some full_name =>
          add (license_node, spdx_namespace "licenseName",
               to_special_value full_name)
      | None => ret tt
      end ;;
      for_each (Lic.cross_ref lic)
        (fun ref => add (license_node, RDFS_seeAlso, URIRef ref)) ;;
      match Lic.comment lic with
      | Some comment => add (license_node, RDFS_comment, Literal comment)
      | None => ret tt
      end ;;
      ret license_node
  end.

(** [LicenseWriter.create_license_helper] *)
Definition create_license_helper (lic : Lic.single) : W term :=
  match lic with
  | Lic.ExtractedLicense e => create_extracted_license e
  | Lic.License _ _ =>
      if in_LICENSE_MAP (Py.rstrip "+" (Lic.identifier lic)) then
        ret (URIRef (Lic.url lic))
      else
        let matches :=
          filter (fun l => String.eqb (Lic.ex_identifier l) (Lic.identifier lic))
                 (Document.extracted_licenses document) in
        match matches with
        | first :: _ => create_extracted_license first
        | [] =>
            raise (InvalidDocumentError
                     ("Missing extracted license: " ++ Lic.identifier lic)%string)
        end
  end.

(** [LicenseWriter.licenses_from_tree_helper]: the set [licenses] is
    handed on and back *)
Fixpoint licenses_from_tree_helper (current : Lic.t) (licenses : list term)
    : W (list term) :=
  match current with
  | Lic.LicenseConjunction license_1 license_2
  | Lic.LicenseDisjunction license_1 license_2 =>
      licenses <- licenses_from_tree_helper license_1 licenses ;;
      licenses_from_tree_helper license_2 licenses
  | Lic.Single lic =>
      node <- create_license_helper lic ;;
      ret (set_add node licenses)
  end.

(** [LicenseWriter.licenses_from_tree] *)
Definition licenses_from_tree (tree : Lic.t) : W (list term) :=
  licenses_from_tree_helper tree [].

(** [LicenseWriter.create_conjunction_node] *)
Definition create_conjunction_node (conjunction : Lic.t) : W term :=
  node <- new_BNode ;;
  add (node, RDF_type, spdx_namespace "ConjunctiveLicenseSet") ;;
  licenses <- licenses_from_tree conjunction ;;
  for_each licenses (fun lic => add (node, spdx_namespace "member", lic)) ;;
  ret node.

(** [LicenseWriter.create_disjunction_node] *)
Definition create_disjunction_node (disjunction : Lic.t) : W term :=
  node <- new_BNode ;;
  add (node, RDF_type, spdx_namespace "DisjunctiveLicenseSet") ;;
  licenses <- licenses_from_tree disjunction ;;
  for_each licenses (fun lic => add (node, spdx_namespace "member", lic)) ;;
  ret node.

(** [LicenseWriter.create_license_node] *)
Definition create_license_node (lic : Lic.t) : W term :=
  match lic with
  | Lic.LicenseConjunction _ _ => create_conjunction_node lic
  | Lic.LicenseDisjunction _ _ => create_disjunction_node lic
  | Lic.Single l => create_license_helper l
  end.

(** [LicenseWriter.license_or_special]; an object that is no license has
    no [identifier] *)
Definition license_or_special (lic : pyobj) : W term :=
  match lic with
  | PyNoAssert => ret (spdx_namespace "noassertion")
  | PySPDXNone => ret (spdx_namespace "none")
  | PyLicense l => create_license_node l
  | _ => raise AttributeError
  end.

(** Modelled from the spec: the property [Document.files] of
    [spdx/document.py], which is not among the sources.  Section 3: the
    document owns its files "via the Package"; the files of a document
    are those of its package. *)
Definition document_files : W (list File.t) :=
  match Document.package document with
  | Some p => ret (Package.files p)
  | None => raise AttributeError
  end.

(** the body of the loop [for dependency in doc_file.dependencies] of
    [add_file_dependencies_helper] *)
Definition add_file_dependency (doc_file : File.t) (subject_node : term)
    (dependency : string) : W unit :=
  w <- get ;;
  let dep_triples :=
    triples (graph w) None (Some (spdx_namespace "fileName"))
            (Some (Literal dependency)) in
  if Nat.eqb (List.length dep_triples) 1 then
    match dep_triples with
    | [] => raise IndexError
    | dep_first :: _ =>
        let dep_node := subject dep_first in
        add (subject_node, spdx_namespace "fileDependency", dep_node)
    end
  else
    print ("Warning could not resolve file dependency "
             ++ File.name doc_file ++ " -> " ++ dependency)%string.

(** [FileWriter.add_file_dependencies_helper] *)
Definition add_file_dependencies_helper (doc_file : File.t) : W unit :=
  w <- get ;;
  let subj_triples :=
    triples (graph w) None (Some (spdx_namespace "fileName"))
            (Some (Literal (File.name doc_file))) in
  if negb (Nat.eqb (List.length subj_triples) 1) then
    raise (InvalidDocumentError
             ("Could not find dependency subject " ++ File.name doc_file)%string)
  else
    match subj_triples with
    | [] => raise IndexError
    | first :: _ =>
        let subject_node := subject first in
        for_each (File.dependencies doc_file)
          (add_file_dependency doc_file subject_node)
    end.

(** [FileWriter.add_file_dependencies] *)
Definition add_file_dependencies : W unit :=
  files <- document_files ;;
  for_each files add_file_dependencies_helper.

(** The part of [Writer.write] under [# Add extracted licenses]; [map] is
    lazy, each node is added as it is made. *)
Definition write_extracted_licenses (doc_node : term) : W unit :=
  for_each (Document.extracted_licenses document)
    (fun l =>
       lic <- create_extracted_license l ;;
       add (doc_node, spdx_namespace "hasExtractedLicensingInfo", lic)).

End Writer.

(** the members of a license set node *)
Definition members (g : Graph) (node : term) : list term :=
  map object (triples g (Some node) (Some (spdx_namespace "member")) None).

(** the nodes of a class *)
Definition nodes_of_type (g : Graph) (class : term) : list term :=
  map subject (triples g None (Some RDF_type) (Some class)).

(** no triple of the graph has the next blank node as its subject *)
Definition fresh_node (w : writer) : Prop :=
  forall p o, ~ In (BNode (bnodes w), p, o) (graph w).

(** the warning of [add_file_dependency] *)
Definition dependency_warning (doc_file : File.t) (dependency : string) : string :=
  ("Warning could not resolve file dependency "
     ++ File.name doc_file ++ " -> " ++ dependency)%string.

(** the file nodes that carry a name *)
Definition file_nodes (g : Graph) (name : string) : list term :=
  map subject
    (triples g None (Some (spdx_namespace "fileName")) (Some (Literal name))).

(** every file of the list has been emitted: its name is carried by one
    node of the graph *)
Definition files_emitted (g : Graph) (files : list File.t) : Prop :=
  forall f, In f files -> List.length (file_nodes g (File.name f)) = 1.

(** the dependency edges that resolve in a graph: from the node of a file
    to the one node that carries the name of one of its dependencies *)
Definition resolved_edge (g : Graph) (files : list File.t) (t : triple) : Prop :=
  exists f dependency s o,
    In f files /\ In dependency (File.dependencies f) /\
    file_nodes g (File.name f) = [s] /\ file_nodes g dependency = [o] /\
    t = (s, spdx_namespace "fileDependency", o).

(** the warnings for the dependencies that do not resolve *)
Definition unresolved_warning (g : Graph) (files : list File.t) (line : string)
    : Prop :=
  exists f dependency,
    In f files /\ In dependency (File.dependencies f) /\
    List.length (file_nodes g dependency) <> 1 /\
    line = dependency_warning f dependency.

(** the state after [add] of a triple of terms *)
Definition add_state (t : triple) (w : writer) : writer :=
  {| graph := graph_add t (graph w); bnodes := bnodes w; printed := printed w |}.

(** the state after [create_extracted_license] has written a new node *)
Definition extracted_license_written (lic : Lic.extracted) (w : writer) : writer :=
  let license_node := BNode (bnodes w) in
  let w0 := {| graph := graph w; bnodes := S (bnodes w); printed := printed w |} in
  let w1 := add_state (license_node, RDF_type, spdx_namespace "ExtractedLicensingInfo") w0 in
  let w2 := add_state (license_node, spdx_namespace "licenseId",
                       Literal (Lic.ex_identifier lic)) w1 in
  let w3 := add_state (license_node, spdx_namespace "extractedText",
                       Literal (Lic.text lic)) w2 in
  let w4 := match Lic.full_name lic with
            | Some full_name =>
                add_state (license_node, spdx_namespace "licenseName",
                           to_special_value full_name) w3
            | None => w3
            end in
  let w5 := fold_left
              (fun w ref => add_state (license_node, RDFS_seeAlso, URIRef ref) w)
              (Lic.cross_ref lic) w4 in
  match Lic.comment lic with
  | Some comment => add_state (license_node, RDFS_comment, Literal comment) w5
  | None => w5
  end.

(** what a state reached by [add]s keeps *)
Definition grows (w w' : writer) : Prop :=
  bnodes w' = bnodes w /\ printed w' = printed w /\
  incl (graph w) (graph w') /\ (well_formed (graph w) -> well_formed (graph w')).

(** what the dependency pass has done between two states, given the
    file nodes of the graph [g0]: the edges and the warnings it added *)
Definition dependencies_added (g0 : Graph) (edge : triple -> Prop)
    (warning : string -> Prop) (w w' : writer) : Prop :=
  bnodes w' = bnodes w
  /\ well_formed (graph w')
  /\ (forall name, file_nodes (graph w') name = file_nodes g0 name)
  /\ (forall t, In t (graph w') <-> In t (graph w) \/ edge t)
  /\ (forall line, In line (printed w') <-> In line (printed w) \/ warning line).

(** *** Sample documents *)

Definition MIT : Lic.t := Lic.Single (Lic.License "MIT License" "MIT").
Definition Apache_2_0 : Lic.t :=
  Lic.Single (Lic.License "Apache License 2.0" "Apache-2.0").
Definition BSD_3_Clause : Lic.t :=
  Lic.Single (Lic.License "BSD 3-Clause License" "BSD-3-Clause").

(** [MIT AND (Apache-2.0 OR BSD-3-Clause)] *)
Definition MIT_AND_Apache_OR_BSD : Lic.t :=
  Lic.LicenseConjunction MIT (Lic.LicenseDisjunction Apache_2_0 BSD_3_Clause).

(** a catalog with the three licenses *)
Definition sample_LICENSE_MAP : list string :=
  ["MIT"; "MIT License"; "Apache-2.0"; "Apache License 2.0"; "BSD-3-Clause"].

(** an extracted license, as [core.py] makes one for a scanned file *)
Definition sample_extracted : Lic.extracted :=
  {| Lic.ex_identifier := "SPDXID-Doc-Generator-MIT";
     Lic.text := "N/A";
     Lic.full_name := None;
     Lic.cross_ref := [];
     Lic.comment := Some "N/A" |}.

(** a document that lists the license once for each of two files *)
Definition document_two_extracted : Document.t :=
  Document.set_extracted_licenses [sample_extracted; sample_extracted]
    Document.init.

(** two files, the second of which depends on the first and on a file
    that is not in the document *)
Definition file_a : File.t := File.init "./a.py".
Definition file_b : File.t :=
  {| File.name := "./b.py"; File.spdx_id := None; File.chk_sum := None;
     File.license_comment := None; File.copyright := None;
     File.comment := None; File.notice := None;
     File.dependencies := ["./a.py"; "./missing.py"] |}.

Definition document_two_files : Document.t :=
  Document.set_package
    (Some (Package.set_files [file_a; file_b] (Package.init (Some "demo"))))
    Document.init.

(** the graph once the two files are in it: the triples of their names *)
Definition writer_two_files : writer :=
  {| graph :=
       [ (URIRef "http://www.spdx.org/files#SPDXRef-1", RDF_type,
          spdx_namespace "File");
         (URIRef "http://www.spdx.org/files#SPDXRef-1",
          spdx_namespace "fileName", Literal "./a.py");
         (URIRef "http://www.spdx.org/files#SPDXRef-2", RDF_type,
          spdx_namespace "File");
         (URIRef "http://www.spdx.org/files#SPDXRef-2",
          spdx_namespace "fileName", Literal "./b.py") ];
     bnodes := 0;
     printed := [] |}.

End RdfWriter.

(** ** [spdx/snippet.py]: [Snippet.validate] *)

Module SnippetValidate.

(** The argument [messages]: [None], its default, or a list. *)
Definition messages_t : Type := option (list string).

(** [messages + more]: [None + list] is a [TypeError] *)
Definition plus (messages : messages_t) (more : list string) : outcome messages_t :=
  match messages with
  | None => Raise TypeError
  | Some l => Return (Some (l ++ more))
  end.

(** [isinstance(o, (six.string_types, six.text_type, utils.NoAssert,
    utils.SPDXNone))] *)
Definition is_text_or_special (o : pyobj) : bool :=
  match o with
  | PyStr _ | PyNoAssert | PySPDXNone => true
  | _ => false
  end.

(** [isinstance(o, (document.License, utils.NoAssert, utils.SPDXNone))] *)
Definition is_license_or_special (o : pyobj) : bool :=
  match o with
  | PyLicense _ | PyNoAssert | PySPDXNone => true
  | _ => false
  end.

Definition then_ {A B : Type} (r : outcome A) (k : A -> outcome B) : outcome B :=
  match r with
  | Return a => k a
  | Raise e => Raise e
  end.

Definition validate_spdx_id (self : Snippet.t) (messages : messages_t)
    : outcome messages_t :=
  match Snippet.spdx_id self with
  | None => plus messages ["Snippet has no SPDX Identifier."]
  | Some _ => Return messages
  end.

Definition validate_copyright_text (self : Snippet.t) (messages : messages_t)
    : outcome messages_t :=
  if negb (is_text_or_special (Snippet.copyright self)) then
    plus messages
      ["Snippet copyright must be str or unicode or utils.NoAssert or utils.SPDXNone"]
  else Return messages.

Definition validate_snip_from_file_spdxid (self : Snippet.t)
    (messages : messages_t) : outcome messages_t :=
  match Snippet.snip_from_file_spdxid self with
  | None => plus messages ["Snippet has no Snippet from File SPDX Identifier."]
  | Some _ => Return messages
  end.

Definition validate_concluded_license (self : Snippet.t) (messages : messages_t)
    : outcome messages_t :=
  if negb (is_license_or_special (Snippet.conc_lics self)) then
    plus messages
      ["Snippet Concluded License must be one of document.License, utils.NoAssert or utils.SPDXNone"]
  else Return messages.

(** the [for] loop of [validate_licenses_in_snippet] *)
Fixpoint check_licenses (lics : list pyobj) (messages : messages_t)
    : outcome messages_t :=
  match lics with
  | [] => Return messages
  | lic :: lics' =>
      if negb (is_license_or_special lic) then
        then_ (plus messages
                 ["Licenses in Snippet must be one of document.License, utils.NoAssert or utils.SPDXNone"])
              (check_licenses lics')
      else check_licenses lics' messages
  end.

Definition validate_licenses_in_snippet (self : Snippet.t)
    (messages : messages_t) : outcome messages_t :=
  if Nat.eqb (List.length (Snippet.licenses_in_snippet self)) 0 then
    plus messages ["Snippet must have at least one license in file."]
  else check_licenses (Snippet.licenses_in_snippet self) messages.

(** [Snippet.validate] *)
Definition validate (self : Snippet.t) (messages : messages_t)
    : outcome messages_t :=
  then_ (validate_spdx_id self messages) (fun messages =>
  then_ (validate_copyright_text self messages) (fun messages =>
  then_ (validate_snip_from_file_spdxid self messages) (fun messages =>
  then_ (validate_concluded_license self messages) (fun messages =>
  validate_licenses_in_snippet self messages)))).

(** the five checks, none of which has anything to report *)
Definition checks_pass (self : Snippet.t) : bool :=
  match Snippet.spdx_id self with Some _ => true | None => false end
  && is_text_or_special (Snippet.copyright self)
  && match Snippet.snip_from_file_spdxid self with Some _ => true | None => false end
  && is_license_or_special (Snippet.conc_lics self)
  && negb (Nat.eqb (List.length (Snippet.licenses_in_snippet self)) 0)
  && forallb is_license_or_special (Snippet.licenses_in_snippet self).

End SnippetValidate.

(** ** More of Python's strings *)

Module PyMore.

(** [s.lstrip(c)] for a one-character argument *)
Fixpoint lstrip (c : ascii) (s : string) : string :=
  match s with
  | EmptyString => EmptyString
  | String a s' => if Ascii.eqb a c then lstrip c s' else s
  end.

(** [s.strip(c)] for a one-character argument *)
Definition strip (c : ascii) (s : string) : string :=
  Py.rstrip c (lstrip c s).

(** the truth value of a string: it is not empty *)
Definition truthy (s : string) : bool :=
  match s with
  | EmptyString => false
  | String _ _ => true
  end.

(** the line feed *)
Definition LF : ascii := Ascii.ascii_of_nat 10.

(** the double quote *)
Definition dq : string := String (Ascii.ascii_of_nat 34) EmptyString.

(** [str(n)] for a natural number; [fuel] bounds the number of digits *)
Fixpoint str_digits (fuel n : nat) (acc : string) : string :=
  match fuel with
  | 0 => acc
  | S fuel' =>
      let acc' := String (Ascii.ascii_of_nat (48 + n mod 10)) acc in
      if (n <? 10)%nat then acc' else str_digits fuel' (n / 10) acc'
  end.

Definition str (n : nat) : string := str_digits (S n) n EmptyString.

(** [template.format] applied to [args] for a template whose fields are [{0}] to
    [{9}]; [None] is the [IndexError] of a field without argument *)
Fixpoint format (template : string) (args : list string) : option string :=
  match template with
  | EmptyString => Some EmptyString
  | String c rest =>
      let copy := option_map (String c) (format rest args) in
      if Ascii.eqb c "{" then
        match rest with
        | String d (String close rest') =>
            if Py.is_digit d && Ascii.eqb close "}" then
              match nth_error args (Ascii.nat_of_ascii d - 48) with
              | Some arg => option_map (String.append arg) (format rest' args)
              | None => None
              end
            else copy
        | _ => copy
        end
      else copy
  end.

(** a Python dict from strings to strings, in the order of insertion *)
Definition dict : Type := list (string * string).

(** [d[k] = v] *)
Fixpoint dict_set (k v : string) (d : dict) : dict :=
  match d with
  | [] => [(k, v)]
  | (k', v') :: d' =>
      if String.eqb k k' then (k, v) :: d' else (k', v') :: dict_set k v d'
  end.

(** [d.get(k)]; for [d[k]], [None] stands for the [KeyError] *)
Fixpoint dict_get (k : string) (d : dict) : option string :=
  match d with
  | [] => None
  | (k', v') :: d' => if String.eqb k k' then Some v' else dict_get k d'
  end.

(** the keys of a dict *)
Definition keys (d : dict) : list string := map fst d.

End PyMore.

(** ** [spdx/config.py] *)

Module Config.
Import PyMore.

(** An entry of the list [licenses] of [licenses.json]: the values of its
    keys [name] and [licenseId], and the truth value of
    [lic.get('isDeprecatedLicenseId')], false when the key is absent. *)
Record license_entry : Type := {
  name : string;
  licenseId : string;
  isDeprecatedLicenseId : bool }.

(** the loop [for lic in licenses['licenses']] of [load_license_list] *)
Fixpoint load_entries (licenses : list license_entry) (licenses_map : dict) : dict :=
  match licenses with
  | [] => licenses_map
  | lic :: licenses' =>
      if isDeprecatedLicenseId lic then load_entries licenses' licenses_map
      else
        let licenses_map := dict_set (name lic) (licenseId lic) licenses_map in
        let licenses_map := dict_set (licenseId lic) (name lic) licenses_map in
        load_entries licenses' licenses_map
  end.

(** [load_license_list], on the content of the JSON file: the value of
    [licenseListVersion] and the list [licenses] *)
Definition load_license_list (licenseListVersion : string)
    (licenses : list license_entry) : list string * dict :=
  (Py.split "." licenseListVersion, load_entries licenses []).

(** [(_major, _minor), LICENSE_MAP = load_license_list(_licenses)]: the
    unpacking wants two parts of the version, [None] is its [ValueError] *)
Definition LICENSE_LIST (licenseListVersion : string)
    (licenses : list license_entry) : option ((string * string) * dict) :=
  match load_license_list licenseListVersion licenses with
  | ([_major; _minor], LICENSE_MAP) => Some ((_major, _minor), LICENSE_MAP)
  | _ => None
  end.

(** the licenses of the list that are not deprecated *)
Definition current (licenses : list license_entry) : list license_entry :=
  filter (fun lic => negb (isDeprecatedLicenseId lic)) licenses.

(** the names and identifiers of a list of licenses *)
Definition names_and_ids (licenses : list license_entry) : list string :=
  flat_map (fun lic => [name lic; licenseId lic]) licenses.

(** *** A sample list *)

Definition MIT_entry : license_entry :=
  {| name := "MIT License"; licenseId := "MIT"; isDeprecatedLicenseId := false |}.
Definition GPL_2_0_plus_entry : license_entry :=
  {| name := "GNU General Public License v2.0 or later"; licenseId := "GPL-2.0+";
     isDeprecatedLicenseId := true |}.
Definition Apache_2_0_entry : license_entry :=
  {| name := "Apache License 2.0"; licenseId := "Apache-2.0";
     isDeprecatedLicenseId := false |}.

Definition sample_licenses : list license_entry :=
  [MIT_entry; GPL_2_0_plus_entry; Apache_2_0_entry].

End Config.

(** ** [utils.py]: the version of a package *)

Module Utils.

(** the state of the loop of [get_package_version]: [version_major] and
    [version_minor] *)
Definition versions : Type := (option string * option string)%type.

(** [line.split("=")[1]] *)
Definition after_equals (line : string) : outcome string :=
  match nth_error (Py.split "=" line) 1 with
  | Some v => Return v
  | None => Raise IndexError
  end.

(** the body of the loop [for line in version_file_content] *)
Definition version_line (st : versions) (line : string) : outcome versions :=
  match
    (if Py.contains "VERSION_MAJOR" line then
       match after_equals line with
       | Return v => Return (Some v)
       | Raise e => Raise e
       end
     else Return (fst st))
  with
  | Raise e => Raise e
  | Return version_major =>
      if Py.contains "VERSION_MINOR" line then
        match after_equals line with
        | Return v => Return (version_major, Some v)
        | Raise e => Raise e
        end
      else Return (version_major, snd st)
  end.

(** the loop *)
Fixpoint version_lines (st : versions) (lines : list string) : outcome versions :=
  match lines with
  | [] => Return st
  | line :: lines' =>
      match version_line st line with
      | Raise e => Raise e
      | Return st' => version_lines st' lines'
      end
  end.

(** [if version_major and version_minor: return "{0}.{1}".format(...)],
    and the [return None] below it *)
Definition version_string (st : versions) : option string :=
  match st with
  | (Some version_major, Some version_minor) =>
      if PyMore.truthy version_major && PyMore.truthy version_minor then
        Some (PyMore.strip PyMore.LF (PyMore.strip " " version_major)
                ++ "."
                ++ PyMore.strip PyMore.LF (PyMore.strip " " version_minor))%string
      else None
  | _ => None
  end.

Section FileSystem.

(** [os.path.isdir], [os.path.exists] and [os.path.join] *)
Variable isdir : string -> bool.
Variable exists_ : string -> bool.
Variable join : string -> string -> string.

(** the lines of a text file, each with its line feed; [None] when
    [open] fails *)
Variable lines_of : string -> option (list string).

(** [get_package_file] *)
Definition get_package_file (dir_or_file file_name : string) : option string :=
  if isdir dir_or_file then
    let version_file_path := join dir_or_file file_name in
    if exists_ version_file_path then Some version_file_path else None
  else None.

(** [get_package_version] *)
Definition get_package_version (path_or_file : string) : outcome (option string) :=
  match get_package_file path_or_file "VERSION" with
  | Some version_file =>
      if PyMore.truthy version_file then
        match lines_of version_file with
        | None => Raise (OSError version_file)
        | Some version_file_content =>
            match version_lines (None, None) version_file_content with
            | Raise e => Raise e
            | Return st => Return (version_string st)
            end
        end
      else Return None
  | None => Return None
  end.

End FileSystem.

(** a line that names a version and has no [=] *)
Definition malformed_line (line : string) : bool :=
  (Py.contains "VERSION_MAJOR" line || Py.contains "VERSION_MINOR" line)
  && negb (Py.contains "=" line).

(** the value of the last line that mentions a tag *)
Definition last_value (tag : string) (lines : list string) : option string :=
  match find (Py.contains tag) (rev lines) with
  | Some line => nth_error (Py.split "=" line) 1
  | None => None
  end.

(** what a value found later in the file does to an earlier one *)
Definition or_earlier (later earlier : option string) : option string :=
  match later with
  | Some v => Some v
  | None => earlier
  end.

(** *** A sample [VERSION] file *)

Definition sample_VERSION : list string :=
  [ String.append "VERSION_MAJOR = 1" (String PyMore.LF EmptyString);
    String.append "VERSION_MINOR = 0" (String PyMore.LF EmptyString);
    String.append "# the next release" (String PyMore.LF EmptyString);
    String.append "VERSION_MINOR = 4" (String PyMore.LF EmptyString) ].

(** a file whose first line has no [=] *)
Definition broken_VERSION : list string :=
  [ String.append "VERSION_MAJOR 1" (String PyMore.LF EmptyString);
    String.append "VERSION_MINOR = 0" (String PyMore.LF EmptyString) ].

(** a file system with the directory [demo] and its file [VERSION] *)
Definition sample_isdir (path : string) : bool := String.eqb path "demo".
Definition sample_exists (path : string) : bool := String.eqb path "demo/VERSION".
Definition sample_join (a b : string) : string := (a ++ "/" ++ b)%string.
Definition sample_lines_of (content : list string) (path : string)
    : option (list string) :=
  if String.eqb path "demo/VERSION" then Some content else None.

End Utils.

(** ** [spdx/writers/rdf.py]: the files of the package *)

Module PackageWriter.
Import RdfWriter.

(** [PackageWriter.handle_package_has_file_helper] *)
Definition handle_package_has_file_helper (pkg_file : File.t) : W term :=
  w <- get ;;
  let nodes :=
    triples (graph w) None (Some (spdx_namespace "fileName"))
            (Some (Literal (File.name pkg_file))) in
  if Nat.eqb (List.length nodes) 1 then
    match nodes with
    | [] => raise IndexError
    | first :: _ => ret (subject first)
    end
  else
    raise (InvalidDocumentError
             ("handle_package_has_file_helper could not find file node for file: "
                ++ File.name pkg_file)%string).

(** [PackageWriter.handle_package_has_file]: the list of triples is built
    from all the nodes before the first of them is added *)
Definition handle_package_has_file (package : Package.t) (package_node : term)
    : W unit :=
  file_nodes <- map_each handle_package_has_file_helper (Package.files package) ;;
  let triples :=
    map (fun node => (package_node, spdx_namespace "hasFile", node)) file_nodes in
  for_each triples add.

(** the [hasFile] edges of a package node: one to the node of each of the
    files *)
Definition has_file_edge (g : Graph) (files : list File.t) (package_node : term)
    (t : triple) : Prop :=
  exists f node,
    In f files /\ file_nodes g (File.name f) = [node] /\
    t = (package_node, spdx_namespace "hasFile", node).

(** the message of [handle_package_has_file_helper] *)
Definition no_file_node (pkg_file : File.t) : string :=
  ("handle_package_has_file_helper could not find file node for file: "
     ++ File.name pkg_file)%string.

(** the node of the sample package *)
Definition sample_package_node : term :=
  URIRef "http://www.spdx.org/tools#SPDXRef-Package".

(** a package with the two sample files and a third that has no node *)
Definition package_three_files : Package.t :=
  Package.set_files [file_a; file_b; File.init "./c.py"]
    (Package.init (Some "demo")).

(** the document of this package *)
Definition document_three_files : Document.t :=
  Document.set_package (Some package_three_files) Document.init.

End PackageWriter.

(** ** [spdx/writers/rdf.py]: license expressions *)

Module LicenseTree.
Import RdfWriter.

(** the licenses at the leaves of an expression, from left to right *)
Fixpoint leaves (tree : Lic.t) : list Lic.single :=
  match tree with
  | Lic.Single lic => [lic]
  | Lic.LicenseConjunction license_1 license_2
  | Lic.LicenseDisjunction license_1 license_2 =>
      leaves license_1 ++ leaves license_2
  end.

(** a license of the list, as [create_license_helper] tests it *)
Definition in_catalog (LICENSE_MAP : list string) (lic : Lic.single) : bool :=
  match lic with
  | Lic.License _ _ =>
      in_LICENSE_MAP LICENSE_MAP (Py.rstrip "+" (Lic.identifier lic))
  | Lic.ExtractedLicense _ => false
  end.

(** the nodes of licenses of the list, each once, in the order they are
    met first *)
Definition catalog_nodes (licenses : list Lic.single) (seen : list term)
    : list term :=
  fold_left (fun seen lic => set_add (URIRef (Lic.url lic)) seen) licenses seen.

Section Leaves.

Variable LICENSE_MAP : list string.
Variable document : Document.t.

(** [licenses_from_tree_helper] as a loop over the leaves: the nodes of
    the licenses join the set one after the other *)
Fixpoint leaves_loop (licenses : list Lic.single) (seen : list term)
    : W (list term) :=
  match licenses with
  | [] => ret seen
  | lic :: licenses' =>
      node <- create_license_helper LICENSE_MAP document lic ;;
      leaves_loop licenses' (set_add node seen)
  end.

End Leaves.

(** the triples of a license set node *)
Definition set_node_triples (node class : term) (licenses : list term)
    : list triple :=
  (node, RDF_type, class)
    :: map (fun lic => (node, spdx_namespace "member", lic)) licenses.

(** [(MIT OR Apache-2.0) AND (MIT OR BSD-3-Clause)] *)
Definition MIT_OR_Apache_AND_MIT_OR_BSD : Lic.t :=
  Lic.LicenseConjunction
    (Lic.LicenseDisjunction MIT Apache_2_0)
    (Lic.LicenseDisjunction MIT BSD_3_Clause).

(** [(MIT OR Apache-2.0) AND (MIT OR GPL-2.0)], where [GPL-2.0] is not in
    the sample catalog *)
Definition MIT_OR_Apache_AND_MIT_OR_GPL : Lic.t :=
  Lic.LicenseConjunction
    (Lic.LicenseDisjunction MIT Apache_2_0)
    (Lic.LicenseDisjunction MIT
       (Lic.Single (Lic.License "GNU General Public License v2.0 only" "GPL-2.0"))).

End LicenseTree.

(** ** [spdx/parsers/tagvalue.py]: the productions that call the builder *)

(** The grammar functions of [Parser] that hand a value to a method of
    [self.builder], on Python 3 ([value = p[2]]).  The builder is the one of
    [rdfbuilders.py], whose methods have the names and the arguments the
    grammar functions use; the methods are those of module [Builders]. *)

Module Productions.
Import Builders PyMore.

(** [ERROR_MESSAGES] *)
Definition ERROR_MESSAGES : dict :=
  [ ("TOOL_VALUE",
     "Invalid tool value {0} at line: {1}");
    ("ORG_VALUE",
     "Invalid organization value {0} at line: {1}");
    ("PERSON_VALUE",
     "Invalid person value {0} at line: {1}");
    ("CREATED_VALUE_TYPE",
     "Created value must be date in ISO 8601 format, line: {0}");
    ("MORE_THAN_ONE",
     "Only one {0} allowed, extra at line: {1}");
    ("CREATOR_COMMENT_VALUE_TYPE",
     "CreatorComment value must be free form text between <text></text> tags, line:{0}");
    ("DOC_LICENSE_VALUE",
     "Invalid DataLicense value '{0}', line:{1} must be CC0-1.0");
    ("DOC_LICENSE_VALUE_TYPE",
     "DataLicense must be CC0-1.0, line: {0}");
    ("DOC_VERSION_VALUE",
     "Invalid SPDXVersion '{0}' must be SPDX-M.N where M and N are numbers. Line: {1}");
    ("DOC_VERSION_VALUE_TYPE",
     "Invalid SPDXVersion value, must be SPDX-M.N where M and N are numbers. Line: {0}");
    ("DOC_NAME_VALUE",
     "DocumentName must be single line of text, line: {0}");
    ("DOC_SPDX_ID_VALUE",
     "Invalid SPDXID value, SPDXID must be SPDXRef-DOCUMENT, line: {0}");
    ("EXT_DOC_REF_VALUE",
     "ExternalDocumentRef must contain External Document ID, SPDX Document URI and Checksumin the standard format, line:{0}.");
    ("DOC_COMMENT_VALUE_TYPE",
     "DocumentComment value must be free form text between <text></text> tags, line:{0}");
    ("DOC_NAMESPACE_VALUE",
     ("Invalid DocumentNamespace value {0}, must contain a scheme (e.g. " ++ dq ++ "https:" ++ dq ++ ") and should not contain the " ++ dq ++ "#" ++ dq ++ " delimiter, line:{1}")%string);
    ("DOC_NAMESPACE_VALUE_TYPE",
     ("Invalid DocumentNamespace value, must contain a scheme (e.g. " ++ dq ++ "https:" ++ dq ++ ") and should not contain the " ++ dq ++ "#" ++ dq ++ " delimiter, line: {0}")%string);
    ("REVIEWER_VALUE_TYPE",
     "Invalid Reviewer value must be a Person, Organization or Tool. Line: {0}");
    ("CREATOR_VALUE_TYPE",
     "Invalid Reviewer value must be a Person, Organization or Tool. Line: {0}");
    ("REVIEW_DATE_VALUE_TYPE",
     "ReviewDate value must be date in ISO 8601 format, line: {0}");
    ("REVIEW_COMMENT_VALUE_TYPE",
     "ReviewComment value must be free form text between <text></text> tags, line:{0}");
    ("ANNOTATOR_VALUE_TYPE",
     "Invalid Annotator value must be a Person, Organization or Tool. Line: {0}");
    ("ANNOTATION_DATE_VALUE_TYPE",
     "AnnotationDate value must be date in ISO 8601 format, line: {0}");
    ("ANNOTATION_COMMENT_VALUE_TYPE",
     "AnnotationComment value must be free form text between <text></text> tags, line:{0}");
    ("ANNOTATION_TYPE_VALUE",
     ("AnnotationType must be " ++ dq ++ "REVIEW" ++ dq ++ " or " ++ dq ++ "OTHER" ++ dq ++ ". Line: {0}")%string);
    ("ANNOTATION_SPDX_ID_VALUE",
     ("SPDXREF must be [" ++ dq ++ "DocumentRef-" ++ dq ++ "[idstring]" ++ dq ++ ":" ++ dq ++ "]SPDXID where[" ++ dq ++ "DocumentRef-" ++ dq ++ "[idstring]" ++ dq ++ ":" ++ dq ++ "] is an optional reference to an external SPDX document andSPDXID is a unique string containing letters, numbers, " ++ dq ++ "." ++ dq ++ "," ++ dq ++ "-" ++ dq ++ ".")%string);
    ("A_BEFORE_B",
     "{0} Can not appear before {1}, line: {2}");
    ("PACKAGE_NAME_VALUE",
     "PackageName must be single line of text, line: {0}");
    ("PKG_VERSION_VALUE",
     "PackageVersion must be single line of text, line: {0}");
    ("PKG_FILE_NAME_VALUE",
     "PackageFileName must be single line of text, line: {0}");
    ("PKG_SUPPL_VALUE",
     "PackageSupplier must be Organization, Person or NOASSERTION, line: {0}");
    ("PKG_ORIG_VALUE",
     "PackageOriginator must be Organization, Person or NOASSERTION, line: {0}");
    ("PKG_DOWN_VALUE",
     "PackageDownloadLocation must be a url or NONE or NOASSERTION, line: {0}");
    ("PKG_HOME_VALUE",
     "PackageHomePage must be a url or NONE or NOASSERTION, line: {0}");
    ("PKG_SRC_INFO_VALUE",
     "PackageSourceInfo must be free form text, line: {0}");
    ("PKG_CHKSUM_VALUE",
     "PackageChecksum must be a single line of text, line: {0}");
    ("PKG_LICS_CONC_VALUE",
     "PackageLicenseConcluded must be NOASSERTION, NONE, license identifier or license list, line: {0}");
    ("PKG_LIC_FFILE_VALUE",
     "PackageLicenseInfoFromFiles must be, line: {0}");
    ("PKG_LICS_DECL_VALUE",
     "PackageLicenseDeclared must be NOASSERTION, NONE, license identifier or license list, line: {0}");
    ("PKG_LICS_COMMENT_VALUE",
     "PackageLicenseComments must be free form text, line: {0}");
    ("PKG_SUM_VALUE",
     "PackageSummary must be free form text, line: {0}");
    ("PKG_DESC_VALUE",
     "PackageDescription must be free form text, line: {0}");
    ("FILE_NAME_VALUE",
     "FileName must be a single line of text, line: {0}");
    ("FILE_COMMENT_VALUE",
     "FileComment must be free form text, line:{0}");
    ("FILE_TYPE_VALUE",
     "FileType must be one of OTHER, BINARY, SOURCE or ARCHIVE, line: {0}");
    ("FILE_SPDX_ID_VALUE",
     ("SPDXID must be " ++ dq ++ "SPDXRef-[idstring]" ++ dq ++ " where [idstring] is a unique string containing letters, numbers, " ++ dq ++ "." ++ dq ++ ", " ++ dq ++ "-" ++ dq ++ ".")%string);
    ("FILE_CHKSUM_VALUE",
     "FileChecksum must be a single line of text starting with 'SHA1:', line:{0}");
    ("FILE_LICS_CONC_VALUE",
     "LicenseConcluded must be NOASSERTION, NONE, license identifier or license list, line:{0}");
    ("FILE_LICS_INFO_VALUE",
     "LicenseInfoInFile must be NOASSERTION, NONE or license identifier, line: {0}");
    ("FILE_LICS_COMMENT_VALUE",
     "LicenseComments must be free form lext, line: {0}");
    ("FILE_CR_TEXT_VALUE",
     "FileCopyrightText must be one of NOASSERTION, NONE or free form text, line: {0}");
    ("FILE_NOTICE_VALUE",
     "FileNotice must be free form text, line: {0}");
    ("FILE_CONTRIB_VALUE",
     "FileContributor must be a single line, line: {0}");
    ("FILE_DEP_VALUE",
     "FileDependency must be a single line, line: {0}");
    ("ART_PRJ_NAME_VALUE",
     "ArtifactOfProjectName must be a single line, line: {0}");
    ("FILE_ART_OPT_ORDER",
     "ArtificatOfProjectHomePage and ArtificatOfProjectURI must immediatly follow ArtifactOfProjectName, line: {0}");
    ("ART_PRJ_HOME_VALUE",
     "ArtificatOfProjectHomePage must be a URL or UNKNOWN, line: {0}");
    ("ART_PRJ_URI_VALUE",
     "ArtificatOfProjectURI must be a URI or UNKNOWN, line: {0}");
    ("UNKNOWN_TAG",
     "Found unknown tag : {0} at line: {1}");
    ("LICS_ID_VALUE",
     "LicenseID must start with 'LicenseRef-', line: {0}");
    ("LICS_TEXT_VALUE",
     "ExtractedText must be free form text, line: {0}");
    ("LICS_NAME_VALE",
     "LicenseName must be single line of text or NOASSERTION, line: {0}");
    ("LICS_COMMENT_VALUE",
     "LicenseComment must be free form text, line: {0}");
    ("LICS_CRS_REF_VALUE",
     "LicenseCrossReference must be uri as single line of text, line: {0}");
    ("PKG_CPY_TEXT_VALUE",
     "Package copyright text must be free form text, line: {0}");
    ("SNIP_SPDX_ID_VALUE",
     ("SPDXID must be " ++ dq ++ "SPDXRef-[idstring]" ++ dq ++ " where [idstring] is a unique string containing letters, numbers, " ++ dq ++ "." ++ dq ++ ", " ++ dq ++ "-" ++ dq ++ ".")%string);
    ("SNIPPET_NAME_VALUE",
     "SnippetName must be a single line of text, line: {0}");
    ("SNIP_COMMENT_VALUE",
     "SnippetComment must be free form text, line: {0}");
    ("SNIP_COPYRIGHT_VALUE",
     "SnippetCopyrightText must be one of NOASSERTION, NONE or free form text, line: {0}");
    ("SNIP_LICS_COMMENT_VALUE",
     "SnippetLicenseComments must be free form text, line: {0}");
    ("SNIP_FILE_SPDXID_VALUE",
     ("SnippetFromFileSPDXID must be [" ++ dq ++ "DocumentRef-" ++ dq ++ "[idstring]" ++ dq ++ ":" ++ dq ++ "] SPDXID where DocumentRef-[idstring]: is an optional reference to an externalSPDX Document and SPDXID is a string containing letters, numbers, " ++ dq ++ "." ++ dq ++ ", " ++ dq ++ "-" ++ dq ++ ".")%string);
    ("SNIP_LICS_CONC_VALUE",
     "SnippetLicenseConcluded must be NOASSERTION, NONE, license identifier or license list, line:{0}");
    ("SNIP_LICS_INFO_VALUE",
     "LicenseInfoInSnippet must be NOASSERTION, NONE or license identifier, line: {0}") ].

(** What a grammar function reads of its argument [p]: the value [p[2]]
    of the second symbol and the line numbers [p.lineno(1)] and
    [p.lineno(2)]. *)
Record YaccProduction : Type := {
  p_2 : string;
  lineno_1 : nat;
  lineno_2 : nat }.

(** The parser: its builder and the document being built, its flag
    [error], and the messages handed to [self.logger.log]. *)
Record Parser : Type := {
  builder : Builder;
  document : Document.t;
  error : bool;
  logger : list string }.

(** How a grammar function ends: it returns, an exception of the builder
    leaves it, or [ERROR_MESSAGES] has no such key. *)
Inductive ended : Type :=
| Returns
| Escapes (e : exn)
| KeyError (key : string).

Definition production : Type := Parser -> Parser * ended.

(** [self.error = True] *)
Definition set_error (self : Parser) : Parser :=
  {| builder := builder self; document := document self; error := true;
     logger := logger self |}.

(** [self.logger.log(msg)] *)
Definition log (msg : string) (self : Parser) : Parser :=
  {| builder := builder self; document := document self; error := error self;
     logger := logger self ++ [msg] |}.

(** The three statements [self.error = True], [msg =
    ERROR_MESSAGES[key].format] of the arguments, [self.logger.log(msg)]. *)
Definition report (key : string) (args : list string) : production :=
  fun self =>
    let self := set_error self in
    match dict_get key ERROR_MESSAGES with
    | None => (self, KeyError key)
    | Some template =>
        match format template args with
        | None => (self, Escapes IndexError)
        | Some msg => (log msg self, Returns)
        end
    end.

(** [Parser.more_than_one_error] *)
Definition more_than_one_error (tag : string) (line : nat) : production :=
  report "MORE_THAN_ONE" [tag; str line].

(** [Parser.order_error] *)
Definition order_error (first_tag second_tag : string) (line : nat) : production :=
  report "A_BEFORE_B" [first_tag; second_tag; str line].

(** [try: self.builder.method(self.document, value)] followed by [except]
    clauses: the clause of the exception, if there is one, is run on the
    state the builder left; any other exception leaves the function.
    [OrderError], [CardinalityError] and [SPDXValueError] are classes none
    of which extends another (section 7 lists them as separate kinds), so
    the order of the clauses, which varies in the sources, does not
    matter. *)
Definition try_except (method : M retval) (except : exn -> option production)
    : production :=
  fun self =>
    let (s, r) := method (builder self, document self) in
    let self :=
      {| builder := fst s; document := snd s; error := error self;
         logger := logger self |} in
    match r with
    | Return _ => (self, Returns)
    | Raise e =>
        match except e with
        | Some clause => clause self
        | None => (self, Escapes e)
        end
    end.

Section Parser.

Variable validate_doc_namespace : string -> bool.
Variable str_from_text : string -> option string.

(** [file_notice : FILE_NOTICE TEXT] *)
Definition p_file_notice_1 (p : YaccProduction) : production :=
  try_except (set_file_notice str_from_text (p_2 p))
    (fun e => match e with
              | OrderError _ => Some (order_error "FileNotice" "FileName" (lineno_1 p))
              | CardinalityError _ => Some (more_than_one_error "FileNotice" (lineno_1 p))
              | _ => None
              end).

(** [file_lics_comment : FILE_LICS_COMMENT TEXT] *)
Definition p_file_lics_comment_1 (p : YaccProduction) : production :=
  try_except (set_file_license_comment (p_2 p))
    (fun e => match e with
              | OrderError _ => Some (order_error "LicenseComments" "FileName" (lineno_1 p))
              | CardinalityError _ => Some (more_than_one_error "LicenseComments" (lineno_1 p))
              | _ => None
              end).

(** [file_comment : FILE_COMMENT TEXT] *)
Definition p_file_comment_1 (p : YaccProduction) : production :=
  try_except (set_file_comment (p_2 p))
    (fun e => match e with
              | OrderError _ => Some (order_error "FileComment" "FileName" (lineno_1 p))
              | CardinalityError _ => Some (more_than_one_error "FileComment" (lineno_1 p))
              | _ => None
              end).

(** [file_chksum : FILE_CHKSUM CHKSUM] *)
Definition p_file_chksum_1 (p : YaccProduction) : production :=
  try_except (set_file_chksum (p_2 p))
    (fun e => match e with
              | OrderError _ => Some (order_error "FileChecksum" "FileName" (lineno_1 p))
              | CardinalityError _ => Some (more_than_one_error "FileChecksum" (lineno_1 p))
              | _ => None
              end).

(** [pkg_desc : PKG_DESC TEXT] *)
Definition p_pkg_desc_1 (p : YaccProduction) : production :=
  try_except (set_pkg_desc (p_2 p))
    (fun e => match e with
              | CardinalityError _ => Some (more_than_one_error "PackageDescription" (lineno_1 p))
              | OrderError _ => Some (order_error "PackageDescription" "PackageFileName" (lineno_1 p))
              | _ => None
              end).

(** [pkg_summary : PKG_SUM TEXT] *)
Definition p_pkg_summary_1 (p : YaccProduction) : production :=
  try_except (set_pkg_summary (p_2 p))
    (fun e => match e with
              | OrderError _ => Some (order_error "PackageSummary" "PackageFileName" (lineno_1 p))
              | CardinalityError _ => Some (more_than_one_error "PackageSummary" (lineno_1 p))
              | _ => None
              end).

(** [pkg_lic_comment : PKG_LICS_COMMENT TEXT] *)
Definition p_pkg_lic_comment_1 (p : YaccProduction) : production :=
  try_except (set_pkg_license_comment (p_2 p))
    (fun e => match e with
              | OrderError _ => Some (order_error "PackageLicenseComments" "PackageFileName" (lineno_1 p))
              | CardinalityError _ => Some (more_than_one_error "PackageLicenseComments" (lineno_1 p))
              | _ => None
              end).

(** [pkg_src_info : PKG_SRC_INFO TEXT] *)
Definition p_pkg_src_info_1 (p : YaccProduction) : production :=
  try_except (set_pkg_source_info (p_2 p))
    (fun e => match e with
              | CardinalityError _ => Some (more_than_one_error "PackageSourceInfo" (lineno_1 p))
              | OrderError _ => Some (order_error "PackageSourceInfo" "PackageFileName" (lineno_1 p))
              | _ => None
              end).

(** [pkg_chksum : PKG_CHKSUM CHKSUM] *)
Definition p_pkg_chksum_1 (p : YaccProduction) : production :=
  try_except (set_pkg_chk_sum (p_2 p))
    (fun e => match e with
              | OrderError _ => Some (order_error "PackageChecksum" "PackageFileName" (lineno_1 p))
              | CardinalityError _ => Some (more_than_one_error "PackageChecksum" (lineno_1 p))
              | _ => None
              end).

(** [pkg_verif : PKG_VERF_CODE LINE] *)
Definition p_pkg_verif_1 (p : YaccProduction) : production :=
  try_except (set_pkg_verif_code (p_2 p))
    (fun e => match e with
              | OrderError _ => Some (order_error "PackageVerificationCode" "PackageName" (lineno_1 p))
              | CardinalityError _ => Some (more_than_one_error "PackageVerificationCode" (lineno_1 p))
              | SPDXValueError _ => Some (report "PKG_VERF_CODE_VALUE" [PyMore.str (lineno_1 p)])
              | _ => None
              end).

(** [snip_comment : SNIPPET_COMMENT TEXT] *)
Definition p_snippet_comment (p : YaccProduction) : production :=
  try_except (set_snippet_comment (p_2 p))
    (fun e => match e with
              | OrderError _ => Some (order_error "SnippetComment" "SnippetSPDXID" (lineno_1 p))
              | SPDXValueError _ => Some (report "SNIP_COMMENT_VALUE" [PyMore.str (lineno_2 p)])
              | CardinalityError _ => Some (more_than_one_error "SnippetComment" (lineno_1 p))
              | _ => None
              end).


(** [review_comment : REVIEW_COMMENT TEXT] *)
Definition p_review_comment_1 (p : YaccProduction) : production :=
  try_except (add_review_comment (p_2 p))
    (fun e => match e with
              | CardinalityError _ => Some (more_than_one_error "ReviewComment" (lineno_1 p))
              | OrderError _ => Some (order_error "ReviewComment" "Reviewer" (lineno_1 p))
              | _ => None
              end).

(** [annotation_comment : ANNOTATION_COMMENT TEXT] *)
Definition p_annotation_comment_1 (p : YaccProduction) : production :=
  try_except (add_annotation_comment (p_2 p))
    (fun e => match e with
              | CardinalityError _ => Some (more_than_one_error "AnnotationComment" (lineno_1 p))
              | OrderError _ => Some (order_error "AnnotationComment" "Annotator" (lineno_1 p))
              | _ => None
              end).

(** [annotation_type : ANNOTATION_TYPE LINE] *)
Definition p_annotation_type_1 (p : YaccProduction) : production :=
  try_except (add_annotation_type (p_2 p))
    (fun e => match e with
              | CardinalityError _ => Some (more_than_one_error "AnnotationType" (lineno_1 p))
              | SPDXValueError _ => Some (report "ANNOTATION_TYPE_VALUE" [PyMore.str (lineno_1 p)])
              | OrderError _ => Some (order_error "AnnotationType" "Annotator" (lineno_1 p))
              | _ => None
              end).

(** [doc_comment : DOC_COMMENT TEXT] *)
Definition p_doc_comment_1 (p : YaccProduction) : production :=
  try_except (set_doc_comment (p_2 p))
    (fun e => match e with
              | CardinalityError _ => Some (more_than_one_error "DocumentComment" (lineno_1 p))
              | _ => None
              end).

(** [doc_namespace : DOC_NAMESPACE LINE] *)
Definition p_doc_namespace_1 (p : YaccProduction) : production :=
  try_except (set_doc_namespace validate_doc_namespace (p_2 p))
    (fun e => match e with
              | SPDXValueError _ => Some (report "DOC_NAMESPACE_VALUE" [p_2 p; PyMore.str (lineno_2 p)])
              | CardinalityError _ => Some (more_than_one_error "DocumentNamespace" (lineno_1 p))
              | _ => None
              end).

(** [doc_name : DOC_NAME LINE] *)
Definition p_doc_name_1 (p : YaccProduction) : production :=
  try_except (set_doc_name (p_2 p))
    (fun e => match e with
              | CardinalityError _ => Some (more_than_one_error "DocumentName" (lineno_1 p))
              | _ => None
              end).

(** [spdx_version : DOC_VERSION LINE] *)
Definition p_spdx_version_1 (p : YaccProduction) : production :=
  try_except (set_doc_version (p_2 p))
    (fun e => match e with
              | CardinalityError _ => Some (more_than_one_error "SPDXVersion" (lineno_1 p))
              | SPDXValueError _ => Some (report "DOC_VERSION_VALUE" [p_2 p; PyMore.str (lineno_1 p)])
              | _ => None
              end).

(** [creator_comment : CREATOR_COMMENT TEXT] *)
Definition p_creator_comment_1 (p : YaccProduction) : production :=
  try_except (set_creation_comment (p_2 p))
    (fun e => match e with
              | CardinalityError _ => Some (more_than_one_error "CreatorComment" (lineno_1 p))
              | _ => None
              end).

(** [file_chksum : FILE_CHKSUM error] *)
Definition p_file_chksum_2 (p : YaccProduction) : production :=
  report "FILE_CHKSUM_VALUE" [str (lineno_1 p)].

(** [pkg_verif : PKG_VERF_CODE error] *)
Definition p_pkg_verif_2 (p : YaccProduction) : production :=
  report "PKG_VERF_CODE_VALUE" [str (lineno_1 p)].

(** [locs_list_ver : LIC_LIST_VER error] *)
Definition p_lics_list_ver_2 (p : YaccProduction) : production :=
  report "LIC_LIST_VER_VALUE_TYPE" [str (lineno_1 p)].


(** those for a field that holds one value, with the tag they report and
    the method they call; [p_snippet_lic_comment] is left out, see
    [set_snippet_lic_comment] *)
Definition single_valued_productions
    : list (string * (string -> M retval) * (YaccProduction -> production)) :=
  [
    ("FileNotice", set_file_notice str_from_text, p_file_notice_1);
    ("LicenseComments", set_file_license_comment, p_file_lics_comment_1);
    ("FileComment", set_file_comment, p_file_comment_1);
    ("FileChecksum", set_file_chksum, p_file_chksum_1);
    ("PackageDescription", set_pkg_desc, p_pkg_desc_1);
    ("PackageSummary", set_pkg_summary, p_pkg_summary_1);
    ("PackageLicenseComments", set_pkg_license_comment, p_pkg_lic_comment_1);
    ("PackageSourceInfo", set_pkg_source_info, p_pkg_src_info_1);
    ("PackageChecksum", set_pkg_chk_sum, p_pkg_chksum_1);
    ("PackageVerificationCode", set_pkg_verif_code, p_pkg_verif_1);
    ("SnippetComment", set_snippet_comment, p_snippet_comment);
    ("ReviewComment", add_review_comment, p_review_comment_1);
    ("AnnotationComment", add_annotation_comment, p_annotation_comment_1);
    ("AnnotationType", add_annotation_type, p_annotation_type_1);
    ("DocumentComment", set_doc_comment, p_doc_comment_1);
    ("DocumentNamespace", set_doc_namespace validate_doc_namespace, p_doc_namespace_1);
    ("DocumentName", set_doc_name, p_doc_name_1);
    ("SPDXVersion", set_doc_version, p_spdx_version_1);
    ("CreatorComment", set_creation_comment, p_creator_comment_1) ].

End Parser.


(** the message of [more_than_one_error] *)
Definition only_one (tag : string) (line : nat) : string :=
  ("Only one " ++ tag ++ " allowed, extra at line: " ++ str line)%string.

(** *** A sample parser *)

(** a parser at the start of a pass, on a document whose package has a
    file *)
Definition sample_parser : Parser :=
  {| builder := setattr package_set true fresh_builder;
     document := document_with_file;
     error := false;
     logger := [] |}.

(** the lines [FileChecksum: SHA1: ...] at lines 7 and 8 of a text *)
Definition FileChecksum_line_7 : YaccProduction :=
  {| p_2 := "da39a3ee5e6b4b0d3255bfef95601890afd80709";
     lineno_1 := 7; lineno_2 := 7 |}.
Definition FileChecksum_line_8 : YaccProduction :=
  {| p_2 := "2fd4e1c67a2d28fced849ee1bb76e7391b93eb12";
     lineno_1 := 8; lineno_2 := 8 |}.

End Productions.

(** ** The messages of [Snippet.validate] *)

Module SnippetMessages.
Import SnippetValidate.

(** the message of [validate_licenses_in_snippet] for an entry that is
    no license *)
Definition not_a_license : string :=
  "Licenses in Snippet must be one of document.License, utils.NoAssert or utils.SPDXNone".

(** the entries of [licenses_in_snippet] that are no license *)
Definition offending (lics : list pyobj) : list pyobj :=
  filter (fun lic => negb (is_license_or_special lic)) lics.

(** a snippet whose licenses are [NoAssert()], a string and [None] *)
Definition snippet_with_strings : Snippet.t :=
  Snippet.add_lics PyNone
    (Snippet.add_lics (PyStr "MIT")
       (Snippet.add_lics PyNoAssert
          (Snippet.init (Some "SPDXRef-Snippet") PySPDXNone (Some "SPDXRef-File")
             PyNoAssert))).

End SnippetMessages.

(** ** More sample inputs *)

(** an external document reference without checksum, and a document that
    has it *)
Definition sample_reference : ExternalDocumentRef.t :=
  {| ExternalDocumentRef.external_document_id := Some "DocumentRef-spdx-tool-1.2";
     ExternalDocumentRef.spdx_document_uri :=
       Some "http://spdx.org/spdxdocs/spdx-tools-v1.2";
     ExternalDocumentRef.check_sum := None |}.

Definition document_with_reference : Document.t :=
  Document.set_ext_document_references [sample_reference] Document.init.

(** a file system in which [demo/a.py] cannot be read *)
Definition unreadable_a (path : string) : option string :=
  if String.eqb path "demo/a.py" then None else Some ("content of " ++ path)%string.

(** * Properties *)

(** ** [Snippet.validate] with its default argument *)

Section SnippetValidateFacts.
Import SnippetValidate.

Lemma check_licenses_None (lics : list pyobj) :
  check_licenses lics None =
  if forallb is_license_or_special lics then Return None else Raise TypeError.
Proof.
  induction lics as [|lic lics IH]; simpl; [reflexivity|].
  destruct (is_license_or_special lic); simpl; [exact IH | reflexivity].
Qed.

(** C10.  Called with [messages=None], [Snippet.validate] returns [None]
    when the identifier, copyright, file identifier, concluded-license and
    licenses-in-snippet checks all pass, and otherwise fails with a
    [TypeError], the first check that has a message adding a list to
    [None]; it never returns a list. *)
Theorem validate_default_messages (self : Snippet.t) :
  validate self None =
    (if checks_pass self then Return None else Raise TypeError)
  /\ (forall l : list string, validate self None <> Return (Some l)).
Proof.
  assert (H : validate self None =
              if checks_pass self then Return None else Raise TypeError).
  { unfold validate, checks_pass, validate_spdx_id, validate_copyright_text,
      validate_snip_from_file_spdxid, validate_concluded_license,
      validate_licenses_in_snippet.
    destruct (Snippet.spdx_id self); simpl; [|reflexivity].
    destruct (is_text_or_special (Snippet.copyright self)); simpl; [|reflexivity].
    destruct (Snippet.snip_from_file_spdxid self); simpl; [|reflexivity].
    destruct (is_license_or_special (Snippet.conc_lics self)); simpl; [|reflexivity].
    destruct (Nat.eqb (length (Snippet.licenses_in_snippet self)) 0); simpl;
      [reflexivity|].
    apply check_licenses_None. }
  split; [exact H|].
  intros l. rewrite H. destruct (checks_pass self); discriminate.
Qed.

(** With a list supplied, the messages come back in a list. *)
Lemma validate_with_list (self : Snippet.t) (l : list string) :
  exists l', validate self (Some l) = Return (Some l').
Proof.
  assert (Hc : forall lics l0, exists l', check_licenses lics (Some l0) = Return (Some l')).
  { induction lics as [|lic lics IH]; intros l0; simpl; [eauto|].
    destruct (is_license_or_special lic); simpl; apply IH. }
  unfold validate, validate_spdx_id, validate_copyright_text,
    validate_snip_from_file_spdxid, validate_concluded_license,
    validate_licenses_in_snippet.
  destruct (Snippet.spdx_id self); simpl;
    destruct (is_text_or_special (Snippet.copyright self)); simpl;
    destruct (Snippet.snip_from_file_spdxid self); simpl;
    destruct (is_license_or_special (Snippet.conc_lics self)); simpl;
    destruct (Nat.eqb (length (Snippet.licenses_in_snippet self)) 0); simpl;
    solve [eauto | apply Hc].
Qed.

End SnippetValidateFacts.

(** ** The builders *)

Section BuilderFacts.
Import Builders.

(** unfold a builder method down to the state it reaches *)
Ltac run :=
  unfold has_package_and_has_file, has_package, has_file,
    assert_package_exists, assert_snippet_exists, assign_doc, assign_package,
    assign_file, assign_last_snippet, assign_last_review,
    assign_last_annotation, getdoc, getflag, setflag, bind, ret, raise;
  simpl.

Lemma setattr_same (f : flag) (v : bool) (self : Builder) :
  setattr f v self f = v.
Proof. unfold setattr. destruct (flag_eq_dec f f); congruence. Qed.

Lemma setattr_other (f g : flag) (v : bool) (self : Builder) :
  f <> g -> setattr f v self g = self g.
Proof. unfold setattr. destruct (flag_eq_dec f g); congruence. Qed.

(** *** Cardinality *)

(** The first [set_snippet_lic_comment] on a snippet stores the comment;
    every later one returns, raises nothing and changes nothing. *)
Lemma set_snippet_lic_comment_again (self : Builder) (doc : Document.t)
    (lic_comment : string) :
  self snippet_spdx_id_set = true ->
  self snippet_lic_comment_set = true ->
  set_snippet_lic_comment lic_comment (self, doc) = ((self, doc), Return RNone).
Proof.
  intros Hs Hl. unfold set_snippet_lic_comment. run. rewrite Hs. simpl.
  rewrite Hl. reflexivity.
Qed.

(** The sibling [set_snippet_comment] does raise. *)
Lemma set_snippet_comment_again (self : Builder) (doc : Document.t)
    (comment : string) :
  self snippet_spdx_id_set = true ->
  self snippet_comment_set = true ->
  set_snippet_comment comment (self, doc) =
    ((self, doc), Raise (CardinalityError "Snippet::comment")).
Proof.
  intros Hs Hl. unfold set_snippet_comment. run. rewrite Hs. simpl.
  rewrite Hl. reflexivity.
Qed.

(** C1.  [set_snippet_lic_comment] called twice on the same snippet: the
    first call stores its comment; the second returns [None] as the first
    did and raises no [CardinalityError], although it leaves the first
    comment in place.  The sibling [set_snippet_comment] raises
    [CardinalityError] on its second call. *)
Theorem set_snippet_lic_comment_twice :
  let s1 := fst (set_snippet_lic_comment "first"
                   (builder_with_snippet, document_with_snippet)) in
  let r2 := set_snippet_lic_comment "second" s1 in
  snd (set_snippet_lic_comment "first"
         (builder_with_snippet, document_with_snippet)) = Return RNone
  /\ snd r2 = Return RNone
  /\ snd r2 <> Raise (CardinalityError "Snippet::licenseComments")
  /\ map Snippet.license_comment (Document.snippet (snd (fst r2))) = [Some "first"]
  /\ (let t1 := fst (set_snippet_comment "first"
                       (builder_with_snippet, document_with_snippet)) in
      snd (set_snippet_comment "second" t1) =
        Raise (CardinalityError "Snippet::comment")).
Proof.
  cbv zeta. repeat split; try reflexivity. discriminate.
Qed.

(** Every other setter of a single-valued field raises
    [CardinalityError] once its flag is set, and changes nothing. *)
Lemma single_valued_setter_again (vd vn : string -> bool)
    (str_from_text : string -> option string)
    (f : flag) (setter : string -> M retval) (value : string) (s : state) :
  In (f, setter) (single_valued_setters vd vn str_from_text) ->
  focus_exists s ->
  fst s f = true ->
  exists msg, setter value s = (s, Raise (CardinalityError msg)).
Proof.
  intros Hin (Hp & Hs & (p & f0 & fs & Hd & Hf) & (r & rs & Hr) & (a & l & Ha)) Hset.
  assert (Hok : has_package_and_has_file s = (s, Return true)).
  { run. rewrite Hd. simpl. rewrite Hd, Hf. reflexivity. }
  unfold single_valued_setters in Hin. simpl in Hin.
  repeat (destruct Hin as [Hin | Hin];
          [ injection Hin as <- <-;
            match goal with
            | |- exists _, ?g _ _ = _ => unfold g
            | |- exists _, ?g _ _ _ = _ => unfold g
            end;
            first [ unfold bind at 1; rewrite Hok; cbv iota; run
                  | run; rewrite ?Hp, ?Hs, ?Hr, ?Ha; simpl ];
            rewrite Hset; eexists; reflexivity | ]).
  contradiction.
Qed.

(** case analysis on the tests of a method, innermost first *)
Ltac split_cases :=
  repeat (match goal with
          | |- context [match ?x with _ => _ end] =>
              lazymatch x with
              | context [match _ with _ => _ end] => fail
              | _ => destruct x eqn:?
              end
          end; simpl).

(** a call of one of these setters that returns has set its flag *)
Lemma single_valued_setter_sets_flag (vd vn : string -> bool)
    (str_from_text : string -> option string)
    (f : flag) (setter : string -> M retval) (value : string) (s s' : state)
    (r : retval) :
  In (f, setter) (single_valued_setters vd vn str_from_text) ->
  setter value s = (s', Return r) ->
  fst s' f = true.
Proof.
  intros Hin Hrun. unfold single_valued_setters in Hin. simpl in Hin.
  destruct s as [self doc].
  repeat (destruct Hin as [Hin | Hin];
          [ injection Hin as <- <-; revert Hrun;
            match goal with
            | |- ?g _ _ = _ -> _ => unfold g
            | |- ?g _ _ _ = _ -> _ => unfold g
            end;
            run; split_cases; intros Hrun; try discriminate;
            injection Hrun as <- _; simpl; reflexivity | ]).
  contradiction.
Qed.

(** so the second of two calls on the same entity raises
    [CardinalityError] and leaves what the first call stored *)
Lemma single_valued_setter_twice (vd vn : string -> bool)
    (str_from_text : string -> option string)
    (f : flag) (setter : string -> M retval) (first second : string)
    (s s1 : state) (r : retval) :
  In (f, setter) (single_valued_setters vd vn str_from_text) ->
  setter first s = (s1, Return r) ->
  focus_exists s1 ->
  exists msg, setter second s1 = (s1, Raise (CardinalityError msg)).
Proof.
  intros Hin Hrun Hfocus.
  eapply single_valued_setter_again; try eassumption.
  eapply single_valued_setter_sets_flag; eassumption.
Qed.

(** *** The flag and the validation *)

(** [set_doc_version] marks the version as set before it looks at the
    value: a malformed value raises [SPDXValueError] and leaves the flag
    set. *)
Lemma set_doc_version_malformed (self : Builder) (doc : Document.t)
    (value : string) :
  self doc_version_set = false ->
  VERS_STR_REGEX_match value = None ->
  set_doc_version value (self, doc) =
    ((setattr doc_version_set true self, doc),
     Raise (SPDXValueError "Document::Version")).
Proof.
  intros Hf Hm. unfold set_doc_version. run. rewrite Hf. simpl.
  rewrite Hm. reflexivity.
Qed.

Lemma set_doc_version_set (self : Builder) (doc : Document.t) (value : string) :
  self doc_version_set = true ->
  set_doc_version value (self, doc) =
    ((self, doc), Raise (CardinalityError "Document::Version")).
Proof. intros Hf. unfold set_doc_version. run. rewrite Hf. reflexivity. Qed.

(** so does [set_doc_namespace], whatever the check of the namespace is *)
Lemma set_doc_namespace_malformed (validate_doc_namespace : string -> bool)
    (self : Builder) (doc : Document.t) (namespace : string) :
  self doc_namespace_set = false ->
  validate_doc_namespace namespace = false ->
  set_doc_namespace validate_doc_namespace namespace (self, doc) =
    ((setattr doc_namespace_set true self, doc),
     Raise (SPDXValueError "Document::Namespace")).
Proof.
  intros Hf Hm. unfold set_doc_namespace. run. rewrite Hf. simpl.
  rewrite Hm. reflexivity.
Qed.

Lemma set_doc_namespace_set (validate_doc_namespace : string -> bool)
    (self : Builder) (doc : Document.t) (namespace : string) :
  self doc_namespace_set = true ->
  set_doc_namespace validate_doc_namespace namespace (self, doc) =
    ((self, doc), Raise (CardinalityError "Document::Comment")).
Proof. intros Hf. unfold set_doc_namespace. run. rewrite Hf. reflexivity. Qed.

(** while [set_doc_spdx_id] sets its flag after the check only *)
Lemma set_doc_spdx_id_malformed (validate_doc_spdx_id : string -> bool)
    (self : Builder) (doc : Document.t) (line : string) :
  self doc_spdx_id_set = false ->
  validate_doc_spdx_id line = false ->
  set_doc_spdx_id validate_doc_spdx_id line (self, doc) =
    ((self, doc), Raise (SPDXValueError "Document::SPDXID")).
Proof.
  intros Hf Hm. unfold set_doc_spdx_id. run. rewrite Hf. simpl.
  rewrite Hm. reflexivity.
Qed.

(** C2.  On a fresh builder [set_doc_version] with the malformed value
    ["2.1"] raises [SPDXValueError] and leaves [doc_version_set] set; the
    valid ["SPDX-2.1"] that follows raises [CardinalityError] and the
    document gets no version, while the same valid value is accepted when
    it comes first. *)
Theorem set_doc_version_flag_before_validation :
  let r1 := set_doc_version "2.1" (fresh_builder, Document.init) in
  let r2 := set_doc_version "SPDX-2.1" (fst r1) in
  snd r1 = Raise (SPDXValueError "Document::Version")
  /\ fst (fst r1) doc_version_set = true
  /\ snd r2 = Raise (CardinalityError "Document::Version")
  /\ Document.version (snd (fst r2)) = None
  /\ snd (set_doc_version "SPDX-2.1" (fresh_builder, Document.init)) = Return RTrue.
Proof. cbv zeta. repeat split; reflexivity. Qed.

(** [set_doc_namespace] does the same for any namespace its check
    refuses: the next namespace, valid or not, is a [CardinalityError]. *)
Lemma set_doc_namespace_flag_before_validation
    (validate_doc_namespace : string -> bool) (self : Builder)
    (doc : Document.t) (namespace good : string) :
  self doc_namespace_set = false ->
  validate_doc_namespace namespace = false ->
  let n1 := set_doc_namespace validate_doc_namespace namespace (self, doc) in
  snd n1 = Raise (SPDXValueError "Document::Namespace")
  /\ fst (fst n1) doc_namespace_set = true
  /\ snd (set_doc_namespace validate_doc_namespace good (fst n1)) =
       Raise (CardinalityError "Document::Comment").
Proof.
  intros Hf Hv. cbv zeta.
  rewrite set_doc_namespace_malformed by assumption. cbn [fst snd].
  rewrite set_doc_namespace_set by apply setattr_same.
  cbn [fst snd]. rewrite setattr_same. repeat split.
Qed.

(** *** Order *)

Lemma package_setter_without_package (setter : string -> M retval)
    (value : string) (s : state) :
  In setter package_setters ->
  fst s package_set = false ->
  exists msg, setter value s = (s, Raise (OrderError msg)).
Proof.
  intros Hin Hf. exists "Package".
  unfold package_setters in Hin. simpl in Hin.
  repeat (destruct Hin as [<- | Hin];
          [ match goal with
            | |- ?f _ _ = _ => unfold f
            end; run; rewrite Hf; reflexivity | ]).
  contradiction.
Qed.

Lemma file_setter_without_file (str_from_text : string -> option string)
    (setter : string -> M retval) (value : string) (s : state) :
  In setter (file_setters str_from_text) ->
  (Document.package (snd s) = None \/
   exists p, Document.package (snd s) = Some p /\ Package.files p = []) ->
  exists msg, setter value s = (s, Raise (OrderError msg)).
Proof.
  intros Hin Hd.
  assert (Hok : has_package_and_has_file s = (s, Return false)).
  { run. destruct Hd as [H | [p [H Hp]]]; rewrite H; simpl;
      [reflexivity | rewrite H, Hp; reflexivity]. }
  unfold file_setters in Hin. simpl in Hin.
  repeat (destruct Hin as [<- | Hin];
          [ match goal with
            | |- exists _, ?f _ _ = _ => unfold f
            | |- exists _, ?f _ _ _ = _ => unfold f
            end; unfold bind at 1; rewrite Hok; eexists; reflexivity | ]).
  contradiction.
Qed.

(** C7.  A package-level setter called when the document has no package,
    on a builder whose record of a created package agrees with the
    document ([package_consistent], what a pass begun on a reset builder
    keeps), and a file-level setter called when the document has no
    package or its package has no file yet, on any builder, raises
    [OrderError]; neither the builder nor the document changes, and the
    missing package or file is not read: no [AttributeError] and no
    [IndexError]. *)
Theorem setters_before_predecessor_raise_OrderError
    (str_from_text : string -> option string)
    (setter : string -> M retval) (value : string) (s : state) :
  (In setter package_setters /\ package_consistent s /\
   Document.package (snd s) = None) \/
  (In setter (file_setters str_from_text) /\
   (Document.package (snd s) = None \/
    exists p, Document.package (snd s) = Some p /\ Package.files p = [])) ->
  exists msg, setter value s = (s, Raise (OrderError msg)).
Proof.
  intros [[Hin [Hc Hd]] | [Hin Hd]].
  - apply package_setter_without_package; [exact Hin|].
    unfold package_consistent in Hc.
    destruct (fst s package_set); [|reflexivity].
    exfalso. apply Hc; [reflexivity | exact Hd].
  - eapply file_setter_without_file; eassumption.
Qed.

Lemma setters_before_predecessor_witness :
  In set_file_chksum (file_setters (fun _ => None))
  /\ Document.package (snd (fresh_builder, Document.init)) = None
  /\ exists msg,
       set_file_chksum "da39a3ee5e6b4b0d3255bfef95601890afd80709"
         (fresh_builder, Document.init) =
       ((fresh_builder, Document.init), Raise (OrderError msg)).
Proof.
  assert (H2 : In set_file_chksum (file_setters (fun _ => None))).
  { simpl. tauto. }
  assert (H3 : Document.package (snd (fresh_builder, Document.init)) = None)
    by reflexivity.
  repeat (split; [assumption|]).
  exact (setters_before_predecessor_raise_OrderError (fun _ => None)
           set_file_chksum "da39a3ee5e6b4b0d3255bfef95601890afd80709"
           (fresh_builder, Document.init)
           (or_intror (conj H2 (or_introl H3)))).
Defined.

(** Without the agreement the claim fails: on a builder that was not
    reset, and a new document without a package, each of the eight
    package-level setters passes [assert_package_exists] and reads the
    missing package, an [AttributeError]; [set_pkg_chk_sum] has set its
    flag by then. *)
Lemma package_setters_on_builder_not_reset :
  Document.package (snd (builder_not_reset, Document.init)) = None
  /\ Forall
       (fun setter : string -> M retval =>
          snd (setter "da39a3ee5e6b4b0d3255bfef95601890afd80709"
                 (builder_not_reset, Document.init)) = Raise AttributeError)
       package_setters
  /\ set_pkg_chk_sum "da39a3ee5e6b4b0d3255bfef95601890afd80709"
       (builder_not_reset, Document.init) =
     ((setattr package_chk_sum_set true builder_not_reset, Document.init),
      Raise AttributeError).
Proof.
  split; [reflexivity|]. split; [|reflexivity].
  repeat constructor.
Qed.

(** a package-level setter on the same state *)
Example set_pkg_chk_sum_before_package :
  set_pkg_chk_sum "da39a3ee5e6b4b0d3255bfef95601890afd80709"
    (fresh_builder, Document.init) =
  ((fresh_builder, Document.init), Raise (OrderError "Package")).
Proof. reflexivity. Qed.

End BuilderFacts.

(** ** The production [spdx_id] of the tag-value parser *)

Section TagValueFacts.
Import Builders TagValue.

Variable vd : string -> bool.   (* validations.validate_doc_spdx_id *)
Variable vf : string -> bool.   (* validations.validate_file_spdx_id *)

Lemma same_doc_spdx_id_trans (s1 s2 s3 : state) :
  same_doc_spdx_id s1 s2 -> same_doc_spdx_id s2 s3 -> same_doc_spdx_id s1 s3.
Proof. unfold same_doc_spdx_id. intros [? ?] [? ?]. split; congruence. Qed.

Lemma bind_step {S A B : Type} (m : SE S A) (k : A -> SE S B) (s : S) :
  bind m k s =
  match m s with
  | (s', Return a) => k a s'
  | (s', Raise e) => (s', Raise e)
  end.
Proof. reflexivity. Qed.

Lemma p_spdx_id_clear (value : string) (s : state) :
  fst s doc_spdx_id_set = false ->
  p_spdx_id vd vf value s = bind (set_doc_spdx_id vd value) (fun _ => ret tt) s.
Proof.
  intros Hf. unfold p_spdx_id. rewrite bind_step. unfold getflag.
  rewrite Hf. reflexivity.
Qed.

Lemma p_spdx_id_set (value : string) (s : state) :
  fst s doc_spdx_id_set = true ->
  p_spdx_id vd vf value s = bind (set_file_spdx_id vf value) (fun _ => ret tt) s.
Proof.
  intros Hf. unfold p_spdx_id. rewrite bind_step. unfold getflag.
  rewrite Hf. reflexivity.
Qed.

Lemma set_file_spdx_id_keeps (value : string) (s : state) :
  same_doc_spdx_id s (fst (set_file_spdx_id vf value s)).
Proof.
  unfold same_doc_spdx_id, set_file_spdx_id, has_package_and_has_file,
    has_package, has_file, assign_file, getflag, setflag, bind, ret, raise.
  destruct s as [self doc]. simpl.
  destruct (Document.package doc) as [p|] eqn:Hp; simpl; [|tauto].
  rewrite Hp.
  destruct (Package.files p) as [|f fs] eqn:Hfs; simpl; [tauto|].
  destruct (self file_spdx_id_set); simpl; [tauto|].
  destruct (vf value); simpl; [|tauto].
  rewrite Hp, Hfs.
  destruct (Py.update_last (File.set_spdx_id (Some value)) (f :: fs)); simpl;
    [|tauto].
  split; [|reflexivity].
  apply setattr_other. discriminate.
Qed.

(** [set_doc_spdx_id] either stores the value and sets the flag, or
    raises and changes nothing *)
Lemma set_doc_spdx_id_cases (value : string) (s : state) :
  fst s doc_spdx_id_set = false ->
  (exists s', set_doc_spdx_id vd value s = (s', Return RTrue)
              /\ fst s' doc_spdx_id_set = true
              /\ Document.spdx_id (snd s') = Some value)
  \/ (exists e, set_doc_spdx_id vd value s = (s, Raise e)).
Proof.
  intros Hf. unfold set_doc_spdx_id, assign_doc, getflag, setflag, bind, ret, raise.
  destruct s as [self doc]. simpl in *. rewrite Hf. simpl.
  destruct (vd value); simpl.
  - left. eexists. split; [reflexivity|]. simpl. split; [|reflexivity].
    apply setattr_same.
  - right. eexists. reflexivity.
Qed.

Lemma others_keep_tail (a : attrib) (l : list attrib) :
  others_keep_doc_spdx_id (a :: l) -> others_keep_doc_spdx_id l.
Proof. intros Hk q Hq. apply Hk. right. exact Hq. Qed.

Lemma others_keep_head (production : M unit) (l : list attrib) (s : state) :
  others_keep_doc_spdx_id (Other production :: l) ->
  same_doc_spdx_id s (fst (production s)).
Proof. intros Hk. apply (Hk production). left. reflexivity. Qed.

Lemma later_attribs_keeps (l : list attrib) :
  others_keep_doc_spdx_id l ->
  forall s, same_doc_spdx_id s (fst (later_attribs vf l s)).
Proof.
  induction l as [|a l IH]; intros Hk s.
  - simpl. split; reflexivity.
  - pose proof (others_keep_tail _ _ Hk) as Hk'.
    destruct a as [value | production]; simpl; rewrite bind_step.
    + pose proof (set_file_spdx_id_keeps value s) as H1.
      destruct (set_file_spdx_id vf value s) as [s1 [r|e]];
        simpl in *; [|exact H1].
      eapply same_doc_spdx_id_trans; [exact H1 | apply IH; exact Hk'].
    + pose proof (others_keep_head production l s Hk) as H1.
      destruct (production s) as [s1 [r|e]]; simpl in *; [|exact H1].
      eapply same_doc_spdx_id_trans; [exact H1 | apply IH; exact Hk'].
Qed.

(** once the flag is set, every [SPDXID] goes to the current file *)
Lemma parse_attribs_later (l : list attrib) :
  others_keep_doc_spdx_id l ->
  forall s, fst s doc_spdx_id_set = true ->
  parse_attribs vd vf l s = later_attribs vf l s.
Proof.
  induction l as [|a l IH]; intros Hk s Hf; [reflexivity|].
  pose proof (others_keep_tail _ _ Hk) as Hk'.
  unfold parse_attribs in *.
  destruct a as [value | production]; simpl; rewrite bind_step.
  - rewrite (p_spdx_id_set value s Hf), bind_step.
    rewrite (bind_step (set_file_spdx_id vf value)).
    pose proof (set_file_spdx_id_keeps value s) as [H1 _].
    destruct (set_file_spdx_id vf value s) as [s1 [r|e]];
      simpl in *; [|reflexivity].
    apply IH; [exact Hk' | exact (eq_trans H1 Hf)].
  - rewrite (bind_step production).
    pose proof (others_keep_head production l s Hk) as [H1 _].
    destruct (production s) as [s1 [r|e]]; simpl in *; [|reflexivity].
    apply IH; [exact Hk' | exact (eq_trans H1 Hf)].
Qed.

Lemma parse_attribs_first (l : list attrib) :
  others_keep_doc_spdx_id l ->
  forall s, fst s doc_spdx_id_set = false ->
  parse_attribs vd vf l s = first_is_document vd vf l s.
Proof.
  induction l as [|a l IH]; intros Hk s Hf; [reflexivity|].
  pose proof (others_keep_tail _ _ Hk) as Hk'.
  unfold parse_attribs in *.
  destruct a as [value | production]; simpl; rewrite bind_step.
  - rewrite (p_spdx_id_clear value s Hf), bind_step.
    rewrite (bind_step (set_doc_spdx_id vd value)).
    destruct (set_doc_spdx_id_cases value s Hf)
      as [[s1 [H1 [H2 _]]] | [e H1]]; rewrite H1; simpl; [|reflexivity].
    apply (parse_attribs_later l Hk' s1 H2).
  - rewrite (bind_step production).
    pose proof (others_keep_head production l s Hk) as [H1 _].
    destruct (production s) as [s1 [r|e]]; simpl in *; [|reflexivity].
    apply IH; [exact Hk' | exact (eq_trans H1 Hf)].
Qed.

Lemma first_is_document_spdx_id (l : list attrib) :
  others_keep_doc_spdx_id l ->
  forall s value,
  fst s doc_spdx_id_set = false ->
  first_spdx_id l = Some value ->
  Document.spdx_id (snd (fst (first_is_document vd vf l s))) = Some value
  \/ ((exists e, snd (first_is_document vd vf l s) = Raise e) /\
      Document.spdx_id (snd (fst (first_is_document vd vf l s))) =
        Document.spdx_id (snd s)).
Proof.
  induction l as [|a l IH]; intros Hk s value Hf Hv; [discriminate|].
  pose proof (others_keep_tail _ _ Hk) as Hk'.
  destruct a as [v | production]; simpl in *; rewrite !bind_step.
  - injection Hv as ->.
    destruct (set_doc_spdx_id_cases value s Hf)
      as [[s1 [H1 [H2 H3]]] | [e H1]]; rewrite H1; simpl.
    + left. pose proof (later_attribs_keeps l Hk' s1) as [_ H4].
      exact (eq_trans H4 H3).
    + right. split; [eauto | reflexivity].
  - pose proof (others_keep_head production l s Hk) as [H1 H1'].
    destruct (production s) as [s1 [r|e]]; simpl in *.
    + destruct (IH Hk' s1 value (eq_trans H1 Hf) Hv) as [H | [He H]].
      * left. exact H.
      * right. split; [exact He | exact (eq_trans H H1')].
    + right. split; [eauto | exact H1'].
Qed.

Lemma for_each_app {S A : Type} (l1 l2 : list A) (body : A -> SE S unit) (s : S) :
  for_each (l1 ++ l2) body s =
  match for_each l1 body s with
  | (s', Return _) => for_each l2 body s'
  | (s', Raise e) => (s', Raise e)
  end.
Proof.
  revert s. induction l1 as [|x l1 IH]; intros s; simpl; [reflexivity|].
  unfold bind. destruct (body x s) as [s' [u|e]]; [apply IH | reflexivity].
Qed.

Lemma others_keep_app_l (l1 l2 : list attrib) :
  others_keep_doc_spdx_id (l1 ++ l2) -> others_keep_doc_spdx_id l1.
Proof. intros Hk q Hq. apply Hk. apply in_or_app. left. exact Hq. Qed.

Lemma others_keep_app_r (l1 l2 : list attrib) :
  others_keep_doc_spdx_id (l1 ++ l2) -> others_keep_doc_spdx_id l2.
Proof. intros Hk q Hq. apply Hk. apply in_or_app. right. exact Hq. Qed.

Lemma update_last_app {A : Type} (g : A -> A) (l : list A) (x : A) :
  Py.update_last g (l ++ [x]) = Some (l ++ [g x]).
Proof.
  induction l as [|y l IH]; [reflexivity|]. simpl app.
  assert (E : exists z zs, l ++ [x] = z :: zs) by (destruct l; simpl; eauto).
  destruct E as [z [zs E]].
  transitivity (option_map (cons y) (Py.update_last g (l ++ [x]))).
  - rewrite E. reflexivity.
  - rewrite IH. reflexivity.
Qed.

(** an [SPDXID] line reduced once the flag is set: with a current file
    that has no identifier yet, a valid value is stored in that file *)
Lemma p_spdx_id_current_file (value : string) (s : state) (p : Package.t)
    (fs : list File.t) (f : File.t) :
  fst s doc_spdx_id_set = true ->
  Document.package (snd s) = Some p ->
  Package.files p = fs ++ [f] ->
  fst s file_spdx_id_set = false ->
  vf value = true ->
  p_spdx_id vd vf value s =
    ((setattr file_spdx_id_set true (fst s),
      Document.set_package
        (Some (Package.set_files (fs ++ [File.set_spdx_id (Some value) f]) p))
        (snd s)),
     Return tt).
Proof.
  intros Hd Hp Hfs Hf Hv. rewrite (p_spdx_id_set value s Hd).
  assert (Hl : Nat.eqb (List.length (Package.files p)) 0 = false).
  { rewrite Hfs, length_app. simpl. apply Nat.eqb_neq. lia. }
  unfold set_file_spdx_id, has_package_and_has_file, has_package, has_file,
    assign_file, getflag, setflag, bind, ret, raise.
  destruct s as [self doc]. cbn [fst snd] in *.
  repeat (cbn [fst snd negb];
          first [rewrite Hp | rewrite Hl | rewrite Hf | rewrite Hv]).
  cbn [fst snd]. rewrite Hfs, update_last_app. reflexivity.
Qed.

(** the attributes before the first [SPDXID] line leave the flag and the
    identifier alone *)
Lemma before_first_keeps (l : list attrib) :
  others_keep_doc_spdx_id l ->
  first_spdx_id l = None ->
  forall s, same_doc_spdx_id s (fst (parse_attribs vd vf l s)).
Proof.
  unfold parse_attribs.
  induction l as [|a l IH]; intros Hk Hn s; [split; reflexivity|].
  destruct a as [value | production]; [discriminate|].
  simpl in *. rewrite bind_step.
  pose proof (others_keep_head production l s Hk) as H1.
  destruct (production s) as [s1 [r|e]]; simpl in *; [|exact H1].
  eapply same_doc_spdx_id_trans;
    [exact H1 | apply IH; [exact (others_keep_tail _ _ Hk) | exact Hn]].
Qed.

(** the first [SPDXID] line of a pass, reached without an exception *)
Lemma parse_attribs_at_first (before after : list attrib) (value : string)
    (s s1 : state) :
  fst s doc_spdx_id_set = false ->
  others_keep_doc_spdx_id (before ++ SPDX_ID value :: after) ->
  first_spdx_id before = None ->
  parse_attribs vd vf before s = (s1, Return tt) ->
  (vd value = true ->
   parse_attribs vd vf (before ++ SPDX_ID value :: after) s =
     later_attribs vf after
       (setattr doc_spdx_id_set true (fst s1),
        Document.set_spdx_id (Some value) (snd s1))
   /\ Document.spdx_id
        (snd (fst (parse_attribs vd vf (before ++ SPDX_ID value :: after) s))) =
      Some value)
  /\ (vd value = false ->
      parse_attribs vd vf (before ++ SPDX_ID value :: after) s =
        (s1, Raise (SPDXValueError "Document::SPDXID"))).
Proof.
  intros Hf Hk Hn Hb.
  pose proof (before_first_keeps before (others_keep_app_l _ _ Hk) Hn s) as [H1 _].
  rewrite Hb in H1. simpl in H1. rewrite Hf in H1.
  pose proof (others_keep_tail _ _ (others_keep_app_r _ _ Hk)) as Hk'.
  assert (Hp : parse_attribs vd vf (before ++ SPDX_ID value :: after) s =
               parse_attribs vd vf (SPDX_ID value :: after) s1).
  { unfold parse_attribs in *. rewrite for_each_app, Hb. reflexivity. }
  set (s2 := (setattr doc_spdx_id_set true (fst s1),
              Document.set_spdx_id (Some value) (snd s1))).
  assert (Hstep : parse_attribs vd vf (SPDX_ID value :: after) s1 =
                  if vd value then parse_attribs vd vf after s2
                  else (s1, Raise (SPDXValueError "Document::SPDXID"))).
  { unfold parse_attribs. cbn [for_each reduce]. rewrite bind_step.
    rewrite (p_spdx_id_clear value s1 H1), bind_step.
    unfold set_doc_spdx_id, getflag, assign_doc, setflag, bind, ret, raise.
    cbn [fst snd]. rewrite H1. cbn [negb].
    destruct (vd value); reflexivity. }
  rewrite Hp, Hstep.
  split; intros Hv; rewrite Hv; [|reflexivity].
  assert (H2 : fst s2 doc_spdx_id_set = true) by apply setattr_same.
  rewrite (parse_attribs_later after Hk' s2 H2).
  split; [reflexivity|].
  pose proof (later_attribs_keeps after Hk' s2) as [_ H4].
  rewrite H4. reflexivity.
Qed.

(** C9.  In a parse pass that starts with [doc_spdx_id_set] clear, as the
    builder is after [reset], the productions do what the routing says:
    the first [SPDXID] line goes to [set_doc_spdx_id], every later one to
    [set_file_spdx_id].  When the attributes before the first [SPDXID]
    line are reduced without an exception, that line stores its value as
    the identifier of the document and sets the flag if the value is a
    valid document identifier, and the rest of the pass, whatever it ends
    in, leaves the identifier at this value; if the value is not valid,
    the [SPDXValueError] of the builder ends the pass there.  In any
    case the identifier of the document at the end of the pass is the
    value of the first [SPDXID] line or, where an exception stopped the
    pass no later than at that line, the one the pass started with: no
    later [SPDXID] line overwrites it.  An [SPDXID] line reduced once the
    flag is set stores a valid value as the identifier of the current
    file, the last file of the package, when that file has none yet. *)
Theorem spdx_id_first_document_then_file (l : list attrib) (s : state) :
  fst s doc_spdx_id_set = false ->
  others_keep_doc_spdx_id l ->
  parse_attribs vd vf l s = first_is_document vd vf l s
  /\ (forall before value after s1,
        l = before ++ SPDX_ID value :: after ->
        first_spdx_id before = None ->
        parse_attribs vd vf before s = (s1, Return tt) ->
        (vd value = true ->
         parse_attribs vd vf l s =
           later_attribs vf after
             (setattr doc_spdx_id_set true (fst s1),
              Document.set_spdx_id (Some value) (snd s1))
         /\ Document.spdx_id (snd (fst (parse_attribs vd vf l s))) = Some value)
        /\ (vd value = false ->
            parse_attribs vd vf l s =
              (s1, Raise (SPDXValueError "Document::SPDXID"))))
  /\ (forall value, first_spdx_id l = Some value ->
        Document.spdx_id (snd (fst (parse_attribs vd vf l s))) = Some value
        \/ ((exists e, snd (parse_attribs vd vf l s) = Raise e) /\
            Document.spdx_id (snd (fst (parse_attribs vd vf l s))) =
              Document.spdx_id (snd s)))
  /\ (forall value, first_spdx_id l = Some value ->
        snd (parse_attribs vd vf l s) = Return tt ->
        Document.spdx_id (snd (fst (parse_attribs vd vf l s))) = Some value)
  /\ (forall value s' p fs f,
        fst s' doc_spdx_id_set = true ->
        Document.package (snd s') = Some p ->
        Package.files p = fs ++ [f] ->
        fst s' file_spdx_id_set = false ->
        vf value = true ->
        p_spdx_id vd vf value s' =
          ((setattr file_spdx_id_set true (fst s'),
            Document.set_package
              (Some (Package.set_files
                       (fs ++ [File.set_spdx_id (Some value) f]) p))
              (snd s')),
           Return tt)).
Proof.
  intros Hf Hk.
  split; [apply parse_attribs_first; assumption|].
  split.
  { intros before value after s1 -> Hn Hb.
    exact (parse_attribs_at_first before after value s s1 Hf Hk Hn Hb). }
  split; [|split; [|exact p_spdx_id_current_file]];
    rewrite (parse_attribs_first l Hk s Hf).
  - intros value Hv. apply first_is_document_spdx_id; assumption.
  - intros value Hv Hr.
    destruct (first_is_document_spdx_id l Hk s value Hf Hv) as [H | [[e He] _]];
      [exact H | congruence].
Qed.

End TagValueFacts.

(** ** The package verification code *)

Section VerifCodeFacts.
Import VerifCode.

Lemma String_leb_trans (a b c : string) :
  String.leb a b = true -> String.leb b c = true -> String.leb a c = true.
Proof.
  unfold String.leb. revert b c.
  induction a as [|x a IH]; intros [|y b] [|z c]; simpl;
    try (intros; reflexivity || discriminate).
  unfold Ascii.compare.
  destruct (N.compare_spec (N_of_ascii x) (N_of_ascii y)) as [Hxy|Hxy|Hxy];
    destruct (N.compare_spec (N_of_ascii y) (N_of_ascii z)) as [Hyz|Hyz|Hyz];
    destruct (N.compare_spec (N_of_ascii x) (N_of_ascii z)) as [Hxz|Hxz|Hxz];
    try lia; intros; try discriminate; try reflexivity.
  eapply IH; eassumption.
Qed.

Lemma String_leb_false (a b : string) :
  String.leb a b = false -> String.leb b a = true.
Proof.
  intros H. destruct (String.leb_total a b) as [H1|H1]; congruence.
Qed.

(** *** [sort] sorts *)

Lemma insert_sorted_permutation (x : string) (l : list string) :
  Permutation (insert_sorted x l) (x :: l).
Proof.
  induction l as [|y l IH]; simpl; [reflexivity|].
  destruct (String.leb x y); [reflexivity|].
  rewrite IH. apply perm_swap.
Qed.

Lemma sort_permutation (l : list string) : Permutation (sort l) l.
Proof.
  induction l as [|x l IH]; simpl; [reflexivity|].
  rewrite insert_sorted_permutation. apply perm_skip. exact IH.
Qed.

Lemma insert_sorted_Sorted (x : string) (l : list string) :
  Sorted string_le l -> Sorted string_le (insert_sorted x l).
Proof.
  induction l as [|y l IH]; intros Hs; simpl.
  - repeat constructor.
  - destruct (String.leb x y) eqn:Hxy.
    + constructor; [exact Hs | constructor; exact Hxy].
    + inversion Hs as [|? ? Hs' Hhd]; subst.
      constructor; [apply IH; exact Hs'|].
      destruct l as [|z l]; simpl.
      * constructor. apply String_leb_false. exact Hxy.
      * destruct (String.leb x z); constructor.
        -- apply String_leb_false. exact Hxy.
        -- inversion Hhd; assumption.
Qed.

Lemma sort_Sorted (l : list string) : Sorted string_le (sort l).
Proof.
  induction l as [|x l IH]; simpl; [constructor|].
  apply insert_sorted_Sorted. exact IH.
Qed.

(** *** The order of the input does not show in the sorted list *)

Lemma insert_sorted_swap (x y : string) (l : list string) :
  insert_sorted x (insert_sorted y l) = insert_sorted y (insert_sorted x l).
Proof.
  induction l as [|a l IH]; simpl.
  - destruct (String.leb x y) eqn:Hxy, (String.leb y x) eqn:Hyx;
      try reflexivity.
    + rewrite (String.leb_antisym x y Hxy Hyx). reflexivity.
    + apply String_leb_false in Hxy. congruence.
  - destruct (String.leb y a) eqn:Hya, (String.leb x a) eqn:Hxa; simpl;
      destruct (String.leb x y) eqn:Hxy, (String.leb y x) eqn:Hyx;
      rewrite ?Hya, ?Hxa, ?IH; try reflexivity;
      try (apply String_leb_false in Hxy; congruence);
      try (rewrite (String_leb_trans x y a Hxy Hya) in Hxa; discriminate);
      try (rewrite (String_leb_trans y x a Hyx Hxa) in Hya; discriminate).
    rewrite (String.leb_antisym x y Hxy Hyx). reflexivity.
Qed.

Lemma sort_of_permutation (l l' : list string) :
  Permutation l l' -> sort l = sort l'.
Proof.
  induction 1 as [|x l l' _ IH|x y l|l l' l'' _ IH1 _ IH2]; simpl.
  - reflexivity.
  - rewrite IH. reflexivity.
  - apply insert_sorted_swap.
  - congruence.
Qed.

(** *** The loops *)

Lemma append_empty_r (s : string) : (s ++ "")%string = s.
Proof. induction s as [|a s IH]; simpl; [reflexivity | rewrite IH; reflexivity]. Qed.

Lemma append_assoc (a b c : string) :
  ((a ++ b) ++ c)%string = (a ++ (b ++ c))%string.
Proof. induction a as [|x a IH]; simpl; [reflexivity | rewrite IH; reflexivity]. Qed.

Lemma concat_empty_cons (x : string) (l : list string) :
  String.concat "" (x :: l) = (x ++ String.concat "" l)%string.
Proof.
  destruct l as [|y l]; simpl; [rewrite append_empty_r|]; reflexivity.
Qed.

(** the second loop: ["{0}{1}".format(filelist, item)] over the items *)
Lemma format_loop (l : list string) (filelist : string) :
  fold_left (fun filelist item => (filelist ++ item)%string) l filelist =
  (filelist ++ String.concat "" l)%string.
Proof.
  revert filelist. induction l as [|x l IH]; intros filelist.
  - simpl. rewrite append_empty_r. reflexivity.
  - rewrite concat_empty_cons. simpl fold_left. rewrite IH.
    apply append_assoc.
Qed.

Variable sha1_hexdigest : string -> string.
Variable file_content : string -> option string.

(** the first loop, when the files that are not skipped can be read *)
Lemma hash_items_readable (out : string) (items : list scan_result)
    (templist : list string) :
  Forall (readable file_content)
    (filter (fun p => negb (should_skip_file p out)) (map FileName items)) ->
  hash_items sha1_hexdigest file_content out items templist =
  Return (templist ++
          map (checksum_of sha1_hexdigest file_content)
            (filter (fun p => negb (should_skip_file p out)) (map FileName items))).
Proof.
  revert templist. induction items as [|item items IH]; intros templist Hr; simpl.
  - rewrite app_nil_r. reflexivity.
  - simpl in Hr.
    destruct (negb (should_skip_file (FileName item) out)); simpl.
    + inversion Hr as [|? ? Hx Hr']; subst.
      unfold get_file_hash, checksum_of. unfold readable in Hx.
      destruct (file_content (FileName item)) as [content|]; [|congruence].
      rewrite (IH _ Hr'), <- app_assoc. reflexivity.
    + apply IH. exact Hr.
Qed.

Lemma filter_permutation {A : Type} (f : A -> bool) (l l' : list A) :
  Permutation l l' -> Permutation (filter f l) (filter f l').
Proof.
  induction 1 as [|x l l' _ IH|x y l|l l' l'' _ IH1 _ IH2]; simpl.
  - constructor.
  - destruct (f x); [apply perm_skip|]; exact IH.
  - destruct (f x), (f y); try reflexivity. apply perm_swap.
  - etransitivity; eassumption.
Qed.

Lemma included_files_permutation (self self' : SPDXFile) :
  output_file_name self' = output_file_name self ->
  Permutation (id_scan_results self) (id_scan_results self') ->
  Permutation (included_files self) (included_files self').
Proof.
  intros Ho Hp. unfold included_files. rewrite Ho.
  apply filter_permutation, Permutation_map. exact Hp.
Qed.

(** [get_package_verification_code] computes the code of section 4.5 *)
Lemma get_package_verification_code_spec (self : SPDXFile) :
  Forall (readable file_content) (included_files self) ->
  get_package_verification_code sha1_hexdigest file_content self =
  Return (verification_code sha1_hexdigest
            (map (checksum_of sha1_hexdigest file_content) (included_files self))).
Proof.
  intros Hr. unfold get_package_verification_code, verification_code.
  rewrite (hash_items_readable _ _ _ Hr). simpl app.
  rewrite format_loop. reflexivity.
Qed.

(** C3.  When the files of the scan results that are not skipped can be
    read, [get_package_verification_code] returns the SHA1 hex digest of
    the concatenation, without separator, of their SHA1 checksums sorted
    in ascending order; and it returns the same code for every
    permutation of the scan results. *)
Theorem verification_code_sorted_and_order_free (self : SPDXFile) :
  Forall (readable file_content) (included_files self) ->
  get_package_verification_code sha1_hexdigest file_content self =
    Return (sha1_hexdigest
              (String.concat ""
                 (sort (map (checksum_of sha1_hexdigest file_content)
                            (included_files self)))))
  /\ Sorted string_le
       (sort (map (checksum_of sha1_hexdigest file_content) (included_files self)))
  /\ Permutation
       (sort (map (checksum_of sha1_hexdigest file_content) (included_files self)))
       (map (checksum_of sha1_hexdigest file_content) (included_files self))
  /\ (forall file_path, In file_path (included_files self) ->
        get_file_hash sha1_hexdigest file_content file_path =
          Return (checksum_of sha1_hexdigest file_content file_path))
  /\ (forall self' : SPDXFile,
        output_file_name self' = output_file_name self ->
        Permutation (id_scan_results self) (id_scan_results self') ->
        get_package_verification_code sha1_hexdigest file_content self' =
        get_package_verification_code sha1_hexdigest file_content self).
Proof.
  intros Hr. split; [apply (get_package_verification_code_spec self Hr)|].
  split; [apply sort_Sorted|]. split; [apply sort_permutation|]. split.
  - intros file_path Hin. rewrite Forall_forall in Hr.
    specialize (Hr file_path Hin). unfold readable in Hr.
    unfold get_file_hash, checksum_of.
    destruct (file_content file_path); [reflexivity | congruence].
  - intros self' Ho Hp.
    pose proof (included_files_permutation self self' Ho Hp) as Hi.
    assert (Hr' : Forall (readable file_content) (included_files self')).
    { rewrite Forall_forall in *. intros p Hin. apply Hr.
      apply (Permutation_in p (Permutation_sym Hi) Hin). }
    rewrite (get_package_verification_code_spec self Hr),
      (get_package_verification_code_spec self' Hr').
    unfold verification_code. do 3 f_equal.
    apply sort_of_permutation, Permutation_map, Permutation_sym. exact Hi.
Qed.

End VerifCodeFacts.

(** ** The RDF writer *)

Section RdfWriterFacts.
Import RdfWriter.

(** *** The graph *)

Lemma matches_Some (x y : term) : matches (Some x) y = true <-> x = y.
Proof. unfold matches. destruct (term_eq_dec x y); split; congruence. Qed.

Lemma matches_same (x : term) : matches (Some x) x = true.
Proof. apply matches_Some. reflexivity. Qed.

Lemma triples_app (g1 g2 : Graph) (s p o : option term) :
  triples (g1 ++ g2) s p o = triples g1 s p o ++ triples g2 s p o.
Proof. apply filter_app. Qed.

Lemma In_triples (g : Graph) (s p o : option term) (t : triple) :
  In t (triples g s p o) <->
  In t g /\ matches s (subject t) = true /\ matches p (predicate t) = true
          /\ matches o (object t) = true.
Proof.
  unfold triples. rewrite filter_In, !andb_true_iff. tauto.
Qed.

Lemma triples_none (g : Graph) (s p o : option term) :
  (forall t, In t g -> matches s (subject t) = true ->
             matches p (predicate t) = true -> matches o (object t) = true -> False) ->
  triples g s p o = [].
Proof.
  intros H. destruct (triples g s p o) as [|t l] eqn:E; [reflexivity|].
  assert (Hin : In t (triples g s p o)) by (rewrite E; left; reflexivity).
  apply In_triples in Hin. destruct Hin as (H1 & H2 & H3 & H4).
  exfalso. eauto.
Qed.

Lemma add_new (t : triple) (w : writer) :
  is_node_triple t = true -> ~ In t (graph w) ->
  add t w = ({| graph := graph w ++ [t]; bnodes := bnodes w; printed := printed w |},
             Return tt).
Proof.
  intros Hn Hin. unfold add, graph_add. rewrite Hn.
  destruct (in_dec triple_eq_dec t (graph w)); [contradiction | reflexivity].
Qed.

Lemma in_LICENSE_MAP_In (LICENSE_MAP : list string) (key : string) :
  In key LICENSE_MAP -> in_LICENSE_MAP LICENSE_MAP key = true.
Proof.
  intros H. unfold in_LICENSE_MAP. apply existsb_exists. exists key.
  split; [exact H | apply String.eqb_refl].
Qed.


(** the state [create_conjunction_node] reaches on the expression
    [MIT AND (Apache-2.0 OR BSD-3-Clause)] *)
Lemma create_conjunction_node_example (LICENSE_MAP : list string)
    (document : Document.t) (w : writer) :
  In "MIT" LICENSE_MAP -> In "Apache-2.0" LICENSE_MAP -> In "BSD-3-Clause" LICENSE_MAP ->
  fresh_node w ->
  create_conjunction_node LICENSE_MAP document MIT_AND_Apache_OR_BSD w =
  ({| graph := graph w ++
        [ (BNode (bnodes w), RDF_type, spdx_namespace "ConjunctiveLicenseSet");
          (BNode (bnodes w), spdx_namespace "member", URIRef "http://spdx.org/licenses/MIT");
          (BNode (bnodes w), spdx_namespace "member", URIRef "http://spdx.org/licenses/Apache-2.0");
          (BNode (bnodes w), spdx_namespace "member", URIRef "http://spdx.org/licenses/BSD-3-Clause") ];
      bnodes := S (bnodes w); printed := printed w |}, Return (BNode (bnodes w))).
Proof.
  intros H1 H2 H3 Hf.
  unfold create_conjunction_node, licenses_from_tree, MIT_AND_Apache_OR_BSD, MIT,
    Apache_2_0, BSD_3_Clause.
  simpl licenses_from_tree_helper.
  unfold create_license_helper. simpl Py.rstrip. 
  rewrite !in_LICENSE_MAP_In by assumption.
  unfold bind at 1. unfold new_BNode at 1.
  unfold bind at 1.
  rewrite add_new; [| reflexivity | apply Hf].
  cbn [graph bnodes printed].
  unfold bind, ret. simpl set_add.
  match goal with
  | |- context [for_each ?l _ _] =>
      replace l with [URIRef "http://spdx.org/licenses/MIT";
                      URIRef "http://spdx.org/licenses/Apache-2.0";
                      URIRef "http://spdx.org/licenses/BSD-3-Clause"]
        by (vm_compute; reflexivity)
  end.
  assert (Hnew : forall (l : list triple) (lic : term),
            ~ In (BNode (bnodes w), spdx_namespace "member", lic) l ->
            ~ In (BNode (bnodes w), spdx_namespace "member", lic) (graph w ++ l)).
  { intros l lic Hl Hin. apply in_app_or in Hin. destruct Hin as [Hin|Hin];
      [exact (Hf _ _ Hin) | exact (Hl Hin)]. }
  simpl for_each. unfold bind, ret.
  rewrite add_new; [| reflexivity | apply Hnew; simpl; intuition discriminate].
  cbn [graph bnodes printed]. rewrite <- app_assoc. simpl app.
  rewrite add_new; [| reflexivity | apply Hnew; simpl; intuition discriminate].
  cbn [graph bnodes printed]. rewrite <- app_assoc. simpl app.
  rewrite add_new; [| reflexivity | apply Hnew; simpl; intuition discriminate].
  cbn [graph bnodes printed]. rewrite <- app_assoc. simpl app.
  reflexivity.
Qed.

Lemma members_app (g1 g2 : Graph) (node : term) :
  members (g1 ++ g2) node = members g1 node ++ members g2 node.
Proof. unfold members. rewrite triples_app, map_app. reflexivity. Qed.

Lemma nodes_of_type_app (g1 g2 : Graph) (class : term) :
  nodes_of_type (g1 ++ g2) class = nodes_of_type g1 class ++ nodes_of_type g2 class.
Proof. unfold nodes_of_type. rewrite triples_app, map_app. reflexivity. Qed.

Lemma members_fresh (w : writer) :
  fresh_node w -> members (graph w) (BNode (bnodes w)) = [].
Proof.
  intros Hf. unfold members. rewrite triples_none; [reflexivity|].
  intros [[s p] o] Hin Hs _ _. apply matches_Some in Hs.
  unfold subject in Hs. cbn [fst snd] in Hs. rewrite <- Hs in Hin.
  exact (Hf _ _ Hin).
Qed.

(** C4, amended.  For the expression [MIT AND (Apache-2.0 OR
    BSD-3-Clause)] and a catalog that has the three licenses,
    [create_conjunction_node] returns a new conjunction node with exactly
    three members, the MIT, Apache-2.0 and BSD-3-Clause leaf nodes: the
    tree is flattened through the disjunction, and no disjunction node is
    made. *)
Theorem conjunction_node_members_are_leaves
    (LICENSE_MAP : list string) (document : Document.t) (w : writer) :
  In "MIT" LICENSE_MAP -> In "Apache-2.0" LICENSE_MAP ->
  In "BSD-3-Clause" LICENSE_MAP ->
  fresh_node w ->
  let r := create_conjunction_node LICENSE_MAP document MIT_AND_Apache_OR_BSD w in
  snd r = Return (BNode (bnodes w))
  /\ members (graph (fst r)) (BNode (bnodes w)) =
       [URIRef "http://spdx.org/licenses/MIT";
        URIRef "http://spdx.org/licenses/Apache-2.0";
        URIRef "http://spdx.org/licenses/BSD-3-Clause"]
  /\ length (members (graph (fst r)) (BNode (bnodes w))) = 3
  /\ nodes_of_type (graph (fst r)) (spdx_namespace "DisjunctiveLicenseSet") =
       nodes_of_type (graph w) (spdx_namespace "DisjunctiveLicenseSet").
Proof.
  intros H1 H2 H3 Hf. cbv zeta.
  rewrite (create_conjunction_node_example LICENSE_MAP document w H1 H2 H3 Hf).
  cbn [fst snd graph].
  assert (Hm : members
                 [(BNode (bnodes w), RDF_type, spdx_namespace "ConjunctiveLicenseSet");
                  (BNode (bnodes w), spdx_namespace "member",
                   URIRef "http://spdx.org/licenses/MIT");
                  (BNode (bnodes w), spdx_namespace "member",
                   URIRef "http://spdx.org/licenses/Apache-2.0");
                  (BNode (bnodes w), spdx_namespace "member",
                   URIRef "http://spdx.org/licenses/BSD-3-Clause")]
                 (BNode (bnodes w)) =
               [URIRef "http://spdx.org/licenses/MIT";
                URIRef "http://spdx.org/licenses/Apache-2.0";
                URIRef "http://spdx.org/licenses/BSD-3-Clause"]).
  { unfold members, triples. cbn [filter subject predicate object fst snd].
    rewrite !matches_same. reflexivity. }
  rewrite members_app, (members_fresh w Hf), Hm, nodes_of_type_app.
  repeat split. simpl. apply app_nil_r.
Qed.


(** *** Extracted licenses *)

Lemma add_node_triple (t : triple) (w : writer) :
  is_node_triple t = true -> add t w = (add_state t w, Return tt).
Proof. intros H. unfold add, add_state. rewrite H. reflexivity. Qed.

Lemma In_graph_add (t t' : triple) (g : Graph) :
  In t' (graph_add t g) <-> In t' g \/ t' = t.
Proof.
  unfold graph_add. destruct (in_dec triple_eq_dec t g) as [Hin|Hin].
  - split; [tauto|]. intros [H| ->]; assumption.
  - rewrite in_app_iff. simpl. intuition congruence.
Qed.

Lemma well_formed_graph_add (t : triple) (g : Graph) :
  is_node_triple t = true -> well_formed g -> well_formed (graph_add t g).
Proof.
  unfold well_formed. rewrite !Forall_forall. intros Ht Hg x Hx.
  apply In_graph_add in Hx. destruct Hx as [Hx| ->]; auto.
Qed.

Lemma plain_lookup_empty (g : Graph) (s p : option term) (str : string) :
  well_formed g -> triples g s p (Some (PlainStr str)) = [].
Proof.
  intros Hg. apply triples_none. intros t Hin _ _ Ho.
  apply matches_Some in Ho. unfold well_formed in Hg.
  rewrite Forall_forall in Hg. specialize (Hg t Hin).
  unfold is_node_triple in Hg. rewrite <- Ho in Hg. simpl in Hg.
  rewrite andb_false_r in Hg. discriminate.
Qed.

(** a run of [add]s of node triples *)
Lemma for_each_add (A : Type) (f : A -> triple) (l : list A) (w : writer) :
  (forall x, In x l -> is_node_triple (f x) = true) ->
  for_each l (fun x => add (f x)) w =
    (fold_left (fun w x => add_state (f x) w) l w, Return tt).
Proof.
  revert w. induction l as [|x l IH]; intros w Hn; [reflexivity|].
  simpl. unfold bind. rewrite add_node_triple by (apply Hn; left; reflexivity).
  apply IH. intros y Hy. apply Hn. right. exact Hy.
Qed.

Lemma grows_refl (w : writer) : grows w w.
Proof. unfold grows. repeat split; auto. apply incl_refl. Qed.

Lemma grows_trans (w1 w2 w3 : writer) : grows w1 w2 -> grows w2 w3 -> grows w1 w3.
Proof.
  unfold grows. intros (a1 & b1 & c1 & d1) (a2 & b2 & c2 & d2).
  repeat split; try congruence; [eapply incl_tran; eassumption | auto].
Qed.

Lemma grows_add_state (t : triple) (w : writer) :
  is_node_triple t = true -> grows w (add_state t w).
Proof.
  intros Ht. unfold grows, add_state. simpl. repeat split.
  - intros x Hx. apply In_graph_add. left. exact Hx.
  - apply well_formed_graph_add. exact Ht.
Qed.

Lemma grows_fold_add (A : Type) (f : A -> triple) (l : list A) (w : writer) :
  (forall x, In x l -> is_node_triple (f x) = true) ->
  grows w (fold_left (fun w x => add_state (f x) w) l w).
Proof.
  revert w. induction l as [|x l IH]; intros w Hn; simpl; [apply grows_refl|].
  eapply grows_trans; [apply grows_add_state; apply Hn; left; reflexivity|].
  apply IH. intros y Hy. apply Hn. right. exact Hy.
Qed.

Lemma is_node_to_special_value (v : Lic.pyvalue) : is_node (to_special_value v) = true.
Proof. destruct v; reflexivity. Qed.

Lemma create_extracted_license_new (lic : Lic.extracted) (w : writer) :
  well_formed (graph w) ->
  create_extracted_license lic w =
    (extracted_license_written lic w, Return (BNode (bnodes w))).
Proof.
  intros Hw. unfold create_extracted_license, extracted_license_written.
  unfold bind at 1. unfold get at 1.
  rewrite (plain_lookup_empty _ _ _ _ Hw).
  unfold bind at 1. unfold new_BNode at 1.
  unfold bind at 1. rewrite add_node_triple by reflexivity.
  unfold bind at 1. rewrite add_node_triple by reflexivity.
  unfold bind at 1. rewrite add_node_triple by reflexivity.
  unfold bind at 1.
  destruct (Lic.full_name lic) as [v|].
  - rewrite add_node_triple
      by (unfold is_node_triple; simpl; apply is_node_to_special_value).
    unfold bind at 1.
    rewrite (for_each_add _ (fun ref => (BNode (bnodes w), RDFS_seeAlso, URIRef ref)))
      by reflexivity.
    unfold bind at 1.
    destruct (Lic.comment lic) as [c|]; [rewrite add_node_triple by reflexivity|];
      reflexivity.
  - unfold ret at 1. unfold bind at 1.
    rewrite (for_each_add _ (fun ref => (BNode (bnodes w), RDFS_seeAlso, URIRef ref)))
      by reflexivity.
    unfold bind at 1.
    destruct (Lic.comment lic) as [c|]; [rewrite add_node_triple by reflexivity|];
      reflexivity.
Qed.

Lemma extracted_license_written_grows (lic : Lic.extracted) (w : writer) :
  bnodes (extracted_license_written lic w) = S (bnodes w)
  /\ (well_formed (graph w) -> well_formed (graph (extracted_license_written lic w)))
  /\ In (BNode (bnodes w), RDF_type, spdx_namespace "ExtractedLicensingInfo")
        (graph (extracted_license_written lic w))
  /\ incl (graph w) (graph (extracted_license_written lic w)).
Proof.
  unfold extracted_license_written. cbv zeta.
  set (n := bnodes w).
  set (w0 := {| graph := graph w; bnodes := S n; printed := printed w |}).
  set (w1 := add_state (BNode n, RDF_type, _) w0).
  set (w2 := add_state (BNode n, spdx_namespace "licenseId", _) w1).
  set (w3 := add_state (BNode n, spdx_namespace "extractedText", _) w2).
  set (w4 := match Lic.full_name lic with Some _ => _ | None => _ end).
  set (w5 := fold_left _ _ w4).
  set (w6 := match Lic.comment lic with Some _ => _ | None => _ end).
  assert (G1 : grows w0 w1) by (apply grows_add_state; reflexivity).
  assert (I1 : In (BNode n, RDF_type, spdx_namespace "ExtractedLicensingInfo") (graph w1)).
  { apply In_graph_add. right. reflexivity. }
  assert (G2 : grows w1 w2) by (apply grows_add_state; reflexivity).
  assert (G3 : grows w2 w3) by (apply grows_add_state; reflexivity).
  assert (G4 : grows w3 w4).
  { subst w4. destruct (Lic.full_name lic); [|apply grows_refl].
    apply grows_add_state. unfold is_node_triple. simpl.
    apply is_node_to_special_value. }
  assert (G5 : grows w4 w5) by (apply grows_fold_add; reflexivity).
  assert (G6 : grows w5 w6).
  { subst w6. destruct (Lic.comment lic); [|apply grows_refl].
    apply grows_add_state. reflexivity. }
  assert (G' : grows w1 w6).
  { repeat (eapply grows_trans; [eassumption|]). apply grows_refl. }
  assert (G : grows w0 w6) by (eapply grows_trans; eassumption).
  destruct G as (Gb & _ & Gi & Gw). destruct G' as (_ & _ & Gi' & _).
  repeat split.
  - exact Gb.
  - exact Gw.
  - apply Gi'. exact I1.
  - exact Gi.
Qed.


(** *** File dependencies *)

Lemma file_nodes_graph_add (t : triple) (g : Graph) (name : string) :
  predicate t <> spdx_namespace "fileName" ->
  file_nodes (graph_add t g) name = file_nodes g name.
Proof.
  intros Hp. unfold graph_add.
  destruct (in_dec triple_eq_dec t g); [reflexivity|].
  unfold file_nodes. rewrite triples_app, map_app.
  replace (triples [t] None (Some (spdx_namespace "fileName")) (Some (Literal name)))
    with (@nil triple); [apply app_nil_r|].
  symmetry. apply triples_none. intros x [<-|[]] _ Hm _.
  apply matches_Some in Hm. congruence.
Qed.

Lemma file_nodes_single (g : Graph) (name : string) :
  List.length (file_nodes g name) = 1 ->
  exists t,
    triples g None (Some (spdx_namespace "fileName")) (Some (Literal name)) = [t]
    /\ file_nodes g name = [subject t] /\ In t g.
Proof.
  unfold file_nodes. rewrite length_map. intros Hl.
  destruct (triples g None (Some (spdx_namespace "fileName")) (Some (Literal name)))
    as [|t [|t' l]] eqn:E; try discriminate.
  exists t. repeat split.
  assert (Hin : In t (triples g None (Some (spdx_namespace "fileName"))
                        (Some (Literal name)))) by (rewrite E; left; reflexivity).
  apply In_triples in Hin. tauto.
Qed.

Lemma well_formed_subject (g : Graph) (t : triple) :
  well_formed g -> In t g -> is_node (subject t) = true.
Proof.
  unfold well_formed. rewrite Forall_forall. intros Hg Hin.
  specialize (Hg t Hin). unfold is_node_triple in Hg.
  rewrite !andb_true_iff in Hg. tauto.
Qed.

Lemma add_file_dependency_step (g0 : Graph) (f : File.t) (s : term)
    (dependency : string) (w : writer) :
  well_formed (graph w) -> is_node s = true ->
  (forall name, file_nodes (graph w) name = file_nodes g0 name) ->
  exists w',
    add_file_dependency f s dependency w = (w', Return tt)
    /\ dependencies_added g0
         (fun t => exists o, file_nodes g0 dependency = [o] /\
                             t = (s, spdx_namespace "fileDependency", o))
         (fun line => List.length (file_nodes g0 dependency) <> 1 /\
                      line = dependency_warning f dependency)
         w w'.
Proof.
  intros Hw Hs Hn. unfold add_file_dependency. unfold bind at 1. unfold get at 1.
  pose proof (Hn dependency) as Hd.
  assert (Hlen : List.length (triples (graph w) None (Some (spdx_namespace "fileName"))
                                (Some (Literal dependency))) =
                 List.length (file_nodes g0 dependency)).
  { rewrite <- Hd. unfold file_nodes. rewrite length_map. reflexivity. }
  destruct (Nat.eqb (List.length (file_nodes g0 dependency)) 1) eqn:E.
  - apply Nat.eqb_eq in E. rewrite Hlen, E. simpl Nat.eqb. cbv iota.
    assert (E' : List.length (file_nodes (graph w) dependency) = 1) by congruence.
    destruct (file_nodes_single _ _ E') as [t [Ht [Hf Hin]]].
    rewrite Ht.
    assert (Hnode : is_node_triple (s, spdx_namespace "fileDependency", subject t) = true).
    { unfold is_node_triple. cbn [subject predicate object fst snd].
      rewrite Hs, (well_formed_subject _ _ Hw Hin). reflexivity. }
    rewrite (add_node_triple _ _ Hnode). eexists. split; [reflexivity|].
    unfold dependencies_added, add_state. simpl. repeat split.
    + apply well_formed_graph_add; assumption.
    + intros name. rewrite file_nodes_graph_add; [apply Hn | discriminate].
    + intros Hx. apply In_graph_add in Hx. destruct Hx as [Hx| ->]; [tauto|].
      right. exists (subject t). split; [congruence | reflexivity].
    + intros [Hx | [o [Ho ->]]]; apply In_graph_add; [tauto|].
      right. rewrite <- Hd, Hf in Ho. congruence.
    + tauto.
    + intros [Hx | [Hx _]]; [exact Hx | congruence].
  - rewrite Hlen, E. unfold print. eexists. split; [reflexivity|].
    apply Nat.eqb_neq in E.
    unfold dependencies_added. simpl. repeat split.
    + exact Hw.
    + exact Hn.
    + tauto.
    + intros [Hx | [o [Ho _]]]; [exact Hx|]. rewrite Ho in E. simpl in E. congruence.
    + intros Hx. apply in_app_or in Hx. destruct Hx as [Hx | [<- | []]]; [tauto|].
      right. split; [exact E | reflexivity].
    + intros [Hx | [_ ->]]; apply in_or_app; [tauto|]. right. left. reflexivity.
Qed.

Lemma dependencies_loop (g0 : Graph) (f : File.t) (s : term)
    (dependencies : list string) (w : writer) :
  well_formed (graph w) -> is_node s = true ->
  (forall name, file_nodes (graph w) name = file_nodes g0 name) ->
  exists w',
    for_each dependencies (add_file_dependency f s) w = (w', Return tt)
    /\ dependencies_added g0
         (fun t => exists dependency o,
                     In dependency dependencies /\ file_nodes g0 dependency = [o] /\
                     t = (s, spdx_namespace "fileDependency", o))
         (fun line => exists dependency,
                     In dependency dependencies /\
                     List.length (file_nodes g0 dependency) <> 1 /\
                     line = dependency_warning f dependency)
         w w'.
Proof.
  revert w. induction dependencies as [|d ds IH]; intros w Hw Hs Hn.
  - exists w. split; [reflexivity|]. unfold dependencies_added.
    repeat split; try assumption; try tauto.
    + intros [H | (d & o & [] & _)]; exact H.
    + intros [H | (d & [] & _)]; exact H.
  - destruct (add_file_dependency_step g0 f s d w Hw Hs Hn)
      as (w1 & E1 & Hb1 & Hw1 & Hn1 & Hg1 & Hp1).
    destruct (IH w1 Hw1 Hs Hn1) as (w2 & E2 & Hb2 & Hw2 & Hn2 & Hg2 & Hp2).
    exists w2. split.
    + simpl. unfold bind. rewrite E1. exact E2.
    + unfold dependencies_added. repeat split.
      * congruence.
      * exact Hw2.
      * exact Hn2.
      * intros Hx. apply Hg2 in Hx. destruct Hx as [Hx | (d' & o & Hd' & Ho & ->)].
        -- apply Hg1 in Hx. destruct Hx as [Hx | (o & Ho & ->)]; [tauto|].
           right. exists d, o. simpl. tauto.
        -- right. exists d', o. simpl. tauto.
      * intros [Hx | (d' & o & [<- | Hd'] & Ho & ->)]; apply Hg2.
        -- left. apply Hg1. tauto.
        -- left. apply Hg1. right. exists o. tauto.
        -- right. exists d', o. tauto.
      * intros Hx. apply Hp2 in Hx. destruct Hx as [Hx | (d' & Hd' & Hl & ->)].
        -- apply Hp1 in Hx. destruct Hx as [Hx | (Hl & ->)]; [tauto|].
           right. exists d. simpl. tauto.
        -- right. exists d'. simpl. tauto.
      * intros [Hx | (d' & [<- | Hd'] & Hl & ->)]; apply Hp2.
        -- left. apply Hp1. tauto.
        -- left. apply Hp1. right. tauto.
        -- right. exists d'. tauto.
Qed.

Lemma add_file_dependencies_helper_run (g0 : Graph) (f : File.t) (w : writer) :
  well_formed (graph w) ->
  (forall name, file_nodes (graph w) name = file_nodes g0 name) ->
  List.length (file_nodes g0 (File.name f)) = 1 ->
  exists w',
    add_file_dependencies_helper f w = (w', Return tt)
    /\ dependencies_added g0 (resolved_edge g0 [f]) (unresolved_warning g0 [f]) w w'.
Proof.
  intros Hw Hn Hl. unfold add_file_dependencies_helper.
  unfold bind at 1. unfold get at 1.
  assert (Hl' : List.length (file_nodes (graph w) (File.name f)) = 1)
    by (rewrite Hn; exact Hl).
  destruct (file_nodes_single _ _ Hl') as [t [Ht [Hf Hin]]].
  rewrite Ht. simpl negb. cbv iota.
  pose proof (well_formed_subject _ _ Hw Hin) as Hs.
  destruct (dependencies_loop g0 f (subject t) (File.dependencies f) w Hw Hs Hn)
    as (w' & E & Hb & Hw' & Hn' & Hg & Hp).
  exists w'. split; [exact E|].
  assert (Hf0 : file_nodes g0 (File.name f) = [subject t]) by (rewrite <- Hn; exact Hf).
  unfold dependencies_added. repeat split; try assumption.
  - intros Hx. apply Hg in Hx. destruct Hx as [Hx | (d & o & Hd & Ho & ->)]; [tauto|].
    right. exists f, d, (subject t), o. simpl. tauto.
  - intros [Hx | (f' & d & s & o & [<- | []] & Hd & Hs' & Ho & ->)]; apply Hg; [tauto|].
    right. exists d, o. rewrite Hf0 in Hs'. injection Hs' as <-. tauto.
  - intros Hx. apply Hp in Hx. destruct Hx as [Hx | (d & Hd & Hl2 & ->)]; [tauto|].
    right. exists f, d. simpl. tauto.
  - intros [Hx | (f' & d & [<- | []] & Hd & Hl2 & ->)]; apply Hp; [tauto|].
    right. exists d. tauto.
Qed.

Lemma files_loop (g0 : Graph) (files : list File.t) (w : writer) :
  well_formed (graph w) ->
  (forall name, file_nodes (graph w) name = file_nodes g0 name) ->
  files_emitted g0 files ->
  exists w',
    for_each files add_file_dependencies_helper w = (w', Return tt)
    /\ dependencies_added g0 (resolved_edge g0 files) (unresolved_warning g0 files) w w'.
Proof.
  revert w. induction files as [|f fs IH]; intros w Hw Hn He.
  - exists w. split; [reflexivity|]. unfold dependencies_added.
    repeat split; try assumption; try tauto.
    + intros [H | (f & d & s & o & [] & _)]; exact H.
    + intros [H | (f & d & [] & _)]; exact H.
  - assert (Hl : List.length (file_nodes g0 (File.name f)) = 1)
      by (apply He; left; reflexivity).
    destruct (add_file_dependencies_helper_run g0 f w Hw Hn Hl)
      as (w1 & E1 & Hb1 & Hw1 & Hn1 & Hg1 & Hp1).
    assert (He' : files_emitted g0 fs) by (intros x Hx; apply He; right; exact Hx).
    destruct (IH w1 Hw1 Hn1 He') as (w2 & E2 & Hb2 & Hw2 & Hn2 & Hg2 & Hp2).
    exists w2. split.
    + simpl. unfold bind. rewrite E1. exact E2.
    + unfold dependencies_added. repeat split.
      * congruence.
      * exact Hw2.
      * exact Hn2.
      * intros Hx. apply Hg2 in Hx.
        destruct Hx as [Hx | (f' & d & s & o & Hf' & Hr)].
        -- apply Hg1 in Hx.
           destruct Hx as [Hx | (f' & d & s & o & [<- | []] & Hr)]; [tauto|].
           right. exists f, d, s, o. simpl. tauto.
        -- right. exists f', d, s, o. simpl. tauto.
      * intros [Hx | (f' & d & s & o & [<- | Hf'] & Hr)]; apply Hg2.
        -- left. apply Hg1. tauto.
        -- left. apply Hg1. right. exists f, d, s, o. simpl. tauto.
        -- right. exists f', d, s, o. tauto.
      * intros Hx. apply Hp2 in Hx.
        destruct Hx as [Hx | (f' & d & Hf' & Hr)].
        -- apply Hp1 in Hx.
           destruct Hx as [Hx | (f' & d & [<- | []] & Hr)]; [tauto|].
           right. exists f, d. simpl. tauto.
        -- right. exists f', d. simpl. tauto.
      * intros [Hx | (f' & d & [<- | Hf'] & Hr)]; apply Hp2.
        -- left. apply Hp1. tauto.
        -- left. apply Hp1. right. exists f, d. simpl. tauto.
        -- right. exists f', d. tauto.
Qed.

(** C6.  When every file of the document has been emitted, its name
    carried by one node of the graph, the dependency pass returns without
    raising.  The triples it adds are the [fileDependency] edges from the
    node of a file to the node of a dependency whose name is carried by
    exactly one node; for a dependency whose name is carried by no node,
    or by several, the pass adds no triple and prints one warning; and it
    prints nothing else. *)
Theorem unresolved_dependency_is_a_warning (document : Document.t)
    (p : Package.t) (w : writer) :
  Document.package document = Some p ->
  well_formed (graph w) ->
  files_emitted (graph w) (Package.files p) ->
  exists w',
    add_file_dependencies document w = (w', Return tt)
    /\ bnodes w' = bnodes w
    /\ (forall t, In t (graph w') <->
                  In t (graph w) \/ resolved_edge (graph w) (Package.files p) t)
    /\ (forall line, In line (printed w') <->
                     In line (printed w) \/
                     unresolved_warning (graph w) (Package.files p) line).
Proof.
  intros Hp Hw He. unfold add_file_dependencies, document_files. rewrite Hp.
  unfold bind at 1, ret at 1.
  destruct (files_loop (graph w) (Package.files p) w Hw (fun _ => eq_refl) He)
    as (w' & E & Hb & _ & _ & Hg & Hpr).
  exists w'. repeat split; try assumption; try apply Hg; try apply Hpr.
Qed.

End RdfWriterFacts.

(** ** The properties on the sample inputs *)

Section Samples.

(** *** [create_conjunction_node] *)

(** C4, as stated, fails on the writer: the conjunction node written for
    [MIT AND (Apache-2.0 OR BSD-3-Clause)] does not have two members, one
    of them a disjunction node with two members. *)
Lemma conjunction_node_is_not_two_members :
  ~ (exists node : RdfWriter.term,
       let r := RdfWriter.create_conjunction_node RdfWriter.sample_LICENSE_MAP
                  Document.init RdfWriter.MIT_AND_Apache_OR_BSD
                  RdfWriter.writer_init in
       snd r = Return node
       /\ List.length (RdfWriter.members (RdfWriter.graph (fst r)) node) = 2
       /\ In (RdfWriter.URIRef "http://spdx.org/licenses/MIT")
             (RdfWriter.members (RdfWriter.graph (fst r)) node)
       /\ exists disjunction : RdfWriter.term,
            In disjunction (RdfWriter.members (RdfWriter.graph (fst r)) node)
            /\ In disjunction
                 (RdfWriter.nodes_of_type (RdfWriter.graph (fst r))
                    (RdfWriter.spdx_namespace "DisjunctiveLicenseSet"))
            /\ List.length
                 (RdfWriter.members (RdfWriter.graph (fst r)) disjunction) = 2).
Proof.
  intros [node [Hr [Hl _]]].
  vm_compute in Hr. injection Hr as <-.
  vm_compute in Hl. discriminate.
Qed.

Lemma conjunction_node_members_witness :
  In "MIT" RdfWriter.sample_LICENSE_MAP
  /\ In "Apache-2.0" RdfWriter.sample_LICENSE_MAP
  /\ In "BSD-3-Clause" RdfWriter.sample_LICENSE_MAP
  /\ RdfWriter.fresh_node RdfWriter.writer_init
  /\ List.length
       (RdfWriter.members
          (RdfWriter.graph
             (fst (RdfWriter.create_conjunction_node RdfWriter.sample_LICENSE_MAP
                     Document.init RdfWriter.MIT_AND_Apache_OR_BSD
                     RdfWriter.writer_init)))
          (RdfWriter.BNode 0)) = 3.
Proof.
  assert (H1 : In "MIT" RdfWriter.sample_LICENSE_MAP) by (simpl; tauto).
  assert (H2 : In "Apache-2.0" RdfWriter.sample_LICENSE_MAP) by (simpl; tauto).
  assert (H3 : In "BSD-3-Clause" RdfWriter.sample_LICENSE_MAP) by (simpl; tauto).
  assert (H4 : RdfWriter.fresh_node RdfWriter.writer_init)
    by (intros p o H; exact H).
  repeat (split; [assumption|]).
  exact (proj1 (proj2 (proj2
    (conjunction_node_members_are_leaves RdfWriter.sample_LICENSE_MAP
       Document.init RdfWriter.writer_init H1 H2 H3 H4)))).
Defined.

(** *** [create_extracted_license] *)

(** C5.  On a new graph, [create_extracted_license] called twice with the
    same extracted license makes two nodes: the search for the plain
    identifier finds nothing in the graph of the first call, where the
    search for [Literal(identifier)] finds the first node; and
    [write_extracted_licenses], for a document that lists the license
    twice, leaves two [ExtractedLicensingInfo] nodes. *)
Theorem create_extracted_license_twice_two_nodes :
  let licenseId := RdfWriter.spdx_namespace "licenseId" in
  let ExtractedLicensingInfo := RdfWriter.spdx_namespace "ExtractedLicensingInfo" in
  let r1 := RdfWriter.create_extracted_license RdfWriter.sample_extracted
              RdfWriter.writer_init in
  let r2 := RdfWriter.create_extracted_license RdfWriter.sample_extracted (fst r1) in
  let r3 := RdfWriter.write_extracted_licenses RdfWriter.document_two_extracted
              (RdfWriter.URIRef "http://www.spdx.org/tools#SPDXRef-DOCUMENT")
              RdfWriter.writer_init in
  snd r1 = Return (RdfWriter.BNode 0)
  /\ snd r2 = Return (RdfWriter.BNode 1)
  /\ RdfWriter.nodes_of_type (RdfWriter.graph (fst r2)) ExtractedLicensingInfo =
       [RdfWriter.BNode 0; RdfWriter.BNode 1]
  /\ RdfWriter.triples (RdfWriter.graph (fst r1)) None (Some licenseId)
       (Some (RdfWriter.PlainStr "SPDXID-Doc-Generator-MIT")) = []
  /\ map RdfWriter.subject
       (RdfWriter.triples (RdfWriter.graph (fst r1)) None (Some licenseId)
          (Some (RdfWriter.Literal "SPDXID-Doc-Generator-MIT"))) =
       [RdfWriter.BNode 0]
  /\ snd r3 = Return tt
  /\ RdfWriter.nodes_of_type (RdfWriter.graph (fst r3)) ExtractedLicensingInfo =
       [RdfWriter.BNode 0; RdfWriter.BNode 1].
Proof. vm_compute. repeat split. Qed.

(** *** [add_file_dependencies] *)

Lemma unresolved_dependency_witness :
  Document.package RdfWriter.document_two_files =
    Some (Package.set_files [RdfWriter.file_a; RdfWriter.file_b]
            (Package.init (Some "demo")))
  /\ RdfWriter.well_formed (RdfWriter.graph RdfWriter.writer_two_files)
  /\ RdfWriter.files_emitted (RdfWriter.graph RdfWriter.writer_two_files)
       [RdfWriter.file_a; RdfWriter.file_b]
  /\ exists w',
       RdfWriter.add_file_dependencies RdfWriter.document_two_files
         RdfWriter.writer_two_files = (w', Return tt)
       /\ RdfWriter.bnodes w' = 0
       /\ (forall t, In t (RdfWriter.graph w') <->
             In t (RdfWriter.graph RdfWriter.writer_two_files) \/
             RdfWriter.resolved_edge (RdfWriter.graph RdfWriter.writer_two_files)
               [RdfWriter.file_a; RdfWriter.file_b] t)
       /\ (forall line, In line (RdfWriter.printed w') <->
             In line [] \/
             RdfWriter.unresolved_warning
               (RdfWriter.graph RdfWriter.writer_two_files)
               [RdfWriter.file_a; RdfWriter.file_b] line).
Proof.
  assert (H1 : Document.package RdfWriter.document_two_files =
               Some (Package.set_files [RdfWriter.file_a; RdfWriter.file_b]
                       (Package.init (Some "demo")))) by reflexivity.
  assert (H2 : RdfWriter.well_formed (RdfWriter.graph RdfWriter.writer_two_files))
    by (repeat constructor).
  assert (H3 : RdfWriter.files_emitted (RdfWriter.graph RdfWriter.writer_two_files)
                 [RdfWriter.file_a; RdfWriter.file_b]).
  { intros f [<- | [<- | []]]; reflexivity. }
  repeat (split; [assumption|]).
  exact (unresolved_dependency_is_a_warning RdfWriter.document_two_files _
           RdfWriter.writer_two_files H1 H2 H3).
Defined.

(** what the pass does on the sample: one edge, one warning *)
Example add_file_dependencies_sample :
  RdfWriter.add_file_dependencies RdfWriter.document_two_files
    RdfWriter.writer_two_files =
  ({| RdfWriter.graph :=
        RdfWriter.graph RdfWriter.writer_two_files ++
        [ (RdfWriter.URIRef "http://www.spdx.org/files#SPDXRef-2",
           RdfWriter.spdx_namespace "fileDependency",
           RdfWriter.URIRef "http://www.spdx.org/files#SPDXRef-1") ];
      RdfWriter.bnodes := 0;
      RdfWriter.printed :=
        ["Warning could not resolve file dependency ./b.py -> ./missing.py"] |},
   Return tt).
Proof. vm_compute. reflexivity. Qed.

(** *** The verification code *)

Lemma verification_code_witness :
  Forall (VerifCode.readable VerifCode.sample_files)
    (VerifCode.included_files VerifCode.sample_scan)
  /\ VerifCode.get_package_verification_code VerifCode.sample_sha1
       VerifCode.sample_files VerifCode.sample_scan =
     Return "sha1(sha1(content of demo/a.py)sha1(content of demo/b.py))".
Proof.
  assert (H : Forall (VerifCode.readable VerifCode.sample_files)
                (VerifCode.included_files VerifCode.sample_scan)).
  { repeat constructor; discriminate. }
  split; [exact H|].
  exact (proj1 (verification_code_sorted_and_order_free VerifCode.sample_sha1
                  VerifCode.sample_files VerifCode.sample_scan H)).
Defined.

(** *** The routing of [SPDXID] *)

Lemma sample_attribs_keep :
  TagValue.others_keep_doc_spdx_id TagValue.sample_attribs.
Proof.
  intros q [H | [H | [H | []]]]; try discriminate.
  injection H as <-. intros [self doc].
  unfold TagValue.same_doc_spdx_id, TagValue.p_doc_name_demo,
    Builders.set_doc_name, Builders.getflag, Builders.setflag,
    Builders.assign_doc, bind, ret, raise.
  simpl. destruct (self Builders.doc_name_set); simpl; split; reflexivity.
Qed.

Lemma spdx_id_routing_witness :
  fst (Builders.fresh_builder, Builders.document_with_file)
    Builders.doc_spdx_id_set = false
  /\ TagValue.others_keep_doc_spdx_id TagValue.sample_attribs
  /\ TagValue.parse_attribs (String.eqb "SPDXRef-DOCUMENT")
       (String.prefix "SPDXRef-") TagValue.sample_attribs
       (Builders.fresh_builder, Builders.document_with_file) =
     TagValue.later_attribs (String.prefix "SPDXRef-")
       [ TagValue.Other TagValue.p_doc_name_demo;
         TagValue.SPDX_ID "SPDXRef-File" ]
       (Builders.setattr Builders.doc_spdx_id_set true Builders.fresh_builder,
        Document.set_spdx_id (Some "SPDXRef-DOCUMENT")
          Builders.document_with_file)
  /\ Document.spdx_id
       (snd (fst (TagValue.parse_attribs (String.eqb "SPDXRef-DOCUMENT")
                    (String.prefix "SPDXRef-") TagValue.sample_attribs
                    (Builders.fresh_builder, Builders.document_with_file)))) =
     Some "SPDXRef-DOCUMENT".
Proof.
  assert (H1 : fst (Builders.fresh_builder, Builders.document_with_file)
                 Builders.doc_spdx_id_set = false) by reflexivity.
  repeat (split; [first [exact H1 | exact sample_attribs_keep]|]).
  exact (proj1 (proj1 (proj2 (spdx_id_first_document_then_file
                               (String.eqb "SPDXRef-DOCUMENT")
                               (String.prefix "SPDXRef-") TagValue.sample_attribs
                               (Builders.fresh_builder, Builders.document_with_file)
                               H1 sample_attribs_keep))
                  [] "SPDXRef-DOCUMENT"
                  [ TagValue.Other TagValue.p_doc_name_demo;
                    TagValue.SPDX_ID "SPDXRef-File" ]
                  (Builders.fresh_builder, Builders.document_with_file)
                  eq_refl eq_refl eq_refl) eq_refl).
Defined.

(** the sample pass: the document and its file get their identifiers *)
Example parse_attribs_sample :
  let r := TagValue.parse_attribs (String.eqb "SPDXRef-DOCUMENT")
             (String.prefix "SPDXRef-") TagValue.sample_attribs
             (Builders.fresh_builder, Builders.document_with_file) in
  snd r = Return tt
  /\ Document.spdx_id (snd (fst r)) = Some "SPDXRef-DOCUMENT"
  /\ option_map (fun p => map File.spdx_id (Package.files p))
       (Document.package (snd (fst r))) = Some [Some "SPDXRef-File"].
Proof. vm_compute. repeat split. Qed.

(** Where the builder was not reset the claim fails.  The second [SPDXID]
    line of [stopped_pass] comes before any file: the [OrderError] of the
    builder leaves the pass, and [doc_spdx_id_set] stays set.  In the next
    pass the first [SPDXID] line, a valid document identifier, goes to
    [set_file_spdx_id]: the new document gets no identifier, and the pass
    is stopped again. *)
Lemma first_spdx_id_after_stopped_pass :
  snd TagValue.stopped_pass = Raise (OrderError "File::SPDXID")
  /\ Document.spdx_id (snd (fst TagValue.stopped_pass)) =
     Some "http://www.spdx.org/tools#SPDXRef-DOCUMENT"
  /\ fst (fst TagValue.stopped_pass) Builders.doc_spdx_id_set = true
  /\ TagValue.first_spdx_id TagValue.next_attribs =
     Some "http://www.spdx.org/tools#SPDXRef-DOCUMENT"
  /\ Document.spdx_id (snd (fst TagValue.next_pass)) = None
  /\ snd TagValue.next_pass = Raise (OrderError "File::SPDXID").
Proof. vm_compute. repeat split. Qed.

End Samples.

(** * More properties *)

(** ** The builders: calls in sequence *)

Section BuilderSequences.
Import Builders.

Ltac run :=
  unfold has_package_and_has_file, has_package, has_file,
    assert_package_exists, assert_snippet_exists, assign_doc, assign_package,
    assign_file, assign_last_snippet, assign_last_review,
    assign_last_annotation, getdoc, getflag, setflag, bind, ret, raise;
  simpl.

Ltac split_cases :=
  repeat (match goal with
          | |- context [match ?x with _ => _ end] =>
              lazymatch x with
              | context [match _ with _ => _ end] => fail
              | _ => destruct x eqn:?
              end
          end; simpl).

Lemma update_last_length {A : Type} (g : A -> A) (l l' : list A) :
  Py.update_last g l = Some l' -> length l' = length l.
Proof.
  revert l'. induction l as [|x l IH]; intros l' H; [discriminate|].
  destruct l as [|y l].
  - injection H as <-. reflexivity.
  - change (option_map (cons x) (Py.update_last g (y :: l)) = Some l') in H.
    destruct (Py.update_last g (y :: l)) as [l0|] eqn:E; [|discriminate].
    injection H as <-. simpl. f_equal. apply IH. reflexivity.
Qed.

Lemma setter_raises_after_return (vd vn : string -> bool)
    (str_from_text : string -> option string)
    (f : flag) (setter : string -> M retval) (first : string)
    (s s1 : state) (r : retval) :
  In (f, setter) (single_valued_setters vd vn str_from_text) ->
  setter first s = (s1, Return r) ->
  forall second, exists msg, setter second s1 = (s1, Raise (CardinalityError msg)).
Proof.
  intros Hin Hrun second. unfold single_valued_setters in Hin. simpl in Hin.
  destruct s as [self doc].
  repeat (destruct Hin as [Hin | Hin];
          [ injection Hin as <- <-;
            match goal with
            | |- exists _, ?g ?a ?b = _ =>
                pattern b;
                match goal with |- ?P b => set (Q := P) end;
                unfold g in Hrun
            | |- exists _, ?g ?v ?a ?b = _ =>
                pattern b;
                match goal with |- ?P b => set (Q := P) end;
                unfold g in Hrun
            end;
            revert Hrun; run; split_cases; intros Hrun; try discriminate;
            injection Hrun as <- _; subst Q; cbv beta;
            match goal with
            | |- exists _, ?g _ _ = _ => unfold g
            | |- exists _, ?g _ _ _ = _ => unfold g
            end;
            repeat match goal with
                   | H : Some _ = Some _ |- _ => injection H as H; subst
                   | H : Py.update_last _ _ = Some _ |- _ =>
                       apply update_last_length in H
                   end;
            run; rewrite ?setattr_same, ?setattr_other by discriminate; simpl;
            repeat match goal with
                   | H : _ = _ |- _ => rewrite H; simpl
                   end;
            rewrite ?setattr_same, ?setattr_other by discriminate; simpl | ]).
  all: try contradiction.
  all: try (eexists; reflexivity).
Qed.

(** X1.  A setter of a single-valued field that has returned raises
    [CardinalityError] on the next call, whatever the new value is, and
    that call changes neither the builder nor the document. *)
Theorem setter_returns_once (vd vn : string -> bool)
    (str_from_text : string -> option string)
    (f : flag) (setter : string -> M retval) (first second : string)
    (s s1 : state) (r : retval) :
  In (f, setter) (single_valued_setters vd vn str_from_text) ->
  setter first s = (s1, Return r) ->
  exists msg, setter second s1 = (s1, Raise (CardinalityError msg)).
Proof.
  intros Hin Hrun. eapply setter_raises_after_return; eassumption.
Qed.

Lemma setter_returns_once_witness :
  In (doc_name_set, set_doc_name)
     (single_valued_setters (fun _ => true) (fun _ => true) (fun _ => None))
  /\ set_doc_name "demo" (fresh_builder, Document.init) =
       ((setattr doc_name_set true fresh_builder,
         Document.set_name (Some "demo") Document.init), Return RTrue)
  /\ exists msg,
       set_doc_name "other"
         (setattr doc_name_set true fresh_builder,
          Document.set_name (Some "demo") Document.init) =
       ((setattr doc_name_set true fresh_builder,
         Document.set_name (Some "demo") Document.init),
        Raise (CardinalityError msg)).
Proof.
  assert (H1 : In (doc_name_set, set_doc_name)
                 (single_valued_setters (fun _ => true) (fun _ => true)
                    (fun _ => None))).
  { simpl. tauto. }
  assert (H2 : set_doc_name "demo" (fresh_builder, Document.init) =
               ((setattr doc_name_set true fresh_builder,
                 Document.set_name (Some "demo") Document.init), Return RTrue))
    by reflexivity.
  split; [exact H1|]. split; [exact H2|].
  exact (setter_returns_once (fun _ => true) (fun _ => true) (fun _ => None)
           doc_name_set set_doc_name "demo" "other"
           (fresh_builder, Document.init) _ RTrue H1 H2).
Defined.

(** X2.  [set_doc_spdx_id] tests the value before it sets its flag: a
    refused identifier raises [SPDXValueError] and changes nothing, and
    the identifier that follows is stored. *)
Theorem set_doc_spdx_id_refusal_keeps_field_open (vd : string -> bool)
    (self : Builder) (doc : Document.t) (bad good : string) :
  self doc_spdx_id_set = false ->
  vd bad = false -> vd good = true ->
  let r1 := set_doc_spdx_id vd bad (self, doc) in
  r1 = ((self, doc), Raise (SPDXValueError "Document::SPDXID"))
  /\ set_doc_spdx_id vd good (fst r1) =
       ((setattr doc_spdx_id_set true self,
         Document.set_spdx_id (Some good) doc), Return RTrue).
Proof.
  intros Hf Hb Hg. cbv zeta.
  rewrite (set_doc_spdx_id_malformed vd self doc bad Hf Hb). split; [reflexivity|].
  cbn [fst]. unfold set_doc_spdx_id. run. rewrite Hf. simpl. rewrite Hg.
  reflexivity.
Qed.

Lemma set_doc_spdx_id_refusal_witness :
  fresh_builder doc_spdx_id_set = false
  /\ String.eqb "SPDXRef-1" "SPDXRef-DOCUMENT" = false
  /\ String.eqb "SPDXRef-DOCUMENT" "SPDXRef-DOCUMENT" = true
  /\ (let r1 := set_doc_spdx_id (fun v => String.eqb v "SPDXRef-DOCUMENT")
                  "SPDXRef-1" (fresh_builder, Document.init) in
      r1 = ((fresh_builder, Document.init),
            Raise (SPDXValueError "Document::SPDXID"))
      /\ set_doc_spdx_id (fun v => String.eqb v "SPDXRef-DOCUMENT")
           "SPDXRef-DOCUMENT" (fst r1) =
           ((setattr doc_spdx_id_set true fresh_builder,
             Document.set_spdx_id (Some "SPDXRef-DOCUMENT") Document.init),
            Return RTrue)).
Proof.
  do 3 (split; [reflexivity|]).
  exact (set_doc_spdx_id_refusal_keeps_field_open
           (fun v => String.eqb v "SPDXRef-DOCUMENT")
           fresh_builder Document.init "SPDXRef-1" "SPDXRef-DOCUMENT"
           eq_refl eq_refl eq_refl).
Defined.

(** X3.  [set_doc_namespace] sets its flag before it tests the value: a
    refused namespace raises [SPDXValueError], the document keeps the
    namespace it had, and every namespace that follows raises a
    [CardinalityError], whose message names [Document::Comment]. *)
Theorem set_doc_namespace_refusal_closes_field (vn : string -> bool)
    (self : Builder) (doc : Document.t) (bad next : string) :
  self doc_namespace_set = false ->
  vn bad = false ->
  let r1 := set_doc_namespace vn bad (self, doc) in
  snd r1 = Raise (SPDXValueError "Document::Namespace")
  /\ snd (fst r1) = doc
  /\ set_doc_namespace vn next (fst r1) =
       (fst r1, Raise (CardinalityError "Document::Comment")).
Proof.
  intros Hf Hb. cbv zeta.
  rewrite (set_doc_namespace_malformed vn self doc bad Hf Hb). cbn [fst snd].
  split; [reflexivity|]. split; [reflexivity|].
  apply set_doc_namespace_set. apply setattr_same.
Qed.

Lemma set_doc_namespace_refusal_witness :
  fresh_builder doc_namespace_set = false
  /\ Py.startswith "demo" "http://" = false
  /\ (let r1 := set_doc_namespace (fun v => Py.startswith v "http://") "demo"
                  (fresh_builder, Document.init) in
      snd r1 = Raise (SPDXValueError "Document::Namespace")
      /\ snd (fst r1) = Document.init
      /\ set_doc_namespace (fun v => Py.startswith v "http://")
           "http://spdx.org/spdxdocs/demo" (fst r1) =
           (fst r1, Raise (CardinalityError "Document::Comment"))).
Proof.
  do 2 (split; [reflexivity|]).
  exact (set_doc_namespace_refusal_closes_field
           (fun v => Py.startswith v "http://")
           fresh_builder Document.init "demo" "http://spdx.org/spdxdocs/demo"
           eq_refl eq_refl).
Defined.

(** *** [set_doc_data_lic] and the text after the last slash *)

Lemma split_cons (c : ascii) (s : string) :
  exists p ps, Py.split c s = p :: ps.
Proof.
  induction s as [|a s [p [ps IH]]]; simpl; [eauto|].
  destruct (Ascii.eqb a c); [eauto|]. rewrite IH. eauto.
Qed.

Lemma split_without (c : ascii) (s : string) :
  Py.contains (String c EmptyString) s = false -> Py.split c s = [s].
Proof.
  induction s as [|a s IH]; [reflexivity|].
  cbn [Py.split Py.contains String.prefix].
  destruct (Ascii.eqb_spec a c) as [->|Hne].
  - destruct (ascii_dec c c) as [_|N]; [|contradiction].
    destruct s; discriminate.
  - destruct (ascii_dec c a) as [->|_]; [contradiction|]. simpl.
    intros H. rewrite (IH H). reflexivity.
Qed.

Lemma split_app (c : ascii) (p s : string) :
  Py.split c (p ++ String c s) = Py.split c p ++ Py.split c s.
Proof.
  induction p as [|a p IH]; simpl.
  - rewrite Ascii.eqb_refl. reflexivity.
  - destruct (Ascii.eqb a c); [rewrite IH; reflexivity|].
    rewrite IH. destruct (split_cons c p) as [x [xs E]]. rewrite E.
    reflexivity.
Qed.

Lemma last_item_app {A : Type} (l1 : list A) (x : A) :
  Py.last_item (l1 ++ [x]) = Some x.
Proof.
  induction l1 as [|y l1 IH]; [reflexivity|].
  simpl. destruct (l1 ++ [x]) eqn:E; [destruct l1; discriminate | exact IH].
Qed.

Lemma split_length (c : ascii) (s : string) :
  Nat.eqb (length (Py.split c s)) 0 = false.
Proof. destruct (split_cons c s) as [p [ps E]]. rewrite E. reflexivity. Qed.

(** X4.  The first [set_doc_data_lic] on a document never raises: the
    test of the number of parts cannot fail, as [split] returns at least
    one part.  What is stored is the text after the last slash of the
    resource, or the resource itself when it has no slash. *)
Theorem set_doc_data_lic_last_segment (self : Builder) (doc : Document.t)
    (before identifier : string) :
  self doc_data_lics_set = false ->
  Py.contains "/" identifier = false ->
  (forall res, exists stored,
      set_doc_data_lic res (self, doc) =
      ((setattr doc_data_lics_set true self,
        Document.set_data_license (Some stored) doc), Return RNone))
  /\ set_doc_data_lic (before ++ "/" ++ identifier) (self, doc) =
       ((setattr doc_data_lics_set true self,
         Document.set_data_license (Some identifier) doc), Return RNone)
  /\ set_doc_data_lic identifier (self, doc) =
       ((setattr doc_data_lics_set true self,
         Document.set_data_license (Some identifier) doc), Return RNone).
Proof.
  intros Hf Hc.
  assert (Hrun : forall res stored,
             Py.last_item (Py.split "/" res) = Some stored ->
             set_doc_data_lic res (self, doc) =
             ((setattr doc_data_lics_set true self,
               Document.set_data_license (Some stored) doc), Return RNone)).
  { intros res stored Hl. unfold set_doc_data_lic. run. rewrite Hf. simpl.
    rewrite split_length. simpl. rewrite Hl. reflexivity. }
  split; [|split].
  - intros res. destruct (split_cons "/" res) as [p [ps E]].
    destruct (Py.last_item (Py.split "/" res)) as [stored|] eqn:El.
    + exists stored. apply Hrun. exact El.
    + exfalso. rewrite E in El. clear E. revert p El.
      induction ps as [|q ps IH]; intros p El; [discriminate|].
      apply (IH q). exact El.
  - apply Hrun. simpl append. rewrite split_app, (split_without _ _ Hc).
    apply last_item_app.
  - apply Hrun. rewrite (split_without _ _ Hc). reflexivity.
Qed.

Lemma set_doc_data_lic_last_segment_witness :
  fresh_builder doc_data_lics_set = false
  /\ Py.contains "/" "CC0-1.0" = false
  /\ set_doc_data_lic "http://spdx.org/licenses/CC0-1.0"
       (fresh_builder, Document.init) =
     ((setattr doc_data_lics_set true fresh_builder,
       Document.set_data_license (Some "CC0-1.0") Document.init), Return RNone).
Proof.
  do 2 (split; [reflexivity|]).
  exact (proj1 (proj2 (set_doc_data_lic_last_segment fresh_builder Document.init
                         "http://spdx.org/licenses" "CC0-1.0" eq_refl eq_refl))).
Defined.

(** *** [set_doc_version] and what follows the version *)

Lemma code_point_app (s rest : string) (c : N) (r : string) :
  Py.code_point s = Some (c, r) ->
  Py.code_point (s ++ rest) = Some (c, (r ++ rest)%string).
Proof.
  unfold Py.code_point.
  destruct s as [|a [|b [|b' [|b'' s]]]]; cbn [String.append]; cbv zeta;
    intros H;
    repeat match type of H with
           | (if ?t then _ else _) = _ => destruct t
           | match ?t with Some _ => _ | None => _ end = _ => destruct t
           | None = Some _ => discriminate H
           | Some _ = Some _ => injection H as <- <-
           end;
    reflexivity.
Qed.

Lemma code_point_shorter (s : string) (c : N) (r : string) :
  Py.code_point s = Some (c, r) -> (String.length r < String.length s)%nat.
Proof.
  unfold Py.code_point.
  destruct s as [|a [|b [|b' [|b'' s]]]]; cbv zeta; intros H;
    repeat match type of H with
           | (if ?t then _ else _) = _ => destruct t
           | match ?t with Some _ => _ | None => _ end = _ => destruct t
           | None = Some _ => discriminate H
           | Some _ = Some _ => injection H as <- <-
           end;
    cbn [String.length]; lia.
Qed.

Lemma digit_app (s rest : string) (v : N) (r : string) :
  Py.digit s = Some (v, r) -> Py.digit (s ++ rest) = Some (v, (r ++ rest)%string).
Proof.
  unfold Py.digit. destruct (Py.code_point s) as [[c r0]|] eqn:Hc; [|discriminate].
  rewrite (code_point_app s rest c r0 Hc).
  destruct (Py.decimal c); [|discriminate]. intros H. injection H as <- <-.
  reflexivity.
Qed.

Lemma digit_shorter (s : string) (v : N) (r : string) :
  Py.digit s = Some (v, r) -> (String.length r < String.length s)%nat.
Proof.
  unfold Py.digit. destruct (Py.code_point s) as [[c r0]|] eqn:Hc; [|discriminate].
  destruct (Py.decimal c); [|discriminate]. intros H. injection H as _ <-.
  exact (code_point_shorter s c r0 Hc).
Qed.

(** [span_digits] stops at the first character that is no digit, or at the
    end of the text: the fuel does not run out before *)
Lemma span_digits_fuel_rest (fuel : nat) (s : string) :
  (String.length s <= fuel)%nat ->
  Py.digit (snd (Py.span_digits_fuel fuel s)) = None.
Proof.
  revert s. induction fuel as [|fuel IH]; intros s Hl.
  - destruct s; [reflexivity | simpl in Hl; lia].
  - cbn [Py.span_digits_fuel].
    destruct (Py.digit s) as [[v r]|] eqn:Hd; [|exact Hd].
    pose proof (digit_shorter s v r Hd) as Hr.
    specialize (IH r ltac:(lia)).
    destruct (Py.span_digits_fuel fuel r). exact IH.
Qed.

Lemma span_digits_rest (s : string) : Py.digit (snd (Py.span_digits s)) = None.
Proof. apply span_digits_fuel_rest. apply le_n. Qed.

Lemma span_digits_fuel_length (fuel : nat) (s : string) :
  (List.length (fst (Py.span_digits_fuel fuel s)) <= fuel)%nat.
Proof.
  revert s. induction fuel as [|fuel IH]; intros s; [apply le_n|].
  cbn [Py.span_digits_fuel].
  destruct (Py.digit s) as [[v r]|]; [|simpl; lia].
  specialize (IH r). destruct (Py.span_digits_fuel fuel r). simpl in *. lia.
Qed.

Lemma span_digits_fuel_app (fuel : nat) (s rest : string) (d : list N) :
  Py.span_digits_fuel fuel s = (d, EmptyString) ->
  Py.digit rest = None ->
  forall fuel', (List.length d <= fuel')%nat ->
  Py.span_digits_fuel fuel' (s ++ rest) = (d, rest).
Proof.
  intros Hs Hr. revert s d Hs.
  assert (Hend : forall fuel', Py.span_digits_fuel fuel' rest = ([], rest)).
  { intros [|fuel']; [reflexivity|]. cbn [Py.span_digits_fuel]. rewrite Hr.
    reflexivity. }
  induction fuel as [|fuel IH]; intros s d Hs fuel' Hl.
  - cbn [Py.span_digits_fuel] in Hs. injection Hs as <- ->. apply Hend.
  - cbn [Py.span_digits_fuel] in Hs.
    destruct (Py.digit s) as [[v r]|] eqn:Hd.
    + destruct (Py.span_digits_fuel fuel r) as [d0 r0] eqn:H0.
      injection Hs as <- ->.
      destruct fuel' as [|fuel']; [simpl in Hl; lia|].
      cbn [Py.span_digits_fuel]. rewrite (digit_app s rest v r Hd).
      rewrite (IH r d0 H0 fuel' ltac:(simpl in Hl; lia)). reflexivity.
    + injection Hs as <- ->. apply Hend.
Qed.

Lemma span_digits_app (s rest : string) (d : list N) :
  Py.digits s = Some d ->
  Py.digit rest = None ->
  Py.span_digits (s ++ rest) = (d, rest).
Proof.
  unfold Py.digits, Py.span_digits. intros Hs Hr.
  destruct (Py.span_digits_fuel (String.length s) s) as [d0 [|a r0]] eqn:H0;
    [|discriminate].
  injection Hs as ->.
  apply (span_digits_fuel_app (String.length s) s rest d H0 Hr).
  pose proof (span_digits_fuel_length (String.length s) s) as Hl.
  rewrite H0 in Hl. simpl in Hl.
  assert (String.length s <= String.length (s ++ rest))%nat.
  { clear. induction s; simpl; lia. }
  lia.
Qed.

Lemma strip_prefix_app (p s : string) : Py.strip_prefix p (p ++ s) = Some s.
Proof.
  induction p as [|a p IH]; simpl; [destruct s; reflexivity|].
  rewrite Ascii.eqb_refl. exact IH.
Qed.

(** X5.  [set_doc_version] reads the version at the start of the value and
    ignores what follows it: [SPDX-M.N], where [M] and [N] are texts of
    one or more decimal digits (of any script, as [re.UNICODE] has it, and
    of at most 4300 digits, which [int] reads on every version of Python),
    followed by any text that does not go on with a decimal digit, is
    accepted as the version whose numbers are the values of [M] and [N]. *)
Theorem set_doc_version_ignores_trailing_text (self : Builder)
    (doc : Document.t) (m n rest : string) (dm dn : list N) :
  self doc_version_set = false ->
  Py.digits m = Some dm -> Py.digits n = Some dn ->
  (0 < List.length dm <= 4300)%nat -> (0 < List.length dn <= 4300)%nat ->
  Py.digit rest = None ->
  set_doc_version ("SPDX-" ++ m ++ "." ++ n ++ rest) (self, doc) =
  ((setattr doc_version_set true self,
    Document.set_version (Some {| major := Py.int dm; minor := Py.int dn |}) doc),
   Return RTrue).
Proof.
  intros Hf Dm Dn Hm Hn Hr.
  assert (Hv : VERS_STR_REGEX_match ("SPDX-" ++ m ++ "." ++ n ++ rest) =
               Some (Py.int dm, Py.int dn)).
  { unfold VERS_STR_REGEX_match. rewrite strip_prefix_app.
    rewrite (span_digits_app m ("." ++ n ++ rest)%string dm Dm eq_refl).
    destruct dm as [|v dm]; [simpl in Hm; lia|].
    change ("." ++ n ++ rest)%string with (String "." (n ++ rest)). cbv iota beta.
    rewrite (span_digits_app n rest dn Dn Hr).
    destruct dn as [|w dn]; [simpl in Hn; lia|]. reflexivity. }
  unfold set_doc_version, getflag, setflag, assign_doc, bind, ret, raise.
  cbn [fst snd]. rewrite Hf. cbn [negb fst snd]. rewrite Hv. reflexivity.
Qed.

Lemma set_doc_version_trailing_text_witness :
  fresh_builder doc_version_set = false
  /\ Py.digits "2" = Some [2%N] /\ Py.digits "1" = Some [1%N]
  /\ (0 < List.length [2%N] <= 4300)%nat /\ (0 < List.length [1%N] <= 4300)%nat
  /\ Py.digit ".3-draft" = None
  /\ set_doc_version "SPDX-2.1.3-draft" (fresh_builder, Document.init) =
     ((setattr doc_version_set true fresh_builder,
       Document.set_version (Some {| major := 2; minor := 1 |}) Document.init),
      Return RTrue).
Proof.
  assert (H2 : (0 < List.length [2%N] <= 4300)%nat) by (simpl; lia).
  assert (H1 : (0 < List.length [1%N] <= 4300)%nat) by (simpl; lia).
  do 3 (split; [reflexivity|]). split; [exact H2|]. split; [exact H1|].
  split; [reflexivity|].
  exact (set_doc_version_ignores_trailing_text fresh_builder Document.init
           "2" "1" ".3-draft" [2%N] [1%N] eq_refl eq_refl eq_refl H2 H1 eq_refl).
Defined.

(** [SPDX-2.1] followed by the Arabic-Indic digit three, [U+0663], whose
    encoding is the two bytes [D9 A3]: the minor number is 13 *)
Example set_doc_version_arabic_indic_digit :
  set_doc_version
    ("SPDX-2.1" ++ String (Ascii.ascii_of_nat 217)
                     (String (Ascii.ascii_of_nat 163) EmptyString))
    (fresh_builder, Document.init) =
  ((setattr doc_version_set true fresh_builder,
    Document.set_version (Some {| major := 2; minor := 13 |}) Document.init),
   Return RTrue).
Proof. reflexivity. Qed.

(** *** [set_chksum] of an external document reference *)

(** X6.  [set_chksum] keeps no flag: called again it raises no
    [CardinalityError] and replaces the checksum of the last external
    document reference, the references before it staying as they are; an
    empty checksum raises [SPDXValueError] and changes nothing. *)
Theorem set_chksum_overwrites (self : Builder) (doc : Document.t)
    (refs : list ExternalDocumentRef.t) (ref : ExternalDocumentRef.t)
    (first second : string) :
  Document.ext_document_references doc = refs ++ [ref] ->
  first <> "" -> second <> "" ->
  let r1 := set_chksum first (self, doc) in
  let r2 := set_chksum second (fst r1) in
  snd r1 = Return RNone /\ snd r2 = Return RNone
  /\ fst (fst r2) = self
  /\ Document.ext_document_references (snd (fst r2)) =
       refs ++ [ExternalDocumentRef.set_check_sum
                  (Some {| identifier := "SHA1"; value := second |}) ref]
  /\ set_chksum "" (fst r2) =
       (fst r2, Raise (SPDXValueError "ExternalDocumentRef::Checksum")).
Proof.
  intros Hr H1 H2. cbv zeta.
  destruct first as [|a first]; [contradiction|].
  destruct second as [|b second]; [contradiction|].
  unfold set_chksum, assign_last_ext_document_reference, bind, ret, raise.
  cbn [fst snd]. rewrite Hr, update_last_app. cbn [fst snd].
  cbn [Document.set_ext_document_references Document.ext_document_references].
  rewrite update_last_app. cbn [fst snd].
  repeat split.
Qed.

Lemma set_chksum_overwrites_witness :
  Document.ext_document_references document_with_reference =
    [] ++ [sample_reference]
  /\ "da39a3ee5e6b4b0d3255bfef95601890afd80709" <> ""
  /\ "2fd4e1c67a2d28fced849ee1bb76e7391b93eb12" <> ""
  /\ Document.ext_document_references
       (snd (fst (set_chksum "2fd4e1c67a2d28fced849ee1bb76e7391b93eb12"
                    (fst (set_chksum "da39a3ee5e6b4b0d3255bfef95601890afd80709"
                            (fresh_builder, document_with_reference)))))) =
     [] ++ [ExternalDocumentRef.set_check_sum
              (Some {| identifier := "SHA1";
                       value := "2fd4e1c67a2d28fced849ee1bb76e7391b93eb12" |})
              sample_reference].
Proof.
  assert (H1 : "da39a3ee5e6b4b0d3255bfef95601890afd80709" <> "") by discriminate.
  assert (H2 : "2fd4e1c67a2d28fced849ee1bb76e7391b93eb12" <> "") by discriminate.
  split; [reflexivity|]. split; [exact H1|]. split; [exact H2|].
  exact (proj1 (proj2 (proj2 (proj2
           (set_chksum_overwrites fresh_builder document_with_reference []
              sample_reference _ _ eq_refl H1 H2))))).
Defined.

End BuilderSequences.

(** ** The verification code: skipped and unreadable files *)

Section VerifCodeErrors.
Import VerifCode.

Variable sha1_hexdigest : string -> string.
Variable file_content : string -> option string.

Lemma hash_items_app (out : string) (l1 l2 : list scan_result)
    (templist : list string) :
  hash_items sha1_hexdigest file_content out (l1 ++ l2) templist =
  match hash_items sha1_hexdigest file_content out l1 templist with
  | Raise e => Raise e
  | Return templist' =>
      hash_items sha1_hexdigest file_content out l2 templist'
  end.
Proof.
  revert templist. induction l1 as [|item l1 IH]; intros templist; simpl.
  - reflexivity.
  - destruct (negb (should_skip_file (FileName item) out)); [|apply IH].
    destruct (get_file_hash sha1_hexdigest file_content (FileName item));
      [apply IH | reflexivity].
Qed.

(** X7.  An entry of the scan results that [should_skip_file] leaves out
    is not opened: with it or without it, readable or not, the
    verification code is the same. *)
Theorem skipped_entry_is_not_read (before after : list scan_result)
    (item : scan_result) (output_file_name : string) :
  should_skip_file (FileName item) output_file_name = true ->
  get_package_verification_code sha1_hexdigest file_content
    {| id_scan_results := before ++ item :: after;
       output_file_name := output_file_name |} =
  get_package_verification_code sha1_hexdigest file_content
    {| id_scan_results := before ++ after;
       output_file_name := output_file_name |}.
Proof.
  intros Hs. unfold get_package_verification_code. cbn [VerifCode.id_scan_results VerifCode.output_file_name].
  rewrite !hash_items_app.
  destruct (hash_items sha1_hexdigest file_content output_file_name before []);
    [|reflexivity].
  simpl. rewrite Hs. reflexivity.
Qed.

(** X8.  The first entry that is not left out and cannot be read ends
    [get_package_verification_code] with the [OSError] of its path,
    whatever comes after it. *)
Theorem unreadable_file_raises_OSError (before after : list scan_result)
    (item : scan_result) (output_file_name : string) :
  Forall (readable file_content)
    (included_files {| id_scan_results := before;
                       output_file_name := output_file_name |}) ->
  should_skip_file (FileName item) output_file_name = false ->
  file_content (FileName item) = None ->
  get_package_verification_code sha1_hexdigest file_content
    {| id_scan_results := before ++ item :: after;
       output_file_name := output_file_name |} =
  Raise (OSError (FileName item)).
Proof.
  intros Hr Hs Hc. unfold get_package_verification_code.
  cbn [VerifCode.id_scan_results VerifCode.output_file_name].
  rewrite hash_items_app.
  rewrite (hash_items_readable sha1_hexdigest file_content _ _ _ Hr).
  simpl. rewrite Hs. unfold get_file_hash. rewrite Hc. reflexivity.
Qed.

End VerifCodeErrors.

Lemma skipped_entry_is_not_read_witness :
  VerifCode.should_skip_file "demo/LICENSE" "demospdx" = true
  /\ VerifCode.get_package_verification_code VerifCode.sample_sha1
       VerifCode.sample_files VerifCode.sample_scan =
     VerifCode.get_package_verification_code VerifCode.sample_sha1
       VerifCode.sample_files
       {| VerifCode.id_scan_results :=
            [ {| VerifCode.FileName := "demo/b.py"; VerifCode.SPDXID := "MIT" |} ] ++
            [ {| VerifCode.FileName := "demo/a.py";
                 VerifCode.SPDXID := "Apache-2.0" |} ];
          VerifCode.output_file_name := "demospdx" |}.
Proof.
  split; [reflexivity|].
  exact (skipped_entry_is_not_read VerifCode.sample_sha1 VerifCode.sample_files
           [ {| VerifCode.FileName := "demo/b.py"; VerifCode.SPDXID := "MIT" |} ]
           [ {| VerifCode.FileName := "demo/a.py";
                VerifCode.SPDXID := "Apache-2.0" |} ]
           {| VerifCode.FileName := "demo/LICENSE"; VerifCode.SPDXID := "MIT" |}
           "demospdx" eq_refl).
Defined.

Lemma unreadable_file_raises_OSError_witness :
  Forall (VerifCode.readable unreadable_a)
    (VerifCode.included_files
       {| VerifCode.id_scan_results :=
            [ {| VerifCode.FileName := "demo/b.py"; VerifCode.SPDXID := "MIT" |};
              {| VerifCode.FileName := "demo/LICENSE"; VerifCode.SPDXID := "MIT" |} ];
          VerifCode.output_file_name := "demospdx" |})
  /\ VerifCode.should_skip_file "demo/a.py" "demospdx" = false
  /\ unreadable_a "demo/a.py" = None
  /\ VerifCode.get_package_verification_code VerifCode.sample_sha1 unreadable_a
       VerifCode.sample_scan =
     Raise (OSError "demo/a.py").
Proof.
  assert (H : Forall (VerifCode.readable unreadable_a)
                (VerifCode.included_files
                   {| VerifCode.id_scan_results :=
                        [ {| VerifCode.FileName := "demo/b.py";
                             VerifCode.SPDXID := "MIT" |};
                          {| VerifCode.FileName := "demo/LICENSE";
                             VerifCode.SPDXID := "MIT" |} ];
                      VerifCode.output_file_name := "demospdx" |})).
  { repeat constructor. discriminate. }
  split; [exact H|]. split; [reflexivity|]. split; [reflexivity|].
  exact (unreadable_file_raises_OSError VerifCode.sample_sha1 unreadable_a
           [ {| VerifCode.FileName := "demo/b.py"; VerifCode.SPDXID := "MIT" |};
             {| VerifCode.FileName := "demo/LICENSE"; VerifCode.SPDXID := "MIT" |} ]
           []
           {| VerifCode.FileName := "demo/a.py"; VerifCode.SPDXID := "Apache-2.0" |}
           "demospdx" H eq_refl eq_refl).
Defined.

Section SkipFacts.
Import VerifCode.

Lemma prefix_app (sub s after : string) :
  String.prefix sub s = true -> String.prefix sub (s ++ after) = true.
Proof.
  revert s. induction sub as [|a sub IH]; intros s H;
    [destruct (s ++ after)%string; reflexivity|].
  destruct s as [|b s]; [discriminate|]. simpl in *.
  destruct (ascii_dec a b); [apply IH; exact H | discriminate].
Qed.

Lemma contains_app_r (sub s after : string) :
  Py.contains sub s = true -> Py.contains sub (s ++ after) = true.
Proof.
  induction s as [|b s IH]; intros H.
  - simpl in H. rewrite orb_false_r in H.
    destruct sub; [|discriminate]. destruct after; reflexivity.
  - cbn [Py.contains] in H. apply orb_true_iff in H.
    change (String b s ++ after)%string with (String b (s ++ after)).
    cbn [Py.contains]. apply orb_true_iff. destruct H as [H|H].
    + left. apply (prefix_app sub (String b s) after H).
    + right. apply IH. exact H.
Qed.

Lemma contains_app_l (sub before s : string) :
  Py.contains sub s = true -> Py.contains sub (before ++ s) = true.
Proof.
  intros H. induction before as [|b before IH]; [exact H|].
  change (String b before ++ s)%string with (String b (before ++ s)).
  cbn [Py.contains]. rewrite IH. apply orb_true_r.
Qed.

Lemma should_skip_file_cases (file_path output_file : string) :
  should_skip_file file_path output_file =
  Py.contains output_file file_path
  || Py.contains "LICENSE" file_path || Py.contains "VERSION" file_path.
Proof.
  unfold should_skip_file, FILES_TO_EXCLUDE. simpl fold_left.
  destruct (Py.contains output_file file_path),
           (Py.contains "LICENSE" file_path),
           (Py.contains "VERSION" file_path); reflexivity.
Qed.

Lemma prefix_split (sub s : string) :
  String.prefix sub s = true -> exists after, s = (sub ++ after)%string.
Proof.
  revert s. induction sub as [|a sub IH]; intros s H; [exists s; reflexivity|].
  destruct s as [|b s]; [discriminate|]. simpl in H.
  destruct (ascii_dec a b) as [<-|]; [|discriminate].
  destruct (IH s H) as [after ->]. exists after. reflexivity.
Qed.

Lemma prefix_refl (sub : string) : String.prefix sub sub = true.
Proof.
  induction sub as [|a sub IH]; [reflexivity|]. simpl.
  destruct (ascii_dec a a); [exact IH | contradiction].
Qed.

Lemma contains_split (sub s : string) :
  Py.contains sub s = true ->
  exists before after, s = (before ++ sub ++ after)%string.
Proof.
  induction s as [|b s IH]; cbn [Py.contains]; intros H;
    apply orb_true_iff in H; destruct H as [H|H]; try discriminate.
  - destruct (prefix_split _ _ H) as [after ->]. exists EmptyString, after.
    reflexivity.
  - destruct (prefix_split _ _ H) as [after ->]. exists EmptyString, after.
    reflexivity.
  - destruct (IH H) as [before [after ->]]. exists (String b before), after.
    reflexivity.
Qed.

Lemma contains_middle (sub before after : string) :
  Py.contains sub (before ++ sub ++ after) = true.
Proof.
  apply contains_app_l, contains_app_r.
  destruct sub as [|a sub]; [reflexivity|].
  cbn [Py.contains]. rewrite (prefix_refl (String a sub)). reflexivity.
Qed.

(** X9.  [should_skip_file] tests for substrings of the whole path: a path
    is skipped exactly when [VERSION], [LICENSE] or the name of the output
    file occurs somewhere in it.  So every file below a directory whose
    name has one of the three in it is left out, whatever comes before and
    after, and no other file is. *)
Theorem should_skip_file_substring (file_path output_file : string) :
  should_skip_file file_path output_file = true <->
  exists word before after,
    (word = "VERSION" \/ word = "LICENSE" \/ word = output_file) /\
    file_path = (before ++ word ++ after)%string.
Proof.
  rewrite should_skip_file_cases. split.
  - intros H. apply orb_true_iff in H. destruct H as [H|H];
      [apply orb_true_iff in H; destruct H as [H|H]|];
      destruct (contains_split _ _ H) as [before [after ->]].
    + exists output_file, before, after. tauto.
    + exists "LICENSE", before, after. tauto.
    + exists "VERSION", before, after. tauto.
  - intros [word [before [after [Hw ->]]]].
    destruct Hw as [-> | [-> | ->]]; rewrite contains_middle;
      rewrite ?orb_true_r; reflexivity.
Qed.

(** the three words, each in the name of a directory, and a path with none
    of them *)
Example should_skip_file_samples :
  should_skip_file "demo/LICENSES/MIT.txt" "demospdx" = true
  /\ should_skip_file "demo/VERSIONS/1.0/a.py" "demospdx" = true
  /\ should_skip_file "out/demospdx.d/a.py" "demospdx" = true
  /\ should_skip_file "demo/src/a.py" "demospdx" = false.
Proof. repeat split. Qed.

End SkipFacts.

(** ** [Snippet.validate] with a list *)

Section SnippetMessagesFacts.
Import SnippetValidate SnippetMessages.

Lemma check_licenses_Some (lics : list pyobj) (l : list string) :
  check_licenses lics (Some l) =
  Return (Some (l ++ map (fun _ => not_a_license) (offending lics))).
Proof.
  revert l. induction lics as [|lic lics IH]; intros l; simpl.
  - rewrite app_nil_r. reflexivity.
  - unfold offending in *. simpl.
    destruct (is_license_or_special lic); simpl; [apply IH|].
    rewrite IH, <- app_assoc. reflexivity.
Qed.

(** X10.  Given a list, [Snippet.validate] returns a list that starts with
    the messages it was given, in their order; what it appends depends on
    the snippet only, and it appends nothing exactly when the five checks
    pass. *)
Theorem validate_appends_to_messages (self : Snippet.t) :
  exists found : list string,
    (forall messages : list string,
        validate self (Some messages) = Return (Some (messages ++ found)))
    /\ (found = [] <-> checks_pass self = true).
Proof.
  unfold validate, checks_pass, validate_spdx_id, validate_copyright_text,
    validate_snip_from_file_spdxid, validate_concluded_license,
    validate_licenses_in_snippet.
  set (m1 := match Snippet.spdx_id self with
             | None => ["Snippet has no SPDX Identifier."] | Some _ => [] end).
  set (m2 := if is_text_or_special (Snippet.copyright self) then []
             else ["Snippet copyright must be str or unicode or utils.NoAssert or utils.SPDXNone"]).
  set (m3 := match Snippet.snip_from_file_spdxid self with
             | None => ["Snippet has no Snippet from File SPDX Identifier."]
             | Some _ => [] end).
  set (m4 := if is_license_or_special (Snippet.conc_lics self) then []
             else ["Snippet Concluded License must be one of document.License, utils.NoAssert or utils.SPDXNone"]).
  set (m5 := if Nat.eqb (length (Snippet.licenses_in_snippet self)) 0
             then ["Snippet must have at least one license in file."]
             else map (fun _ => not_a_license)
                    (offending (Snippet.licenses_in_snippet self))).
  exists (m1 ++ m2 ++ m3 ++ m4 ++ m5). split.
  - intros messages. subst m1 m2 m3 m4 m5.
    destruct (Snippet.spdx_id self); simpl;
      destruct (is_text_or_special (Snippet.copyright self)); simpl;
      destruct (Snippet.snip_from_file_spdxid self); simpl;
      destruct (is_license_or_special (Snippet.conc_lics self)); simpl;
      destruct (Nat.eqb (length (Snippet.licenses_in_snippet self)) 0); simpl;
      rewrite ?check_licenses_Some, <- ?app_assoc; reflexivity.
  - assert (H5 : forall lics, map (fun _ : pyobj => not_a_license) (offending lics) = [] <->
                              forallb is_license_or_special lics = true).
    { induction lics as [|lic lics IH]; simpl; [tauto|].
      unfold offending in *. simpl.
      destruct (is_license_or_special lic); simpl; [exact IH|].
      split; discriminate. }
    subst m1 m2 m3 m4 m5.
    destruct (Snippet.spdx_id self); simpl;
      destruct (is_text_or_special (Snippet.copyright self)); simpl;
      destruct (Snippet.snip_from_file_spdxid self); simpl;
      destruct (is_license_or_special (Snippet.conc_lics self)); simpl;
      destruct (Nat.eqb (length (Snippet.licenses_in_snippet self)) 0); simpl;
      try (split; discriminate).
    apply H5.
Qed.

(** X11.  When the snippet has licenses, [validate] reports each entry of
    [licenses_in_snippet] that is no license with a message of its own:
    the same message as many times as there are such entries. *)
Theorem validate_one_message_per_license (self : Snippet.t)
    (messages : list string) :
  Snippet.spdx_id self <> None ->
  is_text_or_special (Snippet.copyright self) = true ->
  Snippet.snip_from_file_spdxid self <> None ->
  is_license_or_special (Snippet.conc_lics self) = true ->
  Snippet.licenses_in_snippet self <> [] ->
  validate self (Some messages) =
  Return (Some (messages ++
                repeat not_a_license
                  (length (offending (Snippet.licenses_in_snippet self))))).
Proof.
  intros H1 H2 H3 H4 H5.
  unfold validate, validate_spdx_id, validate_copyright_text,
    validate_snip_from_file_spdxid, validate_concluded_license,
    validate_licenses_in_snippet.
  destruct (Snippet.spdx_id self); [|contradiction]. simpl.
  rewrite H2. simpl.
  destruct (Snippet.snip_from_file_spdxid self); [|contradiction]. simpl.
  rewrite H4. simpl.
  destruct (Snippet.licenses_in_snippet self) as [|lic lics] eqn:E;
    [contradiction|].
  cbn [length Nat.eqb]. rewrite check_licenses_Some. do 3 f_equal.
  generalize (offending (lic :: lics)) as l.
  induction l as [|x l IH]; simpl; [reflexivity | rewrite IH; reflexivity].
Qed.

Lemma validate_one_message_per_license_witness :
  Snippet.spdx_id snippet_with_strings <> None
  /\ is_text_or_special (Snippet.copyright snippet_with_strings) = true
  /\ Snippet.snip_from_file_spdxid snippet_with_strings <> None
  /\ is_license_or_special (Snippet.conc_lics snippet_with_strings) = true
  /\ Snippet.licenses_in_snippet snippet_with_strings <> []
  /\ validate snippet_with_strings (Some ["earlier"]) =
     Return (Some ["earlier"; not_a_license; not_a_license]).
Proof.
  assert (H1 : Snippet.spdx_id snippet_with_strings <> None) by discriminate.
  assert (H3 : Snippet.snip_from_file_spdxid snippet_with_strings <> None)
    by discriminate.
  assert (H5 : Snippet.licenses_in_snippet snippet_with_strings <> [])
    by discriminate.
  split; [exact H1|]. split; [reflexivity|]. split; [exact H3|].
  split; [reflexivity|]. split; [exact H5|].
  exact (validate_one_message_per_license snippet_with_strings ["earlier"]
           H1 eq_refl H3 eq_refl H5).
Defined.

End SnippetMessagesFacts.

(** ** The RDF writer: the files of the package, license sets, nodes *)

Section PackageWriterFacts.
Import RdfWriter PackageWriter.

Lemma has_file_helper_found (f : File.t) (w : writer) (node : term) :
  file_nodes (graph w) (File.name f) = [node] ->
  handle_package_has_file_helper f w = (w, Return node).
Proof.
  intros H. unfold handle_package_has_file_helper, bind, get.
  unfold file_nodes in H.
  destruct (triples (graph w) None (Some (spdx_namespace "fileName"))
              (Some (Literal (File.name f)))) as [|t [|t' l]];
    try discriminate.
  injection H as <-. reflexivity.
Qed.

Lemma has_file_helper_missing (f : File.t) (w : writer) :
  List.length (file_nodes (graph w) (File.name f)) <> 1 ->
  handle_package_has_file_helper f w =
    (w, Raise (InvalidDocumentError (no_file_node f))).
Proof.
  intros H. unfold handle_package_has_file_helper, bind, get.
  unfold file_nodes in H. rewrite length_map in H.
  apply Nat.eqb_neq in H. rewrite H. reflexivity.
Qed.

Lemma single_node (g : Graph) (name : string) :
  List.length (file_nodes g name) = 1 -> exists node, file_nodes g name = [node].
Proof.
  destruct (file_nodes g name) as [|n [|n' l]]; try discriminate. eauto.
Qed.

Lemma map_each_found (files : list File.t) (w : writer) :
  files_emitted (graph w) files ->
  exists nodes,
    map_each handle_package_has_file_helper files w = (w, Return nodes)
    /\ Forall2 (fun f node => file_nodes (graph w) (File.name f) = [node])
         files nodes.
Proof.
  induction files as [|f files IH]; intros He.
  - exists []. split; [reflexivity | constructor].
  - destruct (single_node _ _ (He f (or_introl eq_refl))) as [node Hn].
    destruct IH as [nodes [E F]].
    { intros x Hx. apply He. right. exact Hx. }
    exists (node :: nodes). split; [|constructor; assumption].
    simpl. unfold bind at 1. rewrite (has_file_helper_found _ _ _ Hn).
    unfold bind at 1. rewrite E. reflexivity.
Qed.

Lemma map_each_missing (before after : list File.t) (f : File.t) (w : writer) :
  files_emitted (graph w) before ->
  List.length (file_nodes (graph w) (File.name f)) <> 1 ->
  map_each handle_package_has_file_helper (before ++ f :: after) w =
    (w, Raise (InvalidDocumentError (no_file_node f))).
Proof.
  intros He Hf. induction before as [|b before IH]; simpl.
  - unfold bind. rewrite (has_file_helper_missing _ _ Hf). reflexivity.
  - destruct (single_node _ _ (He b (or_introl eq_refl))) as [node Hn].
    unfold bind at 1. rewrite (has_file_helper_found _ _ _ Hn).
    unfold bind at 1. rewrite IH; [reflexivity|].
    intros x Hx. apply He. right. exact Hx.
Qed.

Lemma In_fold_add_state (A : Type) (f : A -> triple) (l : list A) (w : writer)
    (t : triple) :
  In t (graph (fold_left (fun w x => add_state (f x) w) l w)) <->
  In t (graph w) \/ In t (map f l).
Proof.
  revert w. induction l as [|x l IH]; intros w; simpl; [tauto|].
  rewrite IH. unfold add_state at 1. cbn [graph]. rewrite In_graph_add.
  intuition congruence.
Qed.

Lemma file_nodes_fold_add_state (A : Type) (f : A -> triple) (l : list A)
    (w : writer) (name : string) :
  (forall x, In x l -> predicate (f x) <> spdx_namespace "fileName") ->
  file_nodes (graph (fold_left (fun w x => add_state (f x) w) l w)) name =
  file_nodes (graph w) name.
Proof.
  revert w. induction l as [|x l IH]; intros w Hp; simpl; [reflexivity|].
  rewrite IH by (intros y Hy; apply Hp; right; exact Hy).
  unfold add_state. cbn [graph]. apply file_nodes_graph_add.
  apply Hp. left. reflexivity.
Qed.

(** X12.  When every file of the package has been emitted, its name
    carried by one node of the graph, [handle_package_has_file] returns,
    and what it adds to the graph is one [hasFile] edge from the package
    node to the node of each file; it makes no node and prints nothing. *)
Theorem has_file_edges_added (package : Package.t) (package_node : term)
    (w : writer) :
  well_formed (graph w) ->
  is_node package_node = true ->
  files_emitted (graph w) (Package.files package) ->
  exists w',
    handle_package_has_file package package_node w = (w', Return tt)
    /\ bnodes w' = bnodes w /\ printed w' = printed w
    /\ well_formed (graph w')
    /\ (forall t, In t (graph w') <->
                  In t (graph w) \/
                  has_file_edge (graph w) (Package.files package) package_node t).
Proof.
  intros Hw Hp He. unfold handle_package_has_file.
  destruct (map_each_found _ _ He) as [nodes [E F]].
  unfold bind. rewrite E.
  assert (Hn : forall node, In node nodes -> is_node node = true).
  { clear E He. induction F as [|f node files nodes Hf F IH]; intros x Hx;
      [contradiction|].
    destruct Hx as [<- | Hx]; [|apply IH; exact Hx].
    assert (Hl : List.length (file_nodes (graph w) (File.name f)) = 1)
      by (rewrite Hf; reflexivity).
    destruct (file_nodes_single _ _ Hl) as [t [_ [Ht Hin]]].
    rewrite Hf in Ht. injection Ht as ->.
    apply (well_formed_subject _ _ Hw Hin). }
  assert (Ht : forall t,
             In t (map (fun node => (package_node, spdx_namespace "hasFile", node))
                     nodes) -> is_node_triple t = true).
  { intros t Hin. apply in_map_iff in Hin. destruct Hin as [node [<- Hin]].
    unfold is_node_triple. cbn [subject predicate object fst snd].
    rewrite Hp, (Hn node Hin). reflexivity. }
  rewrite (for_each_add _ (fun t => t)) by exact Ht.
  eexists. split; [reflexivity|].
  pose proof (grows_fold_add _ (fun t : triple => t) _ w Ht) as (Gb & Gp & _ & Gw).
  split; [exact Gb|]. split; [exact Gp|]. split; [exact (Gw Hw)|].
  intros t. rewrite In_fold_add_state, map_id.
  assert (Hedge : In t (map (fun node => (package_node, spdx_namespace "hasFile", node))
                          nodes) <->
                  has_file_edge (graph w) (Package.files package) package_node t).
  { clear E Hn Ht Gb Gp Gw He. unfold has_file_edge.
    induction F as [|f node files nodes Hf F IH]; simpl.
    - split; [contradiction | intros (f & node & [] & _)].
    - rewrite IH. split.
      + intros [<- | (f' & node' & Hin & Hr)].
        * exists f, node. tauto.
        * exists f', node'. tauto.
      + intros (f' & node' & [<- | Hin] & Hr & ->).
        * left. congruence.
        * right. exists f', node'. tauto. }
  rewrite Hedge. reflexivity.
Qed.

(** X13.  When a file of the package has no node of its own in the graph,
    none or several, [handle_package_has_file] raises
    [InvalidDocumentError] for the first such file and adds nothing: the
    files before it get no [hasFile] edge either. *)
Theorem has_file_missing_node_adds_nothing (package : Package.t)
    (package_node : term) (before after : list File.t) (f : File.t)
    (w : writer) :
  Package.files package = before ++ f :: after ->
  files_emitted (graph w) before ->
  List.length (file_nodes (graph w) (File.name f)) <> 1 ->
  handle_package_has_file package package_node w =
    (w, Raise (InvalidDocumentError (no_file_node f))).
Proof.
  intros Hp He Hf. unfold handle_package_has_file, bind.
  rewrite Hp, (map_each_missing _ _ _ _ He Hf). reflexivity.
Qed.

End PackageWriterFacts.

Lemma has_file_edges_added_witness :
  RdfWriter.well_formed (RdfWriter.graph RdfWriter.writer_two_files)
  /\ RdfWriter.is_node PackageWriter.sample_package_node = true
  /\ RdfWriter.files_emitted (RdfWriter.graph RdfWriter.writer_two_files)
       (Package.files
          (Package.set_files [RdfWriter.file_a; RdfWriter.file_b]
             (Package.init (Some "demo"))))
  /\ exists w',
       PackageWriter.handle_package_has_file
         (Package.set_files [RdfWriter.file_a; RdfWriter.file_b]
            (Package.init (Some "demo")))
         PackageWriter.sample_package_node RdfWriter.writer_two_files =
       (w', Return tt)
       /\ RdfWriter.bnodes w' = RdfWriter.bnodes RdfWriter.writer_two_files
       /\ RdfWriter.printed w' = RdfWriter.printed RdfWriter.writer_two_files
       /\ RdfWriter.well_formed (RdfWriter.graph w')
       /\ (forall t, In t (RdfWriter.graph w') <->
             In t (RdfWriter.graph RdfWriter.writer_two_files) \/
             PackageWriter.has_file_edge
               (RdfWriter.graph RdfWriter.writer_two_files)
               (Package.files
                  (Package.set_files [RdfWriter.file_a; RdfWriter.file_b]
                     (Package.init (Some "demo"))))
               PackageWriter.sample_package_node t).
Proof.
  assert (H1 : RdfWriter.well_formed (RdfWriter.graph RdfWriter.writer_two_files))
    by (repeat constructor).
  assert (H3 : RdfWriter.files_emitted (RdfWriter.graph RdfWriter.writer_two_files)
                 (Package.files
                    (Package.set_files [RdfWriter.file_a; RdfWriter.file_b]
                       (Package.init (Some "demo"))))).
  { intros f [<- | [<- | []]]; reflexivity. }
  split; [exact H1|]. split; [reflexivity|]. split; [exact H3|].
  exact (has_file_edges_added _ PackageWriter.sample_package_node
           RdfWriter.writer_two_files H1 eq_refl H3).
Defined.

Lemma has_file_missing_node_witness :
  Package.files PackageWriter.package_three_files =
    [RdfWriter.file_a; RdfWriter.file_b] ++ File.init "./c.py" :: []
  /\ RdfWriter.files_emitted (RdfWriter.graph RdfWriter.writer_two_files)
       [RdfWriter.file_a; RdfWriter.file_b]
  /\ List.length
       (RdfWriter.file_nodes (RdfWriter.graph RdfWriter.writer_two_files)
          (File.name (File.init "./c.py"))) <> 1
  /\ PackageWriter.handle_package_has_file PackageWriter.package_three_files
       PackageWriter.sample_package_node RdfWriter.writer_two_files =
     (RdfWriter.writer_two_files,
      Raise (InvalidDocumentError
               "handle_package_has_file_helper could not find file node for file: ./c.py")).
Proof.
  assert (H2 : RdfWriter.files_emitted (RdfWriter.graph RdfWriter.writer_two_files)
                 [RdfWriter.file_a; RdfWriter.file_b]).
  { intros f [<- | [<- | []]]; reflexivity. }
  assert (H3 : List.length
                 (RdfWriter.file_nodes (RdfWriter.graph RdfWriter.writer_two_files)
                    (File.name (File.init "./c.py"))) <> 1)
    by (vm_compute; discriminate).
  split; [reflexivity|]. split; [exact H2|]. split; [exact H3|].
  exact (has_file_missing_node_adds_nothing PackageWriter.package_three_files
           PackageWriter.sample_package_node
           [RdfWriter.file_a; RdfWriter.file_b] [] (File.init "./c.py")
           RdfWriter.writer_two_files eq_refl H2 H3).
Defined.

(** *** License expressions *)

Section LicenseTreeFacts.
Import RdfWriter LicenseTree.

Variable LICENSE_MAP : list string.
Variable document : Document.t.

Lemma helper_in_catalog (lic : Lic.single) (w : writer) :
  in_catalog LICENSE_MAP lic = true ->
  create_license_helper LICENSE_MAP document lic w =
    (w, Return (URIRef (Lic.url lic))).
Proof.
  destruct lic as [n i | e]; [|discriminate]. simpl. intros H.
  unfold create_license_helper. rewrite H. reflexivity.
Qed.

Lemma helper_missing (full_name identifier : string) (w : writer) :
  in_LICENSE_MAP LICENSE_MAP (Py.rstrip "+" identifier) = false ->
  (forall e, In e (Document.extracted_licenses document) ->
             Lic.ex_identifier e <> identifier) ->
  create_license_helper LICENSE_MAP document
    (Lic.License full_name identifier) w =
    (w, Raise (InvalidDocumentError
                 ("Missing extracted license: " ++ identifier)%string)).
Proof.
  intros Hc He. unfold create_license_helper. cbn [Lic.identifier].
  rewrite Hc.
  replace (filter (fun l => String.eqb (Lic.ex_identifier l) identifier)
             (Document.extracted_licenses document)) with (@nil Lic.extracted);
    [reflexivity|].
  symmetry. induction (Document.extracted_licenses document) as [|e l IH];
    [reflexivity|].
  simpl. destruct (String.eqb_spec (Lic.ex_identifier e) identifier) as [Heq|_].
  - exfalso. apply (He e); [left; reflexivity | exact Heq].
  - apply IH. intros x Hx. apply He. right. exact Hx.
Qed.

Lemma leaves_loop_app (l1 l2 : list Lic.single) (seen : list term) (w : writer) :
  leaves_loop LICENSE_MAP document (l1 ++ l2) seen w =
  match leaves_loop LICENSE_MAP document l1 seen w with
  | (w', Return seen') => leaves_loop LICENSE_MAP document l2 seen' w'
  | (w', Raise e) => (w', Raise e)
  end.
Proof.
  revert seen w. induction l1 as [|lic l1 IH]; intros seen w; simpl.
  - reflexivity.
  - unfold bind.
    destruct (create_license_helper LICENSE_MAP document lic w) as [w' [node|e]];
      [apply IH | reflexivity].
Qed.

Lemma tree_helper_leaves (tree : Lic.t) (seen : list term) (w : writer) :
  licenses_from_tree_helper LICENSE_MAP document tree seen w =
  leaves_loop LICENSE_MAP document (leaves tree) seen w.
Proof.
  revert seen w.
  induction tree as [lic | t1 IH1 t2 IH2 | t1 IH1 t2 IH2]; intros seen w.
  - simpl. unfold bind.
    destruct (create_license_helper LICENSE_MAP document lic w) as [w' [node|e]];
      reflexivity.
  - simpl. rewrite leaves_loop_app. unfold bind. rewrite IH1.
    destruct (leaves_loop LICENSE_MAP document (leaves t1) seen w)
      as [w' [seen'|e]]; [apply IH2 | reflexivity].
  - simpl. rewrite leaves_loop_app. unfold bind. rewrite IH1.
    destruct (leaves_loop LICENSE_MAP document (leaves t1) seen w)
      as [w' [seen'|e]]; [apply IH2 | reflexivity].
Qed.

Lemma leaves_loop_catalog (licenses : list Lic.single) (seen : list term)
    (w : writer) :
  forallb (in_catalog LICENSE_MAP) licenses = true ->
  leaves_loop LICENSE_MAP document licenses seen w =
    (w, Return (catalog_nodes licenses seen)).
Proof.
  revert seen. induction licenses as [|lic l IH]; intros seen H; simpl.
  - reflexivity.
  - simpl in H. apply andb_true_iff in H. destruct H as [H1 H2].
    unfold bind. rewrite (helper_in_catalog _ _ H1). apply IH. exact H2.
Qed.

Lemma set_add_NoDup (x : term) (s : list term) : NoDup s -> NoDup (set_add x s).
Proof.
  intros H. unfold set_add. destruct (in_dec term_eq_dec x s) as [Hin|Hin];
    [exact H|].
  apply NoDup_app; [exact H | repeat constructor; intros [] |].
  intros y Hy [<- | []]. contradiction.
Qed.

Lemma In_set_add (x y : term) (s : list term) :
  In y (set_add x s) <-> In y s \/ y = x.
Proof.
  unfold set_add. destruct (in_dec term_eq_dec x s) as [Hin|Hin].
  - split; [tauto|]. intros [H | ->]; assumption.
  - rewrite in_app_iff. simpl. intuition congruence.
Qed.

Lemma catalog_nodes_NoDup (licenses : list Lic.single) (seen : list term) :
  NoDup seen -> NoDup (catalog_nodes licenses seen).
Proof.
  revert seen. induction licenses as [|lic l IH]; intros seen H; simpl;
    [exact H|].
  apply IH, set_add_NoDup, H.
Qed.

Lemma In_catalog_nodes (licenses : list Lic.single) (seen : list term)
    (x : term) :
  In x (catalog_nodes licenses seen) <->
  In x seen \/ exists lic, In lic licenses /\ x = URIRef (Lic.url lic).
Proof.
  revert seen. induction licenses as [|lic l IH]; intros seen; simpl.
  - split; [tauto | intros [H | [lic [[] _]]]; exact H].
  - unfold catalog_nodes in *. simpl. rewrite IH, In_set_add. split.
    + intros [[H | ->] | [lic' [Hin ->]]]; [tauto | |].
      * right. exists lic. tauto.
      * right. exists lic'. tauto.
    + intros [H | [lic' [[<- | Hin] ->]]]; [tauto | tauto |].
      right. exists lic'. tauto.
Qed.

Lemma catalog_nodes_is_node (licenses : list Lic.single) (x : term) :
  In x (catalog_nodes licenses []) -> is_node x = true.
Proof.
  intros H. apply In_catalog_nodes in H. destruct H as [[] | [lic [_ ->]]].
  reflexivity.
Qed.

(** the members of a new node join the graph one after the other *)
Lemma add_members (node : term) (licenses : list term) (w : writer) :
  is_node node = true ->
  (forall lic, In lic licenses -> is_node lic = true) ->
  NoDup licenses ->
  (forall lic, In lic licenses ->
               ~ In (node, spdx_namespace "member", lic) (graph w)) ->
  for_each licenses (fun lic => add (node, spdx_namespace "member", lic)) w =
  ({| graph := graph w ++
               map (fun lic => (node, spdx_namespace "member", lic)) licenses;
      bnodes := bnodes w; printed := printed w |}, Return tt).
Proof.
  intros Hn. revert w. induction licenses as [|lic l IH]; intros w Hl Hd Hf.
  - simpl. rewrite app_nil_r. destruct w; reflexivity.
  - simpl. unfold bind. rewrite add_new.
    + inversion Hd as [|? ? Hnot Hd']; subst.
      rewrite IH.
      * cbn [graph bnodes printed]. rewrite <- app_assoc. reflexivity.
      * intros x Hx. apply Hl. right. exact Hx.
      * exact Hd'.
      * cbn [graph]. intros x Hx Hin. apply in_app_or in Hin.
        destruct Hin as [Hin | [Heq | []]].
        -- exact (Hf x (or_intror Hx) Hin).
        -- injection Heq as ->. exact (Hnot Hx).
    + unfold is_node_triple. cbn [subject predicate object fst snd].
      rewrite Hn, (Hl lic (or_introl eq_refl)). reflexivity.
    + apply Hf. left. reflexivity.
Qed.

Lemma members_of_set_node (node class : term) (licenses : list term) :
  class <> spdx_namespace "member" ->
  RDF_type <> spdx_namespace "member" ->
  members (set_node_triples node class licenses) node = licenses.
Proof.
  intros _ _. unfold members, set_node_triples, triples.
  cbn [filter subject predicate object fst snd matches].
  destruct (term_eq_dec node node) as [_|N]; [|contradiction].
  destruct (term_eq_dec (spdx_namespace "member") RDF_type) as [E|_];
    [discriminate|]. cbn [andb].
  induction licenses as [|lic l IH]; [reflexivity|].
  cbn [map filter subject predicate object fst snd].
  destruct (term_eq_dec node node) as [_|N]; [|contradiction].
  destruct (term_eq_dec (spdx_namespace "member") (spdx_namespace "member"))
    as [_|N]; [|contradiction].
  cbn [andb map]. rewrite IH. reflexivity.
Qed.

(** what [create_conjunction_node] and [create_disjunction_node] do for an
    expression whose leaves are licenses of the list *)
Lemma set_node_written (tree : Lic.t) (class : string) (w : writer) :
  forallb (in_catalog LICENSE_MAP) (leaves tree) = true ->
  fresh_node w ->
  (node <- new_BNode ;;
   add (node, RDF_type, spdx_namespace class) ;;
   licenses <- licenses_from_tree LICENSE_MAP document tree ;;
   for_each licenses (fun lic => add (node, spdx_namespace "member", lic)) ;;
   ret node) w =
  ({| graph := graph w ++
               set_node_triples (BNode (bnodes w)) (spdx_namespace class)
                 (catalog_nodes (leaves tree) []);
      bnodes := S (bnodes w); printed := printed w |},
   Return (BNode (bnodes w))).
Proof.
  intros Hc Hf. unfold bind at 1. unfold new_BNode at 1.
  unfold bind at 1. rewrite add_new; [| reflexivity | apply Hf].
  cbn [graph bnodes printed]. unfold bind at 1.
  unfold licenses_from_tree. rewrite tree_helper_leaves, (leaves_loop_catalog _ _ _ Hc).
  unfold bind at 1. rewrite add_members.
  - cbn [graph bnodes printed]. unfold ret, set_node_triples.
    rewrite <- app_assoc. reflexivity.
  - reflexivity.
  - intros lic. apply catalog_nodes_is_node.
  - apply catalog_nodes_NoDup. constructor.
  - cbn [graph]. intros lic _ Hin. apply in_app_or in Hin.
    destruct Hin as [Hin | [Heq | []]]; [exact (Hf _ _ Hin) | discriminate].
Qed.

(** X14.  For an expression all of whose leaves are licenses of the list,
    [create_conjunction_node] and [create_disjunction_node] make one new
    node and no other; its members are the nodes of the leaves of the
    whole expression, each once, whatever the operators inside it are. *)
Theorem license_set_members_are_all_leaves (tree : Lic.t) (w : writer) :
  forallb (in_catalog LICENSE_MAP) (leaves tree) = true ->
  fresh_node w ->
  let node := BNode (bnodes w) in
  let c := create_conjunction_node LICENSE_MAP document tree w in
  let d := create_disjunction_node LICENSE_MAP document tree w in
  snd c = Return node /\ snd d = Return node
  /\ bnodes (fst c) = S (bnodes w) /\ bnodes (fst d) = S (bnodes w)
  /\ NoDup (members (graph (fst c)) node)
  /\ NoDup (members (graph (fst d)) node)
  /\ (forall x, In x (members (graph (fst c)) node) <->
                exists lic, In lic (leaves tree) /\ x = URIRef (Lic.url lic))
  /\ (forall x, In x (members (graph (fst d)) node) <->
                exists lic, In lic (leaves tree) /\ x = URIRef (Lic.url lic))
  /\ nodes_of_type (graph (fst c)) (spdx_namespace "DisjunctiveLicenseSet") =
       nodes_of_type (graph w) (spdx_namespace "DisjunctiveLicenseSet")
  /\ nodes_of_type (graph (fst d)) (spdx_namespace "ConjunctiveLicenseSet") =
       nodes_of_type (graph w) (spdx_namespace "ConjunctiveLicenseSet").
Proof.
  intros Hc Hf. cbv zeta.
  unfold create_conjunction_node, create_disjunction_node.
  rewrite !(set_node_written tree _ w Hc Hf). cbn [fst snd graph bnodes].
  rewrite !members_app, (members_fresh w Hf), !members_of_set_node
    by discriminate.
  cbn [app].
  assert (Hin : forall x, In x (catalog_nodes (leaves tree) []) <->
                          exists lic, In lic (leaves tree) /\ x = URIRef (Lic.url lic)).
  { intros x. rewrite In_catalog_nodes. split; [intros [[]|H]; exact H | tauto]. }
  split; [reflexivity|]. split; [reflexivity|]. split; [reflexivity|].
  split; [reflexivity|].
  split; [apply catalog_nodes_NoDup; constructor|].
  split; [apply catalog_nodes_NoDup; constructor|].
  split; [exact Hin|]. split; [exact Hin|].
  assert (Hn : forall class other licenses,
             class <> other ->
             nodes_of_type
               (set_node_triples (BNode (bnodes w)) (spdx_namespace class) licenses)
               (spdx_namespace other) = []).
  { intros class other licenses Hne. unfold nodes_of_type, set_node_triples.
    rewrite triples_none; [reflexivity|].
    intros t [<- | Hin'] _ Hp Ho.
    - apply matches_Some in Ho. cbn in Ho. injection Ho as Ho.
      apply Hne. symmetry. exact Ho.
    - apply in_map_iff in Hin'. destruct Hin' as [lic [<- _]].
      apply matches_Some in Hp. discriminate. }
  rewrite !nodes_of_type_app, !Hn, !app_nil_r by discriminate.
  split; reflexivity.
Qed.

(** X15.  When a leaf of the expression is a license that is neither in
    the list nor among the extracted licenses of the document, and the
    leaves before it are in the list, [create_conjunction_node] raises
    [InvalidDocumentError] with the identifier of that license; the new
    node is in the graph by then, with its type and without a member. *)
Theorem missing_license_leaves_typed_node (tree : Lic.t)
    (before after : list Lic.single) (full_name identifier : string)
    (w : writer) :
  leaves tree = before ++ Lic.License full_name identifier :: after ->
  forallb (in_catalog LICENSE_MAP) before = true ->
  in_LICENSE_MAP LICENSE_MAP (Py.rstrip "+" identifier) = false ->
  (forall e, In e (Document.extracted_licenses document) ->
             Lic.ex_identifier e <> identifier) ->
  fresh_node w ->
  create_conjunction_node LICENSE_MAP document tree w =
  ({| graph := graph w ++
               [(BNode (bnodes w), RDF_type,
                 spdx_namespace "ConjunctiveLicenseSet")];
      bnodes := S (bnodes w); printed := printed w |},
   Raise (InvalidDocumentError
            ("Missing extracted license: " ++ identifier)%string)).
Proof.
  intros Hl Hb Hc He Hf. unfold create_conjunction_node.
  unfold bind at 1. unfold new_BNode at 1.
  unfold bind at 1. rewrite add_new; [| reflexivity | apply Hf].
  cbn [graph bnodes printed]. unfold bind at 1.
  unfold licenses_from_tree. rewrite tree_helper_leaves, Hl, leaves_loop_app.
  rewrite (leaves_loop_catalog _ _ _ Hb). simpl leaves_loop. unfold bind at 1.
  rewrite (helper_missing full_name identifier _ Hc He). reflexivity.
Qed.

End LicenseTreeFacts.

Lemma license_set_members_witness :
  forallb (LicenseTree.in_catalog RdfWriter.sample_LICENSE_MAP)
    (LicenseTree.leaves LicenseTree.MIT_OR_Apache_AND_MIT_OR_BSD) = true
  /\ RdfWriter.fresh_node RdfWriter.writer_init
  /\ NoDup
       (RdfWriter.members
          (RdfWriter.graph
             (fst (RdfWriter.create_conjunction_node RdfWriter.sample_LICENSE_MAP
                     Document.init LicenseTree.MIT_OR_Apache_AND_MIT_OR_BSD
                     RdfWriter.writer_init)))
          (RdfWriter.BNode (RdfWriter.bnodes RdfWriter.writer_init))).
Proof.
  assert (H2 : RdfWriter.fresh_node RdfWriter.writer_init)
    by (intros p o H; exact H).
  split; [reflexivity|]. split; [exact H2|].
  exact (proj1 (proj2 (proj2 (proj2 (proj2
           (license_set_members_are_all_leaves RdfWriter.sample_LICENSE_MAP
              Document.init LicenseTree.MIT_OR_Apache_AND_MIT_OR_BSD
              RdfWriter.writer_init eq_refl H2)))))).
Defined.

(** on the sample: [MIT] is a member once *)
Example license_set_members_sample :
  RdfWriter.members
    (RdfWriter.graph
       (fst (RdfWriter.create_conjunction_node RdfWriter.sample_LICENSE_MAP
               Document.init LicenseTree.MIT_OR_Apache_AND_MIT_OR_BSD
               RdfWriter.writer_init)))
    (RdfWriter.BNode 0) =
  [ RdfWriter.URIRef "http://spdx.org/licenses/MIT";
    RdfWriter.URIRef "http://spdx.org/licenses/Apache-2.0";
    RdfWriter.URIRef "http://spdx.org/licenses/BSD-3-Clause" ].
Proof. vm_compute. reflexivity. Qed.

Lemma missing_license_witness :
  LicenseTree.leaves LicenseTree.MIT_OR_Apache_AND_MIT_OR_GPL =
    [ Lic.License "MIT License" "MIT";
      Lic.License "Apache License 2.0" "Apache-2.0";
      Lic.License "MIT License" "MIT" ] ++
    Lic.License "GNU General Public License v2.0 only" "GPL-2.0" :: []
  /\ forallb (LicenseTree.in_catalog RdfWriter.sample_LICENSE_MAP)
       [ Lic.License "MIT License" "MIT";
         Lic.License "Apache License 2.0" "Apache-2.0";
         Lic.License "MIT License" "MIT" ] = true
  /\ RdfWriter.in_LICENSE_MAP RdfWriter.sample_LICENSE_MAP
       (Py.rstrip "+" "GPL-2.0") = false
  /\ (forall e, In e (Document.extracted_licenses Document.init) ->
                Lic.ex_identifier e <> "GPL-2.0")
  /\ RdfWriter.fresh_node RdfWriter.writer_init
  /\ RdfWriter.create_conjunction_node RdfWriter.sample_LICENSE_MAP
       Document.init LicenseTree.MIT_OR_Apache_AND_MIT_OR_GPL
       RdfWriter.writer_init =
     ({| RdfWriter.graph :=
           [] ++ [(RdfWriter.BNode 0, RdfWriter.RDF_type,
                   RdfWriter.spdx_namespace "ConjunctiveLicenseSet")];
         RdfWriter.bnodes := 1; RdfWriter.printed := [] |},
      Raise (InvalidDocumentError "Missing extracted license: GPL-2.0")).
Proof.
  assert (H4 : forall e, In e (Document.extracted_licenses Document.init) ->
                         Lic.ex_identifier e <> "GPL-2.0")
    by (intros e []).
  assert (H5 : RdfWriter.fresh_node RdfWriter.writer_init)
    by (intros p o H; exact H).
  split; [reflexivity|]. split; [reflexivity|]. split; [reflexivity|].
  split; [exact H4|]. split; [exact H5|].
  exact (missing_license_leaves_typed_node RdfWriter.sample_LICENSE_MAP
           Document.init LicenseTree.MIT_OR_Apache_AND_MIT_OR_GPL
           [ Lic.License "MIT License" "MIT";
             Lic.License "Apache License 2.0" "Apache-2.0";
             Lic.License "MIT License" "MIT" ]
           [] "GNU General Public License v2.0 only" "GPL-2.0"
           RdfWriter.writer_init eq_refl eq_refl eq_refl H4 H5).
Defined.

(** *** Extracted licenses, checksums and the dependency pass *)

Section WriterNodes.
Import RdfWriter.

Lemma extracted_license_step (document : Document.t) (doc_node : term)
    (l : Lic.extracted) (w : writer) :
  well_formed (graph w) -> is_node doc_node = true ->
  exists w1,
    (lic <- create_extracted_license l ;;
     add (doc_node, spdx_namespace "hasExtractedLicensingInfo", lic)) w =
      (w1, Return tt)
    /\ bnodes w1 = S (bnodes w)
    /\ well_formed (graph w1)
    /\ incl (graph w) (graph w1)
    /\ In (BNode (bnodes w), RDF_type, spdx_namespace "ExtractedLicensingInfo")
          (graph w1)
    /\ In (doc_node, spdx_namespace "hasExtractedLicensingInfo", BNode (bnodes w))
          (graph w1).
Proof.
  intros Hw Hd. unfold bind. rewrite (create_extracted_license_new l w Hw).
  assert (Hn : is_node_triple
                 (doc_node, spdx_namespace "hasExtractedLicensingInfo",
                  BNode (bnodes w)) = true).
  { unfold is_node_triple. cbn [subject predicate object fst snd].
    rewrite Hd. reflexivity. }
  rewrite (add_node_triple _ _ Hn). eexists. split; [reflexivity|].
  destruct (extracted_license_written_grows l w) as (Hb & Hw' & Hin & Hincl).
  unfold add_state. cbn [graph bnodes]. repeat split.
  - exact Hb.
  - apply well_formed_graph_add; [exact Hn | exact (Hw' Hw)].
  - intros t Ht. apply In_graph_add. left. apply Hincl. exact Ht.
  - apply In_graph_add. left. exact Hin.
  - apply In_graph_add. right. reflexivity.
Qed.

Lemma extracted_licenses_loop (doc_node : term) (licenses : list Lic.extracted)
    (w : writer) :
  well_formed (graph w) -> is_node doc_node = true ->
  exists w',
    for_each licenses
      (fun l =>
         lic <- create_extracted_license l ;;
         add (doc_node, spdx_namespace "hasExtractedLicensingInfo", lic)) w =
      (w', Return tt)
    /\ bnodes w' = bnodes w + List.length licenses
    /\ well_formed (graph w')
    /\ incl (graph w) (graph w')
    /\ (forall i, i < List.length licenses ->
          In (BNode (bnodes w + i), RDF_type,
              spdx_namespace "ExtractedLicensingInfo") (graph w')
          /\ In (doc_node, spdx_namespace "hasExtractedLicensingInfo",
                 BNode (bnodes w + i)) (graph w')).
Proof.
  intros Hw Hd. revert w Hw. induction licenses as [|l ls IH]; intros w Hw.
  - exists w. split; [reflexivity|]. split; [simpl; lia|].
    split; [exact Hw|]. split; [apply incl_refl|]. intros i Hi. simpl in Hi. lia.
  - destruct (extracted_license_step Document.init doc_node l w Hw Hd)
      as (w1 & E1 & Hb1 & Hw1 & Hi1 & Ht1 & Hh1).
    destruct (IH w1 Hw1) as (w2 & E2 & Hb2 & Hw2 & Hi2 & Hn2).
    exists w2. split; [|split; [|split; [|split]]].
    + simpl for_each. unfold bind at 1. rewrite E1. exact E2.
    + simpl. lia.
    + exact Hw2.
    + eapply incl_tran; eassumption.
    + intros [|i] Hi.
      * rewrite Nat.add_0_r. split; apply Hi2; assumption.
      * simpl in Hi. assert (Hi' : i < List.length ls) by lia.
        destruct (Hn2 i Hi') as [A B]. rewrite Hb1 in A, B.
        replace (bnodes w + S i) with (S (bnodes w) + i) by lia.
        split; assumption.
Qed.

(** X16.  On a graph of rdflib terms, [write_extracted_licenses] makes a
    new node for every entry of the extracted licenses of the document,
    entries with the same identifier included: the search of
    [create_extracted_license] for the plain identifier finds no node. *)
Theorem one_node_per_extracted_license (document : Document.t)
    (doc_node : term) (w : writer) :
  well_formed (graph w) -> is_node doc_node = true ->
  exists w',
    write_extracted_licenses document doc_node w = (w', Return tt)
    /\ bnodes w' =
         bnodes w + List.length (Document.extracted_licenses document)
    /\ (forall i, i < List.length (Document.extracted_licenses document) ->
          In (BNode (bnodes w + i), RDF_type,
              spdx_namespace "ExtractedLicensingInfo") (graph w')
          /\ In (doc_node, spdx_namespace "hasExtractedLicensingInfo",
                 BNode (bnodes w + i)) (graph w')).
Proof.
  intros Hw Hd. unfold write_extracted_licenses.
  destruct (extracted_licenses_loop doc_node
              (Document.extracted_licenses document) w Hw Hd)
    as (w' & E & Hb & _ & _ & Hn).
  exists w'. repeat split; try assumption; apply Hn; assumption.
Qed.

(** X17.  [create_checksum_node] makes a new node for each checksum, and
    the algorithm and the value can be read back from the graph: they are
    the only [algorithm] and [checksumValue] of the node returned. *)
Theorem checksum_node_round_trip (chksum : Algorithm) (w : writer) :
  fresh_node w ->
  let r := create_checksum_node chksum w in
  let node := BNode (bnodes w) in
  snd r = Return node
  /\ bnodes (fst r) = S (bnodes w)
  /\ map object (triples (graph (fst r)) (Some node)
                   (Some (spdx_namespace "algorithm")) None) =
       [Literal (identifier chksum)]
  /\ map object (triples (graph (fst r)) (Some node)
                   (Some (spdx_namespace "checksumValue")) None) =
       [Literal (value chksum)]
  /\ incl (graph w) (graph (fst r)).
Proof.
  intros Hf. cbv zeta.
  assert (Hnew : forall (l : list triple) p o,
             ~ In (BNode (bnodes w), p, o) l ->
             ~ In (BNode (bnodes w), p, o) (graph w ++ l)).
  { intros l p o Hl Hin. apply in_app_or in Hin.
    destruct Hin as [Hin|Hin]; [exact (Hf _ _ Hin) | exact (Hl Hin)]. }
  assert (E : create_checksum_node chksum w =
              ({| graph := graph w ++
                    [ (BNode (bnodes w), RDF_type, spdx_namespace "Checksum");
                      (BNode (bnodes w), spdx_namespace "algorithm",
                       Literal (identifier chksum));
                      (BNode (bnodes w), spdx_namespace "checksumValue",
                       Literal (value chksum)) ];
                  bnodes := S (bnodes w); printed := printed w |},
               Return (BNode (bnodes w)))).
  { unfold create_checksum_node.
    unfold bind at 1. unfold new_BNode at 1.
    unfold bind at 1. rewrite add_new; [| reflexivity | apply Hf].
    cbn [graph bnodes printed].
    unfold bind at 1.
    rewrite add_new;
      [| reflexivity | apply Hnew; simpl; intuition discriminate].
    cbn [graph bnodes printed]. rewrite <- app_assoc. simpl app.
    unfold bind at 1.
    rewrite add_new;
      [| reflexivity | apply Hnew; simpl; intuition discriminate].
    cbn [graph bnodes printed]. rewrite <- app_assoc. simpl app.
    reflexivity. }
  rewrite E. cbn [fst snd graph bnodes].
  assert (Hold : forall p, triples (graph w) (Some (BNode (bnodes w))) p None = []).
  { intros p. apply triples_none. intros [[s p'] o] Hin Hs _ _.
    apply matches_Some in Hs. cbn in Hs. subst s. exact (Hf _ _ Hin). }
  rewrite !triples_app, !Hold.
  unfold triples. cbn [filter subject predicate object fst snd app].
  rewrite !matches_same.
  split; [reflexivity|]. split; [reflexivity|].
  split; [reflexivity|]. split; [reflexivity|].
  intros t Ht. apply in_or_app. left. exact Ht.
Qed.

(** X18.  When a file of the document has no node of its own, none or
    several, the dependency pass raises [InvalidDocumentError] at that
    file, and what the pass did for the files before it stays: their
    edges are in the graph and their warnings are printed. *)
Theorem dependency_pass_stops_at_missing_subject (document : Document.t)
    (p : Package.t) (before after : list File.t) (f : File.t) (w : writer) :
  Document.package document = Some p ->
  Package.files p = before ++ f :: after ->
  well_formed (graph w) ->
  files_emitted (graph w) before ->
  List.length (file_nodes (graph w) (File.name f)) <> 1 ->
  exists w',
    add_file_dependencies document w =
      (w', Raise (InvalidDocumentError
                    ("Could not find dependency subject " ++ File.name f)%string))
    /\ (forall t, In t (graph w') <->
                  In t (graph w) \/ resolved_edge (graph w) before t)
    /\ (forall line, In line (printed w') <->
                     In line (printed w) \/
                     unresolved_warning (graph w) before line).
Proof.
  intros Hp Hfiles Hw He Hf. unfold add_file_dependencies, document_files.
  rewrite Hp. unfold bind at 1, ret at 1. rewrite Hfiles, for_each_app.
  destruct (files_loop (graph w) before w Hw (fun _ => eq_refl) He)
    as (w' & E & Hb & _ & Hn & Hg & Hpr).
  rewrite E. exists w'. split; [|split; assumption].
  simpl for_each. unfold bind at 1.
  unfold add_file_dependencies_helper. unfold bind at 1. unfold get at 1.
  assert (Hl : Nat.eqb
                 (List.length
                    (triples (graph w') None (Some (spdx_namespace "fileName"))
                       (Some (Literal (File.name f))))) 1 = false).
  { apply Nat.eqb_neq. intros Hx. apply Hf. rewrite <- (Hn (File.name f)).
    unfold file_nodes. rewrite length_map. exact Hx. }
  rewrite Hl. reflexivity.
Qed.

End WriterNodes.

Lemma one_node_per_extracted_license_witness :
  RdfWriter.well_formed (RdfWriter.graph RdfWriter.writer_init)
  /\ RdfWriter.is_node
       (RdfWriter.URIRef "http://www.spdx.org/tools#SPDXRef-DOCUMENT") = true
  /\ exists w',
       RdfWriter.write_extracted_licenses RdfWriter.document_two_extracted
         (RdfWriter.URIRef "http://www.spdx.org/tools#SPDXRef-DOCUMENT")
         RdfWriter.writer_init = (w', Return tt)
       /\ RdfWriter.bnodes w' =
            RdfWriter.bnodes RdfWriter.writer_init +
            List.length
              (Document.extracted_licenses RdfWriter.document_two_extracted)
       /\ (forall i,
             i < List.length
                   (Document.extracted_licenses RdfWriter.document_two_extracted) ->
             In (RdfWriter.BNode (RdfWriter.bnodes RdfWriter.writer_init + i),
                 RdfWriter.RDF_type,
                 RdfWriter.spdx_namespace "ExtractedLicensingInfo")
                (RdfWriter.graph w')
             /\ In (RdfWriter.URIRef "http://www.spdx.org/tools#SPDXRef-DOCUMENT",
                    RdfWriter.spdx_namespace "hasExtractedLicensingInfo",
                    RdfWriter.BNode (RdfWriter.bnodes RdfWriter.writer_init + i))
                   (RdfWriter.graph w')).
Proof.
  assert (H1 : RdfWriter.well_formed (RdfWriter.graph RdfWriter.writer_init))
    by constructor.
  split; [exact H1|]. split; [reflexivity|].
  exact (one_node_per_extracted_license RdfWriter.document_two_extracted
           (RdfWriter.URIRef "http://www.spdx.org/tools#SPDXRef-DOCUMENT")
           RdfWriter.writer_init H1 eq_refl).
Defined.

Lemma checksum_node_round_trip_witness :
  RdfWriter.fresh_node RdfWriter.writer_two_files
  /\ map RdfWriter.object
       (RdfWriter.triples
          (RdfWriter.graph
             (fst (RdfWriter.create_checksum_node
                     {| identifier := "SHA1";
                        value := "da39a3ee5e6b4b0d3255bfef95601890afd80709" |}
                     RdfWriter.writer_two_files)))
          (Some (RdfWriter.BNode (RdfWriter.bnodes RdfWriter.writer_two_files)))
          (Some (RdfWriter.spdx_namespace "checksumValue")) None) =
     [RdfWriter.Literal "da39a3ee5e6b4b0d3255bfef95601890afd80709"].
Proof.
  assert (H : RdfWriter.fresh_node RdfWriter.writer_two_files).
  { intros p o Hin. simpl in Hin.
    repeat (destruct Hin as [Hin | Hin]; [discriminate|]). exact Hin. }
  split; [exact H|].
  exact (proj1 (proj2 (proj2 (proj2
           (checksum_node_round_trip
              {| identifier := "SHA1";
                 value := "da39a3ee5e6b4b0d3255bfef95601890afd80709" |}
              RdfWriter.writer_two_files H))))).
Defined.

Lemma dependency_pass_stops_witness :
  Document.package PackageWriter.document_three_files =
    Some PackageWriter.package_three_files
  /\ Package.files PackageWriter.package_three_files =
       [RdfWriter.file_a; RdfWriter.file_b] ++ File.init "./c.py" :: []
  /\ RdfWriter.well_formed (RdfWriter.graph RdfWriter.writer_two_files)
  /\ RdfWriter.files_emitted (RdfWriter.graph RdfWriter.writer_two_files)
       [RdfWriter.file_a; RdfWriter.file_b]
  /\ List.length
       (RdfWriter.file_nodes (RdfWriter.graph RdfWriter.writer_two_files)
          (File.name (File.init "./c.py"))) <> 1
  /\ exists w',
       RdfWriter.add_file_dependencies PackageWriter.document_three_files
         RdfWriter.writer_two_files =
         (w', Raise (InvalidDocumentError
                       "Could not find dependency subject ./c.py"))
       /\ (forall t, In t (RdfWriter.graph w') <->
             In t (RdfWriter.graph RdfWriter.writer_two_files) \/
             RdfWriter.resolved_edge (RdfWriter.graph RdfWriter.writer_two_files)
               [RdfWriter.file_a; RdfWriter.file_b] t)
       /\ (forall line, In line (RdfWriter.printed w') <->
             In line (RdfWriter.printed RdfWriter.writer_two_files) \/
             RdfWriter.unresolved_warning
               (RdfWriter.graph RdfWriter.writer_two_files)
               [RdfWriter.file_a; RdfWriter.file_b] line).
Proof.
  assert (H3 : RdfWriter.well_formed (RdfWriter.graph RdfWriter.writer_two_files))
    by (repeat constructor).
  assert (H4 : RdfWriter.files_emitted (RdfWriter.graph RdfWriter.writer_two_files)
                 [RdfWriter.file_a; RdfWriter.file_b]).
  { intros f [<- | [<- | []]]; reflexivity. }
  assert (H5 : List.length
                 (RdfWriter.file_nodes (RdfWriter.graph RdfWriter.writer_two_files)
                    (File.name (File.init "./c.py"))) <> 1)
    by (vm_compute; discriminate).
  split; [reflexivity|]. split; [reflexivity|]. split; [exact H3|].
  split; [exact H4|]. split; [exact H5|].
  exact (dependency_pass_stops_at_missing_subject
           PackageWriter.document_three_files PackageWriter.package_three_files
           [RdfWriter.file_a; RdfWriter.file_b] [] (File.init "./c.py")
           RdfWriter.writer_two_files eq_refl eq_refl H3 H4 H5).
Defined.

(** ** The license list of [config.py] *)

Section ConfigFacts.
Import PyMore Config.

Lemma keys_dict_set (k v k' : string) (d : dict) :
  In k' (keys (dict_set k v d)) <-> k' = k \/ In k' (keys d).
Proof.
  unfold keys. induction d as [|[k0 v0] d IH]; simpl.
  - intuition.
  - destruct (String.eqb_spec k k0) as [->|Hne]; simpl; [intuition|].
    rewrite IH. intuition.
Qed.

Lemma dict_get_set_same (k v : string) (d : dict) :
  dict_get k (dict_set k v d) = Some v.
Proof.
  induction d as [|[k0 v0] d IH]; simpl.
  - rewrite String.eqb_refl. reflexivity.
  - destruct (String.eqb_spec k k0) as [->|Hne]; simpl.
    + rewrite String.eqb_refl. reflexivity.
    + destruct (String.eqb_spec k k0); [contradiction | exact IH].
Qed.

Lemma dict_get_set_other (k v k' : string) (d : dict) :
  k' <> k -> dict_get k' (dict_set k v d) = dict_get k' d.
Proof.
  intros Hne. induction d as [|[k0 v0] d IH]; simpl.
  - destruct (String.eqb_spec k' k); [contradiction | reflexivity].
  - destruct (String.eqb_spec k k0) as [->|Hne0]; simpl.
    + destruct (String.eqb_spec k' k0); [contradiction | reflexivity].
    + destruct (String.eqb_spec k' k0); [reflexivity | exact IH].
Qed.

Lemma load_entries_keys (licenses : list license_entry) (d : dict) (k : string) :
  In k (keys (load_entries licenses d)) <->
  In k (keys d) \/ In k (names_and_ids (current licenses)).
Proof.
  revert d. induction licenses as [|lic licenses IH]; intros d; simpl.
  - intuition.
  - destruct (isDeprecatedLicenseId lic); simpl; rewrite IH; [reflexivity|].
    rewrite !keys_dict_set. intuition.
Qed.

Lemma load_entries_other (licenses : list license_entry) (d : dict) (k : string) :
  ~ In k (names_and_ids (current licenses)) ->
  dict_get k (load_entries licenses d) = dict_get k d.
Proof.
  revert d. induction licenses as [|lic licenses IH]; intros d Hk; simpl.
  - reflexivity.
  - simpl in Hk. destruct (isDeprecatedLicenseId lic); simpl in *.
    + apply IH. exact Hk.
    + rewrite IH by tauto.
      rewrite !dict_get_set_other by (intros ->; tauto). reflexivity.
Qed.

(** X19.  The keys of the map that [load_license_list] returns are the
    names and the identifiers of the licenses that are not deprecated,
    and nothing else: a deprecated license adds no key. *)
Theorem license_map_keys (licenseListVersion : string)
    (licenses : list license_entry) (k : string) :
  In k (keys (snd (load_license_list licenseListVersion licenses))) <->
  exists lic, In lic licenses /\ isDeprecatedLicenseId lic = false /\
              (k = name lic \/ k = licenseId lic).
Proof.
  unfold load_license_list. simpl. rewrite load_entries_keys.
  unfold names_and_ids, current. rewrite in_flat_map. simpl. split.
  - intros [[] | [lic [Hin Hk]]]. apply filter_In in Hin.
    destruct Hin as [Hin Hd]. exists lic.
    destruct (isDeprecatedLicenseId lic); [discriminate|].
    intuition.
  - intros [lic [Hin [Hd Hk]]]. right. exists lic. split.
    + apply filter_In. rewrite Hd. tauto.
    + intuition.
Qed.

(** X20.  When the names and identifiers of the licenses that are not
    deprecated are all different, the map takes the name of each of them
    to its identifier and the identifier back to the name. *)
Theorem license_map_round_trip (licenseListVersion : string)
    (licenses : list license_entry) (lic : license_entry) :
  NoDup (names_and_ids (current licenses)) ->
  In lic licenses ->
  isDeprecatedLicenseId lic = false ->
  let LICENSE_MAP := snd (load_license_list licenseListVersion licenses) in
  dict_get (name lic) LICENSE_MAP = Some (licenseId lic)
  /\ dict_get (licenseId lic) LICENSE_MAP = Some (name lic).
Proof.
  intros Hnd Hin Hd. unfold load_license_list. simpl.
  assert (Hc : In lic (current licenses)).
  { apply filter_In. rewrite Hd. tauto. }
  clear Hin Hd. generalize (@nil (string * string)) as d.
  induction licenses as [|lic0 licenses IH]; intros d; [contradiction|].
  simpl in *. destruct (isDeprecatedLicenseId lic0); simpl in *.
  - apply IH; assumption.
  - inversion Hnd as [|? ? Hn1 Hnd1]; subst.
    inversion Hnd1 as [|? ? Hn2 Hnd2]; subst.
    destruct Hc as [<- | Hc].
    + rewrite !load_entries_other by (simpl in Hn1; tauto).
      rewrite dict_get_set_same.
      rewrite dict_get_set_other by (intros E; apply Hn1; left; auto).
      rewrite dict_get_set_same. split; reflexivity.
    + apply IH; assumption.
Qed.

Lemma license_map_round_trip_witness :
  NoDup (names_and_ids (current sample_licenses))
  /\ In MIT_entry sample_licenses
  /\ isDeprecatedLicenseId MIT_entry = false
  /\ dict_get "MIT License" (snd (load_license_list "3.6" sample_licenses)) =
       Some "MIT"
  /\ dict_get "MIT" (snd (load_license_list "3.6" sample_licenses)) =
       Some "MIT License".
Proof.
  assert (H : NoDup (names_and_ids (current sample_licenses))).
  { simpl. repeat constructor; simpl; intuition discriminate. }
  assert (H2 : In MIT_entry sample_licenses) by (left; reflexivity).
  split; [exact H|]. split; [exact H2|]. split; [reflexivity|].
  exact (license_map_round_trip "3.6" sample_licenses MIT_entry H H2 eq_refl).
Defined.

End ConfigFacts.

(** ** The license list and the writer *)

Section CatalogFacts.
Import PyMore Config RdfWriter.

(** X21.  With the keys of the map of [load_license_list] as the list of
    the writer, [create_license_helper] takes a license for one of the
    list when its identifier, without the [+] signs at its end, is the
    identifier of a license that is not deprecated, and also when it is
    the name of one: it returns the URI of the license and leaves the
    graph as it is. *)
Theorem license_helper_accepts_list_entries (licenseListVersion : string)
    (licenses : list license_entry) (lic : license_entry)
    (document : Document.t) (full_name identifier : string) (w : writer) :
  In lic licenses ->
  isDeprecatedLicenseId lic = false ->
  Py.rstrip "+" identifier = licenseId lic \/
  Py.rstrip "+" identifier = name lic ->
  create_license_helper
    (keys (snd (load_license_list licenseListVersion licenses)))
    document (Lic.License full_name identifier) w =
  (w, Return (URIRef (Lic.url (Lic.License full_name identifier)))).
Proof.
  intros Hin Hd Hk. unfold create_license_helper. cbn [Lic.identifier].
  rewrite in_LICENSE_MAP_In; [reflexivity|].
  apply license_map_keys. exists lic. tauto.
Qed.

End CatalogFacts.

Lemma license_helper_accepts_list_entries_witness :
  In Config.Apache_2_0_entry Config.sample_licenses
  /\ Config.isDeprecatedLicenseId Config.Apache_2_0_entry = false
  /\ (Py.rstrip "+" "Apache-2.0+" = Config.licenseId Config.Apache_2_0_entry \/
      Py.rstrip "+" "Apache-2.0+" = Config.name Config.Apache_2_0_entry)
  /\ RdfWriter.create_license_helper
       (PyMore.keys (snd (Config.load_license_list "3.6" Config.sample_licenses)))
       Document.init (Lic.License "Apache License 2.0 or later" "Apache-2.0+")
       RdfWriter.writer_init =
     (RdfWriter.writer_init,
      Return (RdfWriter.URIRef "http://spdx.org/licenses/Apache-2.0+")).
Proof.
  assert (H1 : In Config.Apache_2_0_entry Config.sample_licenses)
    by (simpl; tauto).
  assert (H3 : Py.rstrip "+" "Apache-2.0+" =
                 Config.licenseId Config.Apache_2_0_entry \/
               Py.rstrip "+" "Apache-2.0+" =
                 Config.name Config.Apache_2_0_entry)
    by (left; reflexivity).
  split; [exact H1|]. split; [reflexivity|]. split; [exact H3|].
  exact (license_helper_accepts_list_entries "3.6" Config.sample_licenses
           Config.Apache_2_0_entry Document.init "Apache License 2.0 or later"
           "Apache-2.0+" RdfWriter.writer_init H1 eq_refl H3).
Defined.

(** ** The version of a package *)

Section UtilsFacts.
Import Utils.

Lemma split_second (c : ascii) (s : string) :
  nth_error (Py.split c s) 1 = None <->
  Py.contains (String c EmptyString) s = false.
Proof.
  induction s as [|a s IH].
  - simpl. split; reflexivity.
  - cbn [Py.split Py.contains String.prefix].
    destruct (Ascii.eqb_spec a c) as [->|Hne].
    + destruct (ascii_dec c c) as [_|N]; [|contradiction].
      destruct (split_cons c s) as [p [ps E]]. rewrite E.
      destruct s; simpl; split; discriminate.
    + destruct (ascii_dec c a) as [->|_]; [contradiction|].
      destruct (split_cons c s) as [p [ps E]]. rewrite E in *.
      simpl. simpl in IH. exact IH.
Qed.

Lemma after_equals_cases (line : string) :
  (Py.contains "=" line = false /\ after_equals line = Raise IndexError)
  \/ (Py.contains "=" line = true /\
      exists v, nth_error (Py.split "=" line) 1 = Some v /\
                after_equals line = Return v).
Proof.
  unfold after_equals.
  destruct (nth_error (Py.split "=" line) 1) as [v|] eqn:E.
  - right. split; [|eauto].
    destruct (Py.contains "=" line) eqn:C; [reflexivity|].
    apply split_second in C. congruence.
  - left. split; [apply split_second; exact E | reflexivity].
Qed.

Lemma version_line_cases (st : versions) (line : string) :
  version_line st line =
  if malformed_line line then Raise IndexError
  else Return
         (if Py.contains "VERSION_MAJOR" line
          then nth_error (Py.split "=" line) 1 else fst st,
          if Py.contains "VERSION_MINOR" line
          then nth_error (Py.split "=" line) 1 else snd st).
Proof.
  unfold version_line, malformed_line.
  destruct (after_equals_cases line) as [[C E] | [C [v [N E]]]];
    rewrite C, E, ?N;
    destruct (Py.contains "VERSION_MAJOR" line),
             (Py.contains "VERSION_MINOR" line); reflexivity.
Qed.

Lemma version_lines_malformed (lines : list string) (st : versions) :
  existsb malformed_line lines = true ->
  version_lines st lines = Raise IndexError.
Proof.
  revert st. induction lines as [|line lines IH]; intros st H; [discriminate|].
  simpl in *. rewrite version_line_cases.
  destruct (malformed_line line); [reflexivity|]. apply IH. exact H.
Qed.

Lemma find_rev_cons {A : Type} (f : A -> bool) (x : A) (l : list A) :
  find f (rev (x :: l)) =
  match find f (rev l) with
  | Some y => Some y
  | None => if f x then Some x else None
  end.
Proof.
  simpl. generalize (rev l) as r. induction r as [|y r IH]; simpl.
  - reflexivity.
  - destruct (f y); [reflexivity | exact IH].
Qed.

Lemma last_value_cons (tag line : string) (lines : list string) :
  existsb malformed_line (line :: lines) = false ->
  (tag = "VERSION_MAJOR" \/ tag = "VERSION_MINOR") ->
  last_value tag (line :: lines) =
  or_earlier (last_value tag lines)
    (if Py.contains tag line then nth_error (Py.split "=" line) 1 else None).
Proof.
  intros Hm Ht. unfold last_value. rewrite find_rev_cons.
  destruct (find (Py.contains tag) (rev lines)) as [y|] eqn:F.
  - apply find_some in F. destruct F as [Hin Hy]. apply in_rev in Hin.
    simpl in Hm. apply orb_false_elim in Hm. destruct Hm as [_ Hm].
    assert (My : malformed_line y = false).
    { destruct (malformed_line y) eqn:E; [|reflexivity].
      assert (existsb malformed_line lines = true)
        by (apply existsb_exists; eauto).
      congruence. }
    unfold malformed_line in My.
    assert (Cy : Py.contains "=" y = true).
    { destruct Ht as [-> | ->]; rewrite Hy in My; simpl in My;
        rewrite ?orb_true_r in My; simpl in My;
        destruct (Py.contains "=" y); simpl in My; congruence. }
    destruct (after_equals_cases y) as [[C _] | [_ [v [N _]]]]; [congruence|].
    rewrite N. reflexivity.
  - simpl. destruct (Py.contains tag line); reflexivity.
Qed.

Lemma version_lines_last (lines : list string) (st : versions) :
  existsb malformed_line lines = false ->
  version_lines st lines =
  Return (or_earlier (last_value "VERSION_MAJOR" lines) (fst st),
          or_earlier (last_value "VERSION_MINOR" lines) (snd st)).
Proof.
  revert st. induction lines as [|line lines IH]; intros st H.
  - destruct st. reflexivity.
  - pose proof H as H0. simpl in H. apply orb_false_elim in H.
    destruct H as [Hl Hr].
    simpl version_lines. rewrite version_line_cases, Hl.
    rewrite (IH _ Hr). cbn [fst snd].
    rewrite !(last_value_cons _ _ _ H0) by tauto.
    unfold malformed_line in Hl.
    destruct (after_equals_cases line) as [[C _] | [_ [v [N _]]]].
    + rewrite C in Hl.
      destruct (last_value "VERSION_MAJOR" lines),
               (last_value "VERSION_MINOR" lines),
               (Py.contains "VERSION_MAJOR" line),
               (Py.contains "VERSION_MINOR" line);
        try discriminate Hl; reflexivity.
    + rewrite N.
      destruct (last_value "VERSION_MAJOR" lines),
               (last_value "VERSION_MINOR" lines),
               (Py.contains "VERSION_MAJOR" line),
               (Py.contains "VERSION_MINOR" line); reflexivity.
Qed.

Variable isdir : string -> bool.
Variable exists_ : string -> bool.
Variable join : string -> string -> string.
Variable lines_of : string -> option (list string).

(** X22.  When the [VERSION] file of the directory is found and read,
    [get_package_version] raises [IndexError] exactly when one of its
    lines mentions [VERSION_MAJOR] or [VERSION_MINOR] and has no [=]. *)
Theorem get_package_version_IndexError (path_or_file version_file : string)
    (lines : list string) :
  get_package_file isdir exists_ join path_or_file "VERSION" = Some version_file ->
  PyMore.truthy version_file = true ->
  lines_of version_file = Some lines ->
  (get_package_version isdir exists_ join lines_of path_or_file = Raise IndexError
   <-> existsb malformed_line lines = true).
Proof.
  intros Hf Ht Hl. unfold get_package_version. rewrite Hf, Ht, Hl. split.
  - intros H. destruct (existsb malformed_line lines) eqn:Hm; [reflexivity|].
    rewrite (version_lines_last _ _ Hm) in H. discriminate.
  - intros Hm. rewrite (version_lines_malformed _ _ Hm). reflexivity.
Qed.

(** X23.  When no line of the [VERSION] file is malformed, the version is
    made of the values of the last [VERSION_MAJOR] line and of the last
    [VERSION_MINOR] line: a later line replaces an earlier one, and the
    result is [None] when one of the two is missing or empty. *)
Theorem get_package_version_last_lines (path_or_file version_file : string)
    (lines : list string) :
  get_package_file isdir exists_ join path_or_file "VERSION" = Some version_file ->
  PyMore.truthy version_file = true ->
  lines_of version_file = Some lines ->
  existsb malformed_line lines = false ->
  get_package_version isdir exists_ join lines_of path_or_file =
  Return (version_string (last_value "VERSION_MAJOR" lines,
                          last_value "VERSION_MINOR" lines)).
Proof.
  intros Hf Ht Hl Hm. unfold get_package_version. rewrite Hf, Ht, Hl.
  rewrite (version_lines_last _ _ Hm). cbn [fst snd].
  destruct (last_value "VERSION_MAJOR" lines),
           (last_value "VERSION_MINOR" lines); reflexivity.
Qed.

End UtilsFacts.

Lemma get_package_version_IndexError_witness :
  Utils.get_package_file Utils.sample_isdir Utils.sample_exists Utils.sample_join
    "demo" "VERSION" = Some "demo/VERSION"
  /\ PyMore.truthy "demo/VERSION" = true
  /\ Utils.sample_lines_of Utils.broken_VERSION "demo/VERSION" =
       Some Utils.broken_VERSION
  /\ (Utils.get_package_version Utils.sample_isdir Utils.sample_exists
         Utils.sample_join (Utils.sample_lines_of Utils.broken_VERSION) "demo" =
       Raise IndexError
       <-> existsb Utils.malformed_line Utils.broken_VERSION = true).
Proof.
  split; [reflexivity|]. split; [reflexivity|]. split; [reflexivity|].
  exact (get_package_version_IndexError Utils.sample_isdir Utils.sample_exists
           Utils.sample_join (Utils.sample_lines_of Utils.broken_VERSION)
           "demo" "demo/VERSION" Utils.broken_VERSION eq_refl eq_refl eq_refl).
Defined.

Lemma get_package_version_last_lines_witness :
  Utils.get_package_file Utils.sample_isdir Utils.sample_exists Utils.sample_join
    "demo" "VERSION" = Some "demo/VERSION"
  /\ PyMore.truthy "demo/VERSION" = true
  /\ Utils.sample_lines_of Utils.sample_VERSION "demo/VERSION" =
       Some Utils.sample_VERSION
  /\ existsb Utils.malformed_line Utils.sample_VERSION = false
  /\ Utils.get_package_version Utils.sample_isdir Utils.sample_exists
       Utils.sample_join (Utils.sample_lines_of Utils.sample_VERSION) "demo" =
     Return (Some "1.4").
Proof.
  split; [reflexivity|]. split; [reflexivity|]. split; [reflexivity|].
  split; [reflexivity|].
  exact (get_package_version_last_lines Utils.sample_isdir Utils.sample_exists
           Utils.sample_join (Utils.sample_lines_of Utils.sample_VERSION)
           "demo" "demo/VERSION" Utils.sample_VERSION
           eq_refl eq_refl eq_refl eq_refl).
Defined.

(** ** The productions of the tag-value parser *)

Section ProductionFacts.
Import Builders PyMore Productions.

Ltac run :=
  unfold has_package_and_has_file, has_package, has_file,
    assert_package_exists, assert_snippet_exists, assign_doc, assign_package,
    assign_file, assign_last_snippet, assign_last_review,
    assign_last_annotation, getdoc, getflag, setflag, bind, ret, raise;
  simpl.

Ltac split_cases :=
  repeat (match goal with
          | |- context [match ?x with _ => _ end] =>
              lazymatch x with
              | context [match _ with _ => _ end] => fail
              | _ => destruct x eqn:?
              end
          end; simpl).

Lemma more_than_one_error_logs (tag : string) (line : nat) (self : Parser) :
  more_than_one_error tag line self =
    (log (only_one tag line) (set_error self), Returns).
Proof.
  unfold more_than_one_error, report, only_one.
  change (dict_get "MORE_THAN_ONE" ERROR_MESSAGES)
    with (Some "Only one {0} allowed, extra at line: {1}").
  cbv iota beta. generalize (str line) as n. intros n.
  cbn [format Ascii.eqb Bool.eqb Py.is_digit N_of_ascii N.leb N.compare
       Pos.compare Pos.compare_cont andb nth_error nat_of_ascii option_map].
  simpl. rewrite append_empty_r. reflexivity.
Qed.

Lemma order_error_logs (first_tag second_tag : string) (line : nat)
    (self : Parser) :
  exists msg,
    order_error first_tag second_tag line self =
      (log msg (set_error self), Returns).
Proof.
  unfold order_error, report.
  change (dict_get "A_BEFORE_B" ERROR_MESSAGES)
    with (Some "{0} Can not appear before {1}, line: {2}").
  cbv iota beta. generalize (str line) as n. intros n.
  simpl. eexists. reflexivity.
Qed.

Lemma report_logs (key template : string) (args : list string) (self : Parser) :
  dict_get key ERROR_MESSAGES = Some template ->
  format template args <> None ->
  exists msg, report key args self = (log msg (set_error self), Returns).
Proof.
  intros Hk Hf. unfold report. rewrite Hk.
  destruct (format template args) as [msg|]; [|contradiction].
  exists msg. reflexivity.
Qed.





(** X25.  [p_pkg_verif_2] and [p_lics_list_ver_2] look up a message that
    [ERROR_MESSAGES] does not have: after [error] is set they end with a
    [KeyError] and log nothing, where [p_file_chksum_2] logs its message
    and returns. *)
Theorem error_productions_without_message (p : YaccProduction) (self : Parser) :
  p_pkg_verif_2 p self = (set_error self, KeyError "PKG_VERF_CODE_VALUE")
  /\ p_lics_list_ver_2 p self =
       (set_error self, KeyError "LIC_LIST_VER_VALUE_TYPE")
  /\ dict_get "LIC_LIST_VER_VALUE" ERROR_MESSAGES = None
  /\ exists msg,
       p_file_chksum_2 p self = (log msg (set_error self), Returns).
Proof.
  split; [reflexivity|]. split; [reflexivity|]. split; [reflexivity|].
  unfold p_file_chksum_2. eapply report_logs; [reflexivity|].
  simpl. discriminate.
Qed.

(** X26.  When the builder has taken the value of a line, the next line
    with the same tag is reported and changes nothing else: the grammar
    function returns, [error] is set, the log gets the one message [Only
    one ... allowed, extra at line: ...] with the tag and the number of
    the line, and the builder and the document stay as the first line
    left them. *)
Theorem duplicate_line_is_reported (vn : string -> bool)
    (str_from_text : string -> option string)
    (tag : string) (setter : string -> M retval)
    (prod : YaccProduction -> production) (p1 p2 : YaccProduction)
    (self : Parser) (s1 : state) (r : retval) :
  In (tag, setter, prod) (single_valued_productions vn str_from_text) ->
  setter (p_2 p1) (builder self, document self) = (s1, Return r) ->
  prod p1 self =
    ({| builder := fst s1; document := snd s1; error := error self;
        logger := logger self |}, Returns)
  /\ prod p2 (fst (prod p1 self)) =
       ({| builder := fst s1; document := snd s1; error := true;
           logger := logger self ++ [only_one tag (lineno_1 p2)] |}, Returns).
Proof.
  intros Hin Hrun.
  assert (Hs : exists f, In (f, setter)
                           (single_valued_setters (fun _ => true) vn str_from_text)).
  { unfold single_valued_productions in Hin. simpl in Hin.
    repeat (destruct Hin as [Hin | Hin];
            [injection Hin as _ <- _; eexists; simpl; tauto|]).
    contradiction. }
  destruct Hs as [f Hs].
  destruct (setter_raises_after_return _ _ _ f setter (p_2 p1) _ s1 r Hs Hrun (p_2 p2))
    as [msg Hagain].
  destruct s1 as [b1 d1]. cbn [fst snd] in *.
  unfold single_valued_productions in Hin. simpl in Hin.
  repeat (destruct Hin as [Hin | Hin];
    [ injection Hin as <- <- <-;
      match goal with
      | |- ?g _ _ = _ /\ _ => unfold g
      | |- ?g _ _ _ = _ /\ _ => unfold g
      | |- ?g _ _ _ _ = _ /\ _ => unfold g
      end;
      unfold try_except; rewrite Hrun; cbn [fst snd builder document error logger];
      split; [reflexivity|];
      rewrite Hagain; cbn [fst snd];
      rewrite more_than_one_error_logs; reflexivity
    | ]).
  contradiction.
Qed.

End ProductionFacts.

Lemma duplicate_line_is_reported_witness :
  In ("FileChecksum", Builders.set_file_chksum,
      Productions.p_file_chksum_1)
     (Productions.single_valued_productions (fun _ => true) (fun _ => None))
  /\ Builders.set_file_chksum
       (Productions.p_2 Productions.FileChecksum_line_7)
       (Productions.builder Productions.sample_parser,
        Productions.document Productions.sample_parser) =
     (fst (Builders.set_file_chksum
             (Productions.p_2 Productions.FileChecksum_line_7)
             (Productions.builder Productions.sample_parser,
              Productions.document Productions.sample_parser)),
      Return RTrue)
  /\ Productions.logger
       (fst (Productions.p_file_chksum_1 Productions.FileChecksum_line_8
               (fst (Productions.p_file_chksum_1 Productions.FileChecksum_line_7
                       Productions.sample_parser)))) =
     ["Only one FileChecksum allowed, extra at line: 8"].
Proof.
  assert (H1 : In ("FileChecksum", Builders.set_file_chksum,
                   Productions.p_file_chksum_1)
                  (Productions.single_valued_productions (fun _ => true)
                     (fun _ => None))).
  { simpl. tauto. }
  assert (H2 : Builders.set_file_chksum
                 (Productions.p_2 Productions.FileChecksum_line_7)
                 (Productions.builder Productions.sample_parser,
                  Productions.document Productions.sample_parser) =
               (fst (Builders.set_file_chksum
                       (Productions.p_2 Productions.FileChecksum_line_7)
                       (Productions.builder Productions.sample_parser,
                        Productions.document Productions.sample_parser)),
                Return RTrue)) by reflexivity.
  split; [exact H1|]. split; [exact H2|].
  exact (f_equal (fun r => Productions.logger (fst r))
           (proj2 (duplicate_line_is_reported (fun _ => true) (fun _ => None)
                     "FileChecksum" Builders.set_file_chksum
                     Productions.p_file_chksum_1
                     Productions.FileChecksum_line_7
                     Productions.FileChecksum_line_8
                     Productions.sample_parser _ RTrue H1 H2))).
Defined.

